(** * Smart-Traffic: the traffic-condition simulation engine

    A shallow embedding of the two Python programs of the repository,

    - [docker/ml-service/mock_ml_service.py]: the mock prediction service
      ([predict_traffic] and the [/predict], [/batch/predict] and
      [/model/retrain] handlers);
    - [scripts/sample-data-generator.py]: the observation generator
      ([generate_traffic_density_by_hour], [generate_vehicle_count],
      [generate_average_speed], [generate_traffic_data]) and the hourly
      back-fill built on it ([ingest_traffic_data],
      [generate_historical_data]);

    followed by the properties of the specification that can be settled on
    them.

    Numbers.  Python's [float] is IEEE 754 binary64: confidences, speeds
    and random draws are Rocq's primitive [float], whose operations are the
    same binary64 operations, and a decimal literal denotes the same nearest
    double in both languages.  Python's [int] is [Z].

    Randomness.  The module-level generator of Python's [random] is an
    explicit stream of draws, one per call of [random.random()] or of
    [getrandbits], that every call consumes from the front, so a run is a
    function of its inputs and of the stream.  The functions of [random]
    are those of CPython: [uniform] and [choices] over [random()],
    [randint] and [choice] over [_randbelow], which draws until it accepts
    a draw.

    Requests.  The handlers of the service receive any JSON document and
    Python checks no type before it runs: the values of a request are the
    Python values of JSON, and an operation on a value of the wrong type
    raises as in Python. *)

From Stdlib Require Import ZArith List String Bool Lia Floats DecimalString.
Import ListNotations.

Set Warnings "-inexact-float,-register-all".

Local Open Scope Z_scope.

(* ================================================================== *)
(** * Python built-ins and the [random] module *)
(* ================================================================== *)

Module Py.

(** [min(a, b)] and [max(a, b)] on two floats: the first argument is kept
    unless the second is strictly smaller (resp. greater). *)
Definition min (a b : float) : float := if (b <? a)%float then b else a.
Definition max (a b : float) : float := if (a <? b)%float then b else a.

(** [x in l] for a list of string literals. *)
Fixpoint str_in (x : string) (l : list string) : bool :=
  match l with
  | [] => false
  | y :: l' => String.eqb x y || str_in x l'
  end.

(** [float(n)] for a small non-negative integer. *)
Definition float_of_Z (n : Z) : float := PrimFloat.of_uint63 (Uint63.of_Z n).

(** [len(l)] *)
Definition len {A : Type} (l : list A) : Z := Z.of_nat (List.length l).

(** [l[i]] for an index known to be in range. *)
Definition item {A : Type} (l : list A) (i : Z) (default : A) : A :=
  nth (Z.to_nat i) l default.

(** One step of the generator, that is, one call of one of its two
    primitives.  [d_unit] is what the step yields when it is consumed by
    [random.random()]; [d_int] is the raw integer it yields when it is
    consumed by [getrandbits(k)], which keeps [k] bits of it. *)
Record Draw : Type := mkDraw { d_unit : float; d_int : Z }.

Definition Source : Type := nat -> Draw.

Definition advance (s : Source) : Source := fun n => s (S n).

(** Computations that consume draws. *)
Definition Rand (A : Type) : Type := Source -> A * Source.

Definition ret {A : Type} (a : A) : Rand A := fun s => (a, s).

Definition bind {A B : Type} (m : Rand A) (f : A -> Rand B) : Rand B :=
  fun s => let (a, s') := m s in f a s'.

(** The contract of [random.random()]: the draw lies in [[0.0, 1.0)]. *)
Definition unit_draw (u : float) : bool := ((0 <=? u) && (u <? 1))%float.

(** Computations that consume draws in a loop that the draws themselves
    end.  The model runs such a loop for a bounded number of turns, its
    fuel; [None] is a run whose loop is still going when the fuel is
    spent. *)
Definition Sampler (A : Type) : Type := Source -> option (A * Source).

Definition done {A : Type} (a : A) : Sampler A := fun s => Some (a, s).

Definition after {A B : Type} (m : Sampler A) (f : A -> Sampler B) : Sampler B :=
  fun s =>
    match m s with
    | Some (a, s') => f a s'
    | None => None
    end.

(** A computation without such a loop, which always returns. *)
Definition lift {A : Type} (m : Rand A) : Sampler A := fun s => Some (m s).

End Py.

Declare Scope rand_scope.
Delimit Scope rand_scope with rand.
Notation "x <- m ;; k" := (Py.bind m (fun x => k))
  (at level 61, m at next level, right associativity) : rand_scope.

Declare Scope sampler_scope.
Delimit Scope sampler_scope with sampler.
Notation "x <- m ;; k" := (Py.after m (fun x => k))
  (at level 61, m at next level, right associativity) : sampler_scope.

Module Random.
Import Py.
Local Open Scope rand_scope.

(** [random.random()] *)
Definition random : Rand float := fun s => (d_unit (s 0%nat), advance s).

(** [random.uniform(a, b)] is [a + (b - a) * random()]. *)
Definition uniform (a b : float) : Rand float :=
  u <- random ;; ret (a + (b - a) * u)%float.

(** [n.bit_length()] *)
Definition bit_length (n : Z) : Z :=
  if n =? 0 then 0 else Z.log2 (Z.abs n) + 1.

(** [getrandbits(k)]: an integer of [k] bits, [0 <= r < 2**k]. *)
Definition getrandbits (k : Z) : Rand Z :=
  fun s => (d_int (s 0%nat) mod 2 ^ k, advance s).

(** The loop of [_randbelow(n)], for [n > 0]:

      k = n.bit_length()
      r = getrandbits(k)
      while r >= n:
          r = getrandbits(k)
      return r

    [fuel] bounds the number of calls of [getrandbits]. *)
Fixpoint randbelow_loop (fuel : nat) (n k : Z) : Sampler Z :=
  fun s =>
    match fuel with
    | O => None
    | S fuel' =>
        let (r, s') := getrandbits k s in
        if r >=? n then randbelow_loop fuel' n k s' else Some (r, s')
    end.

(** [_randbelow(n)]: an integer in [[0, n)], by rejection. *)
Definition randbelow (fuel : nat) (n : Z) : Sampler Z :=
  randbelow_loop fuel n (bit_length n).

(** [random.randint(a, b)] is [randrange(a, b + 1)], which is
    [a + _randbelow(b + 1 - a)] when the range is not empty, as it is at
    every call of the two programs. *)
Definition randint (fuel : nat) (a b : Z) : Sampler Z :=
  (k <- randbelow fuel (b - a + 1) ;; done (a + k))%sampler.

(** [random.choice(seq)] is [seq[_randbelow(len(seq))]] on a sequence that
    is not empty, as it is at every call of the two programs. *)
Definition choice {A : Type} (fuel : nat) (seq : list A) (default : A) : Sampler A :=
  (i <- randbelow fuel (len seq) ;; done (item seq i default))%sampler.

(** [itertools.accumulate(weights)] *)
Fixpoint accumulate_from (acc : Z) (weights : list Z) : list Z :=
  match weights with
  | [] => []
  | w :: ws => (acc + w) :: accumulate_from (acc + w) ws
  end.

Definition accumulate (weights : list Z) : list Z := accumulate_from 0 weights.

(** [bisect.bisect_right(a, x, lo, hi)]: the loop

      while lo < hi:
          mid = (lo + hi) // 2
          if x < a[mid]: hi = mid
          else: lo = mid + 1
      return lo

    [fuel] bounds the number of iterations; [hi - lo] halves at each one,
    so [hi - lo] iterations are always enough. *)
Fixpoint bisect_loop (fuel : nat) (a : list Z) (x : float) (lo hi : Z) : Z :=
  match fuel with
  | O => lo
  | S fuel' =>
      if lo <? hi then
        let mid := (lo + hi) / 2 in
        if (x <? float_of_Z (item a mid 0%Z))%float
        then bisect_loop fuel' a x lo mid
        else bisect_loop fuel' a x (mid + 1) hi
      else lo
  end.

Definition bisect (a : list Z) (x : float) (lo hi : Z) : Z :=
  bisect_loop (Z.to_nat (hi - lo)) a x lo hi.

(** [random.choices(population, weights=weights, k=1)[0]]:

      cum_weights = list(accumulate(weights))
      total = cum_weights[-1] + 0.0
      hi = n - 1
      population[bisect(cum_weights, random() * total, 0, hi)] *)
Definition choices1 {A : Type} (population : list A) (weights : list Z)
    (default : A) : Rand A :=
  let cum_weights := accumulate weights in
  let total := (float_of_Z (last cum_weights 0%Z) + 0)%float in
  let hi := len population - 1 in
  u <- random ;;
  ret (item population (bisect cum_weights (u * total)%float 0 hi) default).

End Random.

(* ================================================================== *)
(** * Data model *)
(* ================================================================== *)

(** The four density names, in the order of the list
    [TRAFFIC_DENSITIES = ["LOW", "MODERATE", "HIGH", "CRITICAL"]] that both
    programs declare. *)
Inductive TrafficDensity : Type := LOW | MODERATE | HIGH | CRITICAL.

Definition TRAFFIC_DENSITIES : list TrafficDensity := [LOW; MODERATE; HIGH; CRITICAL].

Definition density_eqb (a b : TrafficDensity) : bool :=
  match a, b with
  | LOW, LOW | MODERATE, MODERATE | HIGH, HIGH | CRITICAL, CRITICAL => true
  | _, _ => false
  end.

(** [TRAFFIC_DENSITIES.index(d)] *)
Fixpoint index_from (i : Z) (l : list TrafficDensity) (d : TrafficDensity) : Z :=
  match l with
  | [] => i
  | x :: l' => if density_eqb x d then i else index_from (i + 1) l' d
  end.

Definition index (l : list TrafficDensity) (d : TrafficDensity) : Z := index_from 0 l d.

(** The severity order LOW < MODERATE < HIGH < CRITICAL of the specification
    is the order of the positions in [TRAFFIC_DENSITIES]. *)
Definition severity (d : TrafficDensity) : Z := index TRAFFIC_DENSITIES d.

(* ================================================================== *)
(** * mock_ml_service.py *)
(* ================================================================== *)

Module MockMlService.
Import Py Random.
Local Open Scope rand_scope.

(** ** [predict_traffic], step by step

    The body of [predict_traffic] is a straight line of six blocks; each
    block is one definition below, over the two locals [base_prediction]
    and [base_confidence]. *)

Definition Estimate : Type := (TrafficDensity * float)%type.

(** Lines 23-31: base prediction from the time of day. *)
Definition base_by_hour (hour : Z) : Estimate :=
  if ((7 <=? hour) && (hour <=? 9)) || ((17 <=? hour) && (hour <=? 19)) then
    (HIGH, 0.85%float)
  else if (22 <=? hour) || (hour <=? 6) then
    (LOW, 0.80%float)
  else
    (MODERATE, 0.75%float).

(** Lines 34-37: adjust for day of week. *)
Definition adjust_day_of_week (day_of_week : string) (e : Estimate) : Estimate :=
  let (base_prediction, base_confidence) := e in
  if str_in day_of_week ["Saturday"; "Sunday"]%string then
    ((if density_eqb base_prediction HIGH then MODERATE else base_prediction),
     (base_confidence - 0.05)%float)
  else e.

(** Lines 40-45: adjust for weather. *)
Definition adjust_weather (weather : string) (e : Estimate) : Estimate :=
  let (base_prediction, base_confidence) := e in
  if str_in weather ["RAIN"; "SNOW"; "FOG"]%string then
    ((if density_eqb base_prediction LOW then MODERATE
      else if density_eqb base_prediction MODERATE then HIGH
      else base_prediction),
     (base_confidence - 0.10)%float)
  else e.

(** Lines 48-51: adjust for historical data. *)
Definition adjust_history (historical_data_points : Z) (e : Estimate) : Estimate :=
  let (base_prediction, base_confidence) := e in
  if historical_data_points >? 10 then
    (base_prediction, (base_confidence + 0.05)%float)
  else if historical_data_points <? 3 then
    (base_prediction, (base_confidence - 0.10)%float)
  else e.

(** Lines 23-51: the locals as they stand before any draw is made. *)
Definition pre_jitter (hour : Z) (day_of_week weather : string)
    (historical_data_points : Z) : Estimate :=
  adjust_history historical_data_points
    (adjust_weather weather
      (adjust_day_of_week day_of_week
        (base_by_hour hour))).

(** Lines 54-55: the confidence returned, given the value drawn by
    [random.uniform(-0.05, 0.05)]. *)
Definition clamp_confidence (base_confidence confidence_adjustment : float) : float :=
  Py.max 0.5 (Py.min 0.95 (base_confidence + confidence_adjustment)).

(** Lines 59-63: the body of [if random.random() < 0.2:], given the value
    [coin] of the second [random.random()]. *)
Definition shift_prediction (coin : float) (base_prediction : TrafficDensity)
    : TrafficDensity :=
  let current_index := index TRAFFIC_DENSITIES base_prediction in
  if (coin <? 0.5)%float && (current_index >? 0) then
    item TRAFFIC_DENSITIES (current_index - 1) base_prediction
  else if current_index <? len TRAFFIC_DENSITIES - 1 then
    item TRAFFIC_DENSITIES (current_index + 1) base_prediction
  else base_prediction.

(** Lines 58-63: occasionally change the prediction. *)
Definition reclassify (base_prediction : TrafficDensity) : Rand TrafficDensity :=
  fire <- random ;;
  if (fire <? 0.2)%float then
    coin <- random ;;
    ret (shift_prediction coin base_prediction)
  else ret base_prediction.

(** [predict_traffic(lat, lon, hour, day_of_week, weather,
    historical_data_points)] *)
Definition predict_traffic (lat lon : float) (hour : Z) (day_of_week weather : string)
    (historical_data_points : Z) : Rand Estimate :=
  let (base_prediction, base_confidence) :=
    pre_jitter hour day_of_week weather historical_data_points in
  confidence_adjustment <- uniform (-0.05) 0.05 ;;
  let final_confidence := clamp_confidence base_confidence confidence_adjustment in
  base_prediction <- reclassify base_prediction ;;
  ret (base_prediction, final_confidence).

End MockMlService.

(* ================================================================== *)
(** * Python's [round(x, 1)] *)
(* ================================================================== *)

Module Round.

(** The integer nearest to [m * 2^e], ties to the even one. *)
Definition nearest_even (m e : Z) : Z :=
  if 0 <=? e then m * 2 ^ e
  else
    let d := 2 ^ (- e) in
    let q := m / d in
    let r := m mod d in
    match 2 * r ?= d with
    | Lt => q
    | Gt => q + 1
    | Eq => if Z.even q then q else q + 1
    end.

(** The double nearest to [n / 10] for an integer [n >= 0], with the sign
    [s]: the correctly rounded quotient of the two integers. *)
Definition tenths (s : bool) (n : Z) : float :=
  match n with
  | Zpos p =>
      SF2Prim (SFdiv prec emax (S754_finite s p 0) (S754_finite false 10 0))
  | _ => SF2Prim (S754_zero s)
  end.

(** [round(x, 1)] on a float: the exact value of [x] is rounded to one
    decimal place, ties to even, and the decimal is converted back to the
    nearest double; zeros, infinities and NaN round to themselves. *)
Definition round1 (x : float) : float :=
  match Prim2SF x with
  | S754_finite s m e => tenths s (nearest_even (10 * Zpos m) e)
  | _ => x
  end.

End Round.

(* ================================================================== *)
(** * Vocabulary of the proofs about binary64 rounding *)
(* ================================================================== *)

Module Binary64.
Import Py.

(** What [binary_round_aux] returns for a positive sign once the mantissa
    has been rounded to [M] at the exponent [e]: zero, the double [M * 2^e],
    renormalised when the rounding carried into a 54th bit, or infinity on
    overflow. *)
Definition finish (M e : Z) : spec_float :=
  if M =? 0 then S754_zero false
  else if M <? 2 ^ 53 then
    if e <=? 971 then S754_finite false (Z.to_pos M) e else S754_infinity false
  else
    if e + 1 <=? 971 then S754_finite false (2 ^ 52)%positive (e + 1)
    else S754_infinity false.

(** What [k] right shifts make of the mantissa [m0]: the quotient by [2^k],
    a round bit that is clear when the remainder is below one half, and a
    sticky bit that is clear when the remainder is zero. *)
Definition shifted (m0 k : Z) (mrs : shr_record) : Prop :=
  shr_m mrs = m0 / 2 ^ k /\
  (2 * (m0 mod 2 ^ k) < 2 ^ k -> shr_r mrs = false) /\
  (m0 mod 2 ^ k = 0 -> shr_s mrs = false).

(** [f] holds of the [count] integers from [lo] on. *)
Fixpoint all_from (f : Z -> bool) (lo : Z) (count : nat) : bool :=
  match count with
  | O => true
  | S k => f lo && all_from f (lo + 1) k
  end.

(** Every number of tenths between [lo] and [hi], as a double, lies between
    the doubles [lo] and [hi]. *)
Definition tenths_within (lo hi : Z) : bool :=
  all_from (fun n => (float_of_Z lo <=? Round.tenths false n)%float &&
                     (Round.tenths false n <=? float_of_Z hi)%float)
    (10 * lo) (Z.to_nat (10 * hi - 10 * lo + 1)).

(** The speed [v] lies in the inclusive range from [lo] to [hi] and is a
    number of tenths, that is, it has one decimal place. *)
Definition speed_within (lo hi : Z) (v : float) : Prop :=
  (float_of_Z lo <=? v)%float = true /\ (v <=? float_of_Z hi)%float = true /\
  exists n, 10 * lo <= n <= 10 * hi /\ v = Round.tenths false n.

End Binary64.

(* ================================================================== *)
(** * Formatting of numbers *)
(* ================================================================== *)

Module Format.
Import Round.

(** [str(n)] on an integer. *)
Definition str_of_Z (n : Z) : string := NilZero.string_of_int (Z.to_int n).

(** [f"{x:.1f}"]: the exact value of [x] rounded to one decimal place, ties
    to even, written with its integer part, a point and one digit. *)
Definition format_1f (x : float) : string :=
  match Prim2SF x with
  | S754_finite s m e =>
      let n := nearest_even (10 * Zpos m) e in
      ((if s then "-" else "") ++ str_of_Z (n / 10) ++ "." ++ str_of_Z (n mod 10))%string
  | S754_zero s => ((if s then "-" else "") ++ "0.0")%string
  | S754_infinity s => if s then "-inf"%string else "inf"%string
  | S754_nan => "nan"%string
  end.

End Format.

(* ================================================================== *)
(** * Streams of draws *)
(* ================================================================== *)

Module Streams.
Import Py.

(** Every draw of the stream honours the contract of [random.random()]. *)
Definition well_formed (s : Source) : Prop :=
  forall n, unit_draw (d_unit (s n)) = true.

(** [s'] is [s] with its first [k] draws consumed. *)
Definition consumed (k : nat) (s s' : Source) : Prop :=
  forall n, s' n = s (k + n)%nat.

(** The draw [d] ends the loop of [_randbelow(n)]: the bits that
    [getrandbits] keeps of it are below [n]. *)
Definition accepted (n : Z) (d : Draw) : bool :=
  negb (d_int d mod 2 ^ Random.bit_length n >=? n).

(** The number of draws that [_randbelow(n)] rejects at the head of [s]
    before it accepts one, when that is among the first [fuel] draws. *)
Fixpoint rejections (fuel : nat) (n : Z) (s : Source) : option nat :=
  match fuel with
  | O => None
  | S fuel' =>
      if accepted n (s 0%nat) then Some 0%nat
      else option_map S (rejections fuel' n (advance s))
  end.

(** [s] without its first [k] draws. *)
Definition drop (k : nat) (s : Source) : Source := fun n => s (k + n)%nat.

(** Wherever it starts in [s], each loop of [_randbelow(n)], for the [n]
    of [bounds], ends within [fuel] draws. *)
Definition fair (bounds : list Z) (fuel : nat) (s : Source) : Prop :=
  forall n, In n bounds ->
  forall i, exists j, (j < fuel)%nat /\ accepted n (s (i + j)%nat) = true.

End Streams.

(* ================================================================== *)
(** * mock_ml_service.py: the values of a request *)
(* ================================================================== *)

Module Json.
Import Py.
Local Open Scope string_scope.

(** What [request.get_json()] returns: the Python value of a JSON
    document, which is [None], a [bool], an [int], a [float], a [str], a
    [list] of values or a [dict] from strings to values.  A [dict] is the
    list of its items in the order of insertion, the keys being distinct;
    a [str] is the string of its characters. *)
Inductive Value : Type :=
| VNone
| VBool (b : bool)
| VInt (n : Z)
| VFloat (x : float)
| VStr (s : string)
| VList (items : list Value)
| VDict (members : list (string * Value)).

(** [type(v).__name__] *)
Definition type_name (v : Value) : string :=
  match v with
  | VNone => "NoneType"
  | VBool _ => "bool"
  | VInt _ => "int"
  | VFloat _ => "float"
  | VStr _ => "str"
  | VList _ => "list"
  | VDict _ => "dict"
  end.

(** The exceptions that the handlers can meet, with their argument: the
    key of a [KeyError], the message of the two others (in the wording of
    CPython 3.11 to 3.13). *)
Inductive Exn : Type :=
| KeyError (key : string)
| TypeError (message : string)
| AttributeError (message : string).

(** [str(e)]; for a [KeyError] it is the [repr] of the key. *)
Definition str (e : Exn) : string :=
  match e with
  | KeyError key => "'" ++ key ++ "'"
  | TypeError message => message
  | AttributeError message => message
  end.

(** An expression that may raise. *)
Definition Checked (A : Type) : Type := (Exn + A)%type.

(** The value of [key] in a [dict]. *)
Fixpoint lookup (key : string) (members : list (string * Value)) : option Value :=
  match members with
  | [] => None
  | (k, v) :: rest => if String.eqb k key then Some v else lookup key rest
  end.

Definition is_some {A : Type} (o : option A) : bool :=
  match o with Some _ => true | None => false end.

(** [v == key] for a string [key]: only a [str] equals a [str]. *)
Definition eq_str (key : string) (v : Value) : bool :=
  match v with
  | VStr s => String.eqb s key
  | _ => false
  end.

(** [v in l] for a list [l] of string literals. *)
Definition in_strings (v : Value) (l : list string) : bool :=
  match v with
  | VStr s => str_in s l
  | _ => false
  end.

(** [key in data] for a string [key]: a key of a [dict], an element of a
    [list], a substring of a [str]; the other values are no containers. *)
Definition contains (key : string) (data : Value) : Checked bool :=
  match data with
  | VDict members => inr (is_some (lookup key members))
  | VList items => inr (existsb (eq_str key) items)
  | VStr s => inr (is_some (String.index 0 key s))
  | _ => inl (TypeError ("argument of type '" ++ type_name data ++ "' is not iterable"))
  end.

(** [data[key]] for a string [key]. *)
Definition subscript (data : Value) (key : string) : Checked Value :=
  match data with
  | VDict members =>
      match lookup key members with
      | Some v => inr v
      | None => inl (KeyError key)
      end
  | VList _ => inl (TypeError "list indices must be integers or slices, not str")
  | VStr _ => inl (TypeError "string indices must be integers, not 'str'")
  | _ => inl (TypeError ("'" ++ type_name data ++ "' object is not subscriptable"))
  end.

(** [data.get(key, default)]: a method of [dict] only. *)
Definition get (data : Value) (key : string) (default : Value) : Checked Value :=
  match data with
  | VDict members =>
      inr (match lookup key members with Some v => v | None => default end)
  | _ => inl (AttributeError ("'" ++ type_name data ++ "' object has no attribute 'get'"))
  end.

(** [bool(v)], the test of [if not v]. *)
Definition truthy (v : Value) : bool :=
  match v with
  | VNone => false
  | VBool b => b
  | VInt n => negb (n =? 0)%Z
  | VFloat x => negb (x =? 0)%float
  | VStr s => negb (String.eqb s "")
  | VList items => negb (Z.of_nat (List.length items) =? 0)%Z
  | VDict members => negb (Z.of_nat (List.length members) =? 0)%Z
  end.

(** [list(v)], what [for req in v] goes through: the elements of a [list],
    the characters of a [str], the keys of a [dict]. *)
Definition iter (v : Value) : Checked (list Value) :=
  match v with
  | VList items => inr items
  | VStr s => inr (map (fun c => VStr (String c EmptyString)) (list_ascii_of_string s))
  | VDict members => inr (map (fun m => VStr (fst m)) members)
  | _ => inl (TypeError ("'" ++ type_name v ++ "' object is not iterable"))
  end.

End Json.

(* ================================================================== *)
(** * mock_ml_service.py: [predict_traffic] as the handlers call it

    The handlers pass the values of the request as they come.  Python
    runs the same lines of [predict_traffic] on them, according to their
    types: an [int] hour and [str] day and weather are the case of
    [MockMlService]; a [bool] is the integer 0 or 1; a [float] is compared
    as a double (the literals of the comparisons are small integers, which
    are doubles); a comparison of any other value with an [int] raises
    [TypeError]; and only a [str] equals a [str]. *)
(* ================================================================== *)

Module Untyped.
Import Py Random Json.
Local Open Scope string_scope.

Definition Estimate : Type := MockMlService.Estimate.

(** Lines 23-31 on a [float] hour. *)
Definition base_by_hour_float (hour : float) : Estimate :=
  if ((7 <=? hour)%float && (hour <=? 9)%float) ||
     ((17 <=? hour)%float && (hour <=? 19)%float) then
    (HIGH, 0.85%float)
  else if (22 <=? hour)%float || (hour <=? 6)%float then
    (LOW, 0.80%float)
  else
    (MODERATE, 0.75%float).

(** Lines 23-31: the first comparison, [7 <= hour], raises unless the hour
    is a number. *)
Definition base_by_hour (hour : Value) : Checked Estimate :=
  match hour with
  | VInt n => inr (MockMlService.base_by_hour n)
  | VBool b => inr (MockMlService.base_by_hour (Z.b2z b))
  | VFloat x => inr (base_by_hour_float x)
  | _ => inl (TypeError ("'<=' not supported between instances of 'int' and '" ++
                         type_name hour ++ "'"))
  end.

(** Lines 34-37. *)
Definition adjust_day_of_week (day_of_week : Value) (e : Estimate) : Estimate :=
  match day_of_week with
  | VStr s => MockMlService.adjust_day_of_week s e
  | _ => e
  end.

(** Lines 40-45. *)
Definition adjust_weather (weather : Value) (e : Estimate) : Estimate :=
  match weather with
  | VStr s => MockMlService.adjust_weather s e
  | _ => e
  end.

(** Lines 48-51 on a [float] count. *)
Definition adjust_history_float (historical_data_points : float) (e : Estimate)
    : Estimate :=
  let (base_prediction, base_confidence) := e in
  if (10 <? historical_data_points)%float then
    (base_prediction, (base_confidence + 0.05)%float)
  else if (historical_data_points <? 3)%float then
    (base_prediction, (base_confidence - 0.10)%float)
  else e.

(** Lines 48-51: the first comparison, [historical_data_points > 10],
    raises unless the count is a number. *)
Definition adjust_history (historical_data_points : Value) (e : Estimate)
    : Checked Estimate :=
  match historical_data_points with
  | VInt n => inr (MockMlService.adjust_history n e)
  | VBool b => inr (MockMlService.adjust_history (Z.b2z b) e)
  | VFloat x => inr (adjust_history_float x e)
  | _ => inl (TypeError ("'>' not supported between instances of '" ++
                         type_name historical_data_points ++ "' and 'int'"))
  end.

(** Lines 23-51: the locals as they stand before any draw is made, or the
    exception raised on the way. *)
Definition pre_jitter (hour day_of_week weather historical_data_points : Value)
    : Checked Estimate :=
  match base_by_hour hour with
  | inl e => inl e
  | inr base =>
      adjust_history historical_data_points
        (adjust_weather weather (adjust_day_of_week day_of_week base))
  end.

(** [predict_traffic(lat, lon, hour, day_of_week, weather,
    historical_data_points)] on the values of a request: lines 23-51, then
    lines 54-65 as in [MockMlService].  An exception is raised before any
    draw is made. *)
Definition predict_traffic (lat lon hour day_of_week weather
    historical_data_points : Value) (s : Source) : Checked Estimate * Source :=
  match pre_jitter hour day_of_week weather historical_data_points with
  | inl e => (inl e, s)
  | inr (base_prediction, base_confidence) =>
      let (confidence_adjustment, s) := uniform (-0.05) 0.05 s in
      let final_confidence :=
        MockMlService.clamp_confidence base_confidence confidence_adjustment in
      let (base_prediction, s) := MockMlService.reclassify base_prediction s in
      (inr (base_prediction, final_confidence), s)
  end.

(** The values that the comparisons of [predict_traffic] accept. *)
Definition is_number (v : Value) : bool :=
  match v with
  | VInt _ | VBool _ | VFloat _ => true
  | _ => false
  end.

End Untyped.

(* ================================================================== *)
(** * mock_ml_service.py: the request handlers *)
(* ================================================================== *)

Module Facade.
Import Py Random Json.

(** The arguments of one call of [predict_traffic]. *)
Record CoreCall : Type := mkCoreCall {
  c_lat : Value;
  c_lon : Value;
  c_hour : Value;
  c_day_of_week : Value;
  c_weather : Value;
  c_historical_data_points : Value
}.

(** What a handler runs in: the generator, and the calls of
    [predict_traffic] made so far, oldest first (a ghost log, which the
    program does not keep). *)
Record World : Type := mkWorld {
  rng : Source;
  core_calls : list CoreCall
}.

(** A statement block that may raise. *)
Definition Handler (A : Type) : Type := World -> Checked A * World.

Definition pure {A : Type} (a : A) : Handler A := fun w => (inr a, w).

Definition raise {A : Type} (e : Exn) : Handler A := fun w => (inl e, w).

Definition and_then {A B : Type} (m : Handler A) (f : A -> Handler B) : Handler B :=
  fun w =>
    match m w with
    | (inl e, w') => (inl e, w')
    | (inr a, w') => f a w'
    end.

(** An expression that may raise and does nothing else. *)
Definition eval {A : Type} (c : Checked A) : Handler A := fun w => (c, w).

(** A computation that only draws. *)
Definition draw {A : Type} (m : Rand A) : Handler A :=
  fun w => let (a, s) := m (rng w) in
           (inr a, {| rng := s; core_calls := core_calls w |}).

(** A call of [predict_traffic], logged when it is made. *)
Definition call_predict_traffic (lat lon hour day_of_week weather
    historical_data_points : Value) : Handler Untyped.Estimate :=
  fun w =>
    let (r, s) := Untyped.predict_traffic lat lon hour day_of_week weather
                    historical_data_points (rng w) in
    (r,
     {| rng := s;
        core_calls := core_calls w ++
          [mkCoreCall lat lon hour day_of_week weather historical_data_points] |}).

End Facade.

Declare Scope handler_scope.
Delimit Scope handler_scope with handler.
Notation "x <- m ;; k" := (Facade.and_then m (fun x => k))
  (at level 61, m at next level, right associativity) : handler_scope.
Notation "' ( x , y ) <- m ;; k" := (Facade.and_then m (fun '(x, y) => k))
  (at level 61, m at next level, right associativity) : handler_scope.

Module Endpoints.
Import Py Random Json Facade.
Local Open Scope handler_scope.
Local Open Scope string_scope.

(** The [features_used] object of a prediction response. *)
Record Features : Type := mkFeatures {
  coordinates : Value * Value;
  temporal_hour : Value;
  temporal_day_of_week : Value;
  f_weather : Value;
  f_historical_data_points : Value
}.

(** The body of a successful [/predict] response (the wall-clock
    [timestamp] is left out). *)
Record Prediction : Type := mkPrediction {
  prediction : TrafficDensity;
  confidence : float;
  model_version : string;
  features_used : Features
}.

(** One element of [results] in a [/batch/predict] response. *)
Record BatchResult : Type := mkBatchResult {
  b_id : Value;
  b_prediction : TrafficDensity;
  b_confidence : float
}.

(** The body of a successful [/batch/predict] response (the wall-clock
    [timestamp] is left out). *)
Record BatchBody : Type := mkBatchBody {
  results : list BatchResult;
  total_predictions : Z
}.

(** An HTTP response: the status and the JSON body. *)
Inductive Response (Body : Type) : Type :=
| Ok200 (body : Body)
| BadRequest400 (error : string)
| ServerError500 (error message : string).

Arguments Ok200 {Body} body.
Arguments BadRequest400 {Body} error.
Arguments ServerError500 {Body} error message.

(** Lines 84-88: the loop over [required_fields]; [Some field] is the
    field at which the loop returns the 400 response. *)
Fixpoint first_missing (required_fields : list string) (data : Value)
    : Handler (option string) :=
  match required_fields with
  | [] => pure None
  | field :: rest =>
      present <- eval (contains field data) ;;
      if negb present then pure (Some field)
      else first_missing rest data
  end.

Definition required_fields : list string := ["lat"; "lon"; "hour"; "dayOfWeek"].

(** Lines 80-124: the [try] block of [predict], [data] being what
    [request.get_json()] returned.  The two log lines and the pause
    [time.sleep] change nothing that is modelled; the pause makes the
    draw of its duration. *)
Definition predict_body (data : Value) : Handler (Response Prediction) :=
  missing <- first_missing required_fields data ;;
  match missing with
  | Some field => pure (BadRequest400 ("Missing required field: " ++ field))
  | None =>
      lat <- eval (subscript data "lat") ;;
      lon <- eval (subscript data "lon") ;;
      hour <- eval (subscript data "hour") ;;
      day_of_week <- eval (subscript data "dayOfWeek") ;;
      weather <- eval (get data "weather" (VStr "CLEAR")) ;;
      historical_data_points <- eval (get data "historicalDataPoints" (VInt 0)) ;;
      '(prediction, confidence) <-
         call_predict_traffic lat lon hour day_of_week weather historical_data_points ;;
      _ <- draw (uniform 0.1 0.5) ;;
      pure (Ok200 {|
        prediction := prediction;
        confidence := confidence;
        model_version := "v1.2.3";
        features_used := {|
          coordinates := (lat, lon);
          temporal_hour := hour;
          temporal_day_of_week := day_of_week;
          f_weather := weather;
          f_historical_data_points := historical_data_points |} |})
  end.

(** [predict()]: the handler of [POST /predict]. *)
Definition predict (data : Value) (w : World) : Response Prediction * World :=
  match predict_body data w with
  | (inr response, w') => (response, w')
  | (inl e, w') => (ServerError500 "Internal server error" (str e), w')
  end.

(** Lines 187-198: the loop [for req in requests], over the list
    [results] built so far. *)
Fixpoint batch_loop (requests : list Value) (results : list BatchResult)
    : Handler (list BatchResult) :=
  match requests with
  | [] => pure results
  | req :: rest =>
      lat <- eval (subscript req "lat") ;;
      lon <- eval (subscript req "lon") ;;
      hour <- eval (subscript req "hour") ;;
      day_of_week <- eval (subscript req "dayOfWeek") ;;
      weather <- eval (get req "weather" (VStr "CLEAR")) ;;
      historical_data_points <- eval (get req "historicalDataPoints" (VInt 0)) ;;
      '(prediction, confidence) <-
         call_predict_traffic lat lon hour day_of_week weather historical_data_points ;;
      id <- eval (get req "id" (VInt (len results))) ;;
      batch_loop rest
        (results ++ [{| b_id := id;
                        b_prediction := prediction;
                        b_confidence := confidence |}])
  end.

(** Lines 180-204: the [try] block of [batch_predict], [data] being what
    [request.get_json()] returned. *)
Definition batch_body (data : Value) : Handler (Response BatchBody) :=
  requests <- eval (get data "requests" (VList [])) ;;
  if negb (truthy requests) then
    pure (BadRequest400 "No prediction requests provided")
  else
    requests <- eval (iter requests) ;;
    results <- batch_loop requests [] ;;
    pure (Ok200 {| results := results; total_predictions := len results |}).

(** [batch_predict()]: the handler of [POST /batch/predict]. *)
Definition batch_predict (data : Value) (w : World) : Response BatchBody * World :=
  match batch_body data w with
  | (inr response, w') => (response, w')
  | (inl e, w') => (ServerError500 "Batch prediction failed" (str e), w')
  end.

(** The value of [key] in [req], [default] when [req] is no [dict] or has
    no such key. *)
Definition field (req : Value) (key : string) (default : Value) : Value :=
  match req with
  | VDict members =>
      match lookup key members with
      | Some v => v
      | None => default
      end
  | _ => default
  end.

(** An item on which the loop of [batch_predict] reaches the call of
    [predict_traffic]: a [dict] that has the four keys which the loop
    subscripts. *)
Definition subscriptable (req : Value) : bool :=
  match req with
  | VDict members =>
      is_some (lookup "lat" members) && is_some (lookup "lon" members) &&
      is_some (lookup "hour" members) && is_some (lookup "dayOfWeek" members)
  | _ => false
  end.

(** An item that the loop of [batch_predict] gets through: the call is
    reached, and the hour and the count of historical data points (0 when
    the item has none) are numbers. *)
Definition processable (req : Value) : bool :=
  subscriptable req &&
  Untyped.is_number (field req "hour" VNone) &&
  Untyped.is_number (field req "historicalDataPoints" (VInt 0)).

End Endpoints.

(* ================================================================== *)
(** * sample-data-generator.py *)
(* ================================================================== *)

Module SampleDataGenerator.
Import Py Random.
Local Open Scope rand_scope.

Definition WEATHER_CONDITIONS : list string := ["CLEAR"; "RAIN"; "FOG"; "CLOUDY"]%string.

(** An element of [CITIES[city]["locations"]]. *)
Record Location : Type := mkLocation {
  name : string;
  loc_lat : float;
  loc_lon : float
}.

(** A [datetime]: what [generate_traffic_data] reads of it, the [hour]
    attribute, the result of [weekday()] (Monday is 0, Sunday is 6) and the
    result of [strftime("%Y-%m-%dT%H:%M:%S")]. *)
Record Timestamp : Type := mkTimestamp {
  ts_hour : Z;
  ts_weekday : Z;
  ts_strftime : string
}.

(** The dictionary that [generate_traffic_data] returns. *)
Record Observation : Type := mkObservation {
  location : string;
  latitude : float;
  longitude : float;
  trafficDensity : TrafficDensity;
  timestamp : string;
  vehicleCount : Z;
  averageSpeed : float;
  weatherCondition : string
}.

(** [generate_traffic_density_by_hour(hour)] *)
Definition generate_traffic_density_by_hour (hour : Z) : Rand TrafficDensity :=
  if ((7 <=? hour) && (hour <=? 9)) || ((17 <=? hour) && (hour <=? 19)) then
    choices1 TRAFFIC_DENSITIES [5; 15; 50; 30] LOW
  else if (22 <=? hour) || (hour <=? 6) then
    choices1 TRAFFIC_DENSITIES [70; 25; 5; 0] LOW
  else
    choices1 TRAFFIC_DENSITIES [20; 50; 25; 5] LOW.

(** The dictionary [density_ranges] of [generate_vehicle_count]. *)
Definition density_ranges (density : TrafficDensity) : Z * Z :=
  match density with
  | LOW => (5, 20)
  | MODERATE => (21, 50)
  | HIGH => (51, 80)
  | CRITICAL => (81, 120)
  end.

(** [generate_vehicle_count(density)] *)
Definition generate_vehicle_count (fuel : nat) (density : TrafficDensity) : Sampler Z :=
  let (min_count, max_count) := density_ranges density in
  randint fuel min_count max_count.

(** The dictionary [speed_ranges] of [generate_average_speed]. *)
Definition speed_ranges (density : TrafficDensity) : Z * Z :=
  match density with
  | LOW => (40, 60)
  | MODERATE => (20, 40)
  | HIGH => (10, 25)
  | CRITICAL => (2, 15)
  end.

(** [generate_average_speed(density)] *)
Definition generate_average_speed (density : TrafficDensity) : Rand float :=
  let (min_speed, max_speed) := speed_ranges density in
  x <- uniform (float_of_Z min_speed) (float_of_Z max_speed) ;;
  ret (Round.round1 x).

(** Lines 117-121: the weekend adjustment.  The draw is made only when the
    density is HIGH ([and] evaluates its right operand only then). *)
Definition weekend_adjustment (weekday : Z) (density : TrafficDensity)
    : Rand TrafficDensity :=
  if weekday >=? 5 then
    if density_eqb density CRITICAL then ret HIGH
    else if density_eqb density HIGH then
      coin <- random ;;
      if (coin <? 0.5)%float then ret MODERATE else ret density
    else ret density
  else ret density.

(** Lines 125-129: the weather impact.  The draw is made only when the
    density is MODERATE. *)
Definition weather_impact (weather : string) (density : TrafficDensity)
    : Rand TrafficDensity :=
  if str_in weather ["RAIN"; "FOG"]%string then
    if density_eqb density LOW then ret MODERATE
    else if density_eqb density MODERATE then
      coin <- random ;;
      if (coin <? 0.3)%float then ret HIGH else ret density
    else ret density
  else ret density.

(** [generate_traffic_data(location, timestamp)]; [fuel] is that of
    each of the two loops of [_randbelow], in [random.choice] and in
    [random.randint]. *)
Definition generate_traffic_data (fuel : nat) (loc : Location) (ts : Timestamp)
    : Sampler Observation :=
  let hour := ts_hour ts in
  (density <- lift (generate_traffic_density_by_hour hour) ;;
   density <- lift (weekend_adjustment (ts_weekday ts) density) ;;
   weather <- choice fuel WEATHER_CONDITIONS "CLEAR"%string ;;
   density <- lift (weather_impact weather density) ;;
   dlat <- lift (uniform (-0.001) 0.001) ;;
   dlon <- lift (uniform (-0.001) 0.001) ;;
   count <- generate_vehicle_count fuel density ;;
   speed <- lift (generate_average_speed density) ;;
   done {| location := name loc;
           latitude := (loc_lat loc + dlat)%float;
           longitude := (loc_lon loc + dlon)%float;
           trafficDensity := density;
           timestamp := ts_strftime ts;
           vehicleCount := count;
           averageSpeed := speed;
           weatherCondition := weather |})%sampler.

(** The arguments of the calls of [_randbelow] that the script makes: the
    length of [WEATHER_CONDITIONS] and the widths of the four ranges of
    [density_ranges]. *)
Definition randbelow_arguments : list Z :=
  len WEATHER_CONDITIONS ::
  map (fun density => let (min_count, max_count) := density_ranges density in
                      max_count - min_count + 1)
    TRAFFIC_DENSITIES.

End SampleDataGenerator.

(* ================================================================== *)
(** * mock_ml_service.py: the retraining endpoint *)
(* ================================================================== *)

Module Retrain.
Import Py Random Json Facade Endpoints Format.
Local Open Scope sampler_scope.
Local Open Scope string_scope.

(** The body of a [/model/retrain] response (the wall-clock [timestamp] is
    left out). *)
Record Retraining : Type := mkRetraining {
  status : string;
  new_version : string;
  training_time : string;
  accuracy_improvement : string
}.

(** Lines 156-168: the [try] block of [retrain_model], in which nothing
    raises.  The pause [time.sleep(2)] changes nothing that is modelled;
    [fuel] is that of the loop of [_randbelow] in [random.randint]. *)
Definition retrain_body (fuel : nat) : Sampler (Checked (Response Retraining)) :=
  k <- randint fuel 4 10 ;;
  let new_version := "v1.2." ++ str_of_Z k in
  x <- lift (uniform 0.5 2.0) ;;
  done (inr (Ok200 {|
    status := "Training completed";
    new_version := new_version;
    training_time := "2.3 seconds (simulated)";
    accuracy_improvement := "+" ++ format_1f x ++ "%" |})).

(** [retrain_model()]: the handler of [POST /model/retrain]; [None] when
    the loop of [_randbelow] outlasts the fuel. *)
Definition retrain_model (fuel : nat) (w : World)
    : option (Response Retraining * World) :=
  match retrain_body fuel (rng w) with
  | Some (inr response, s) =>
      Some (response, {| rng := s; core_calls := core_calls w |})
  | Some (inl e, s) =>
      Some (ServerError500 "Training failed" (str e),
            {| rng := s; core_calls := core_calls w |})
  | None => None
  end.

End Retrain.

(* ================================================================== *)
(** * sample-data-generator.py: the historical backfill

    [generate_historical_data] runs on the clock, the network and the
    standard output.  The clock is the value [now] that [datetime.now()]
    returns; the network is the stream of the outcomes of the posts to
    come; what is printed is a list of lines.  The pause [time.sleep(0.1)]
    between two records has no counterpart. *)
(* ================================================================== *)

Module Datetime.

(** A naive [datetime]: the microseconds since 0001-01-01T00:00:00, the
    first instant the type can hold. *)
Definition datetime : Type := Z.

Definition US_PER_HOUR : Z := 3600000000.
Definition US_PER_DAY : Z := 86400000000.

(** [datetime.max] is 9999-12-31T23:59:59.999999, the last microsecond of
    the day of ordinal 3652059. *)
Definition MAX : Z := 3652059 * US_PER_DAY - 1.

(** The [hour] attribute. *)
Definition hour (t : datetime) : Z := (t / US_PER_HOUR) mod 24.

(** [weekday()]: 0001-01-01 is a Monday, which is 0. *)
Definition weekday (t : datetime) : Z := (t / US_PER_DAY) mod 7.

(** [t - timedelta(days=days)]; [None] is [OverflowError], raised when the
    magnitude of [days] exceeds 999999999 or the date leaves the range. *)
Definition sub_days (t : datetime) (days : Z) : option datetime :=
  if Z.abs days >? 999999999 then None
  else
    let t' := t - days * US_PER_DAY in
    if (0 <=? t') && (t' <=? MAX) then Some t' else None.

(** [t + timedelta(hours=1)]; [None] is [OverflowError]. *)
Definition add_hour (t : datetime) : option datetime :=
  let t' := t + US_PER_HOUR in
  if t' <=? MAX then Some t' else None.

End Datetime.

Module HistoricalData.
Import Py Random SampleDataGenerator Datetime.

Definition CITIES : list (string * list Location) :=
  [("Vijayawada"%string,
    [mkLocation "Vijayawada Junction"%string 16.5062 80.6480;
     mkLocation "Benz Circle"%string 16.5070 80.6490;
     mkLocation "PNBS Bus Stand"%string 16.5080 80.6500;
     mkLocation "Ramavarappadu Junction"%string 16.5090 80.6510;
     mkLocation "NH65 Highway"%string 16.5100 80.6520]);
   ("Bangalore"%string,
    [mkLocation "Electronic City"%string 12.8456 77.6603;
     mkLocation "Silk Board Junction"%string 12.9176 77.6227;
     mkLocation "Koramangala"%string 12.9352 77.6245;
     mkLocation "Outer Ring Road"%string 12.9698 77.7500;
     mkLocation "Whitefield"%string 12.9698 77.7500]);
   ("Hyderabad"%string,
    [mkLocation "HITEC City"%string 17.4435 78.3772;
     mkLocation "Gachibowli"%string 17.4399 78.3482;
     mkLocation "Madhapur"%string 17.4474 78.3914;
     mkLocation "Kondapur"%string 17.4616 78.3570;
     mkLocation "Jubilee Hills"%string 17.4239 78.4738])].

(** What [requests.post] does: it returns a response with a status code,
    or it raises, with a message. *)
Inductive PostOutcome : Type :=
| Status (status_code : Z)
| Failure (message : string).

(** What the script runs in: the generator, the outcomes of the posts to
    come, the observations handed to [requests.post] so far and the lines
    printed so far, oldest first. *)
Record Script : Type := mkScript {
  s_rng : Source;
  s_net : nat -> PostOutcome;
  s_posted : list Observation;
  s_out : list string
}.

(** [print(line)] *)
Definition print (line : string) (st : Script) : Script :=
  {| s_rng := s_rng st; s_net := s_net st; s_posted := s_posted st;
     s_out := s_out st ++ [line] |}.

(** [ingest_traffic_data(token, traffic_data)] *)
Definition ingest_traffic_data (token : string) (traffic_data : Observation)
    (st : Script) : bool * Script :=
  let st' := {| s_rng := s_rng st;
                s_net := fun n => s_net st (S n);
                s_posted := s_posted st ++ [traffic_data];
                s_out := s_out st |} in
  match s_net st 0%nat with
  | Status status_code => (status_code =? 201, st')
  | Failure e => (false, print ("Error ingesting data: " ++ e)%string st')
  end.

(** The locals [successful_records] and [total_records]. *)
Record Counters : Type := mkCounters {
  successful_records : Z;
  total_records : Z
}.

Section WithStrftime.

(** [strftime("%Y-%m-%dT%H:%M:%S")] of the calendar, taken as given. *)
Variable strftime : datetime -> string.

Definition timestamp_of (t : datetime) : Timestamp :=
  {| ts_hour := hour t; ts_weekday := weekday t; ts_strftime := strftime t |}.

(** Lines 172-184: [for location in city_data["locations"]]; [None] when
    a loop of [_randbelow] in [generate_traffic_data] outlasts the fuel. *)
Fixpoint for_locations (fuel : nat) (token : string) (current_time : datetime)
    (locations : list Location) (c : Counters) (st : Script)
    : option (Counters * Script) :=
  match locations with
  | [] => Some (c, st)
  | location :: rest =>
      match generate_traffic_data fuel location (timestamp_of current_time)
              (s_rng st) with
      | None => None
      | Some (traffic_data, rng') =>
          let st := {| s_rng := rng'; s_net := s_net st; s_posted := s_posted st;
                       s_out := s_out st |} in
          let (ingested, st) := ingest_traffic_data token traffic_data st in
          let (successful, st) :=
            if ingested then
              let successful := successful_records c + 1 in
              (successful,
               if successful mod 50 =? 0
               then print ("Ingested " ++ Format.str_of_Z successful ++
                           " records...")%string st
               else st)
            else (successful_records c, st) in
          for_locations fuel token current_time rest
            {| successful_records := successful;
               total_records := total_records c + 1 |} st
      end
  end.

(** Lines 171-184: [for city, city_data in CITIES.items()]. *)
Fixpoint for_cities (fuel : nat) (token : string) (current_time : datetime)
    (cities : list (string * list Location)) (c : Counters) (st : Script)
    : option (Counters * Script) :=
  match cities with
  | [] => Some (c, st)
  | (city, locations) :: rest =>
      match for_locations fuel token current_time locations c st with
      | None => None
      | Some (c, st) => for_cities fuel token current_time rest c st
      end
  end.

(** How a run ends: the function returns, [OverflowError] is raised, or the
    model ran out of fuel in one of the loops. *)
Inductive Run : Type :=
| Returned (c : Counters) (st : Script)
| OverflowError (st : Script)
| OutOfFuel.

(** Lines 169-187: [while current_time <= end_time], at most [turns] tests
    of the condition; [fuel] is that of the loops of [_randbelow]. *)
Fixpoint while_loop (turns fuel : nat) (token : string)
    (current_time end_time : datetime) (c : Counters) (st : Script) : Run :=
  match turns with
  | O => OutOfFuel
  | S turns' =>
      if current_time <=? end_time then
        match for_cities fuel token current_time CITIES c st with
        | None => OutOfFuel
        | Some (c, st) =>
            match add_hour current_time with
            | Some next => while_loop turns' fuel token next end_time c st
            | None => OverflowError st
            end
        end
      else Returned c st
  end.

(** [generate_historical_data(token, days)], [now] being the value of
    [datetime.now()]. *)
Definition generate_historical_data (turns fuel : nat) (now : datetime)
    (token : string) (days : Z) (st : Script) : Run :=
  let st := print ("Generating historical data for " ++ Format.str_of_Z days ++
                   " days...")%string st in
  let end_time := now in
  match sub_days end_time days with
  | None => OverflowError st
  | Some start_time =>
      match while_loop turns fuel token start_time end_time
              {| successful_records := 0; total_records := 0 |} st with
      | Returned c st =>
          Returned c
            (print ("Historical data generation complete: " ++
                    Format.str_of_Z (successful_records c) ++ "/" ++
                    Format.str_of_Z (total_records c) ++ " records ingested")%string st)
      | r => r
      end
  end.

End WithStrftime.

(** The number of posts answered 201 among the first [n] outcomes. *)
Fixpoint created (net : nat -> PostOutcome) (n : nat) : Z :=
  match n with
  | O => 0
  | S k =>
      match net 0%nat with
      | Status 201 => 1
      | _ => 0
      end + created (fun i => net (S i)) k
  end.

(** The instants of [n] passes, one hour apart, from [start] on. *)
Fixpoint hours (start : datetime) (n : nat) : list datetime :=
  match n with
  | O => []
  | S k => start :: hours (start + US_PER_HOUR) k
  end.

(** The location name and the timestamp of each observation that the
    passes at the instants [times] post, in the order of the posts. *)
Definition expected_posts (strftime : datetime -> string)
    (locations : list Location) (times : list datetime) : list (string * string) :=
  flat_map (fun t => map (fun loc => (name loc, strftime t)) locations) times.

(** What the passes at the instants [times] over [locations] leave behind:
    one record and one post per location and instant, the posts answered
    201 counted as successes, the observations posted in order, and lines
    printed after those that were there. *)
Definition backfill (strftime : datetime -> string)
    (locations : list Location) (times : list datetime)
    (c : Counters) (st : Script) (c' : Counters) (st' : Script) : Prop :=
  let n := (List.length locations * List.length times)%nat in
  total_records c' = total_records c + Z.of_nat n /\
  successful_records c' = successful_records c + created (s_net st) n /\
  (forall i, s_net st' i = s_net st (n + i)%nat) /\
  (exists new,
     s_posted st' = s_posted st ++ new /\
     map (fun o => (location o, timestamp o)) new =
     expected_posts strftime locations times) /\
  (exists lines, s_out st' = s_out st ++ lines).

End HistoricalData.

(* ================================================================== *)
(** * Properties of the Density Classifier *)
(* ================================================================== *)

Section FloatOrder.

(** On binary64, [x < y] implies [x <= y]. *)
Lemma ltb_leb (x y : float) : (x <? y)%float = true -> (x <=? y)%float = true.
Proof.
  rewrite ltb_spec, leb_spec. unfold SFltb, SFleb.
  destruct (SFcompare (Prim2SF x) (Prim2SF y)) as [[ | | ] | ]; congruence.
Qed.

(** [max(lo, min(hi, x))] lies between [lo] and [hi], whatever [x] is,
    NaN included, as soon as [lo <= hi]. *)
Lemma clamp_between (lo hi x : float) :
  (lo <=? lo)%float = true -> (lo <=? hi)%float = true -> (hi <=? hi)%float = true ->
  (lo <=? Py.max lo (Py.min hi x))%float = true /\
  (Py.max lo (Py.min hi x) <=? hi)%float = true.
Proof.
  intros Hlo Hlh Hhi. unfold Py.max, Py.min.
  destruct (x <? hi)%float eqn:Hx.
  - destruct (lo <? x)%float eqn:Hl.
    + split; apply ltb_leb; assumption.
    + split; assumption.
  - destruct (lo <? hi)%float eqn:Hl; split; assumption.
Qed.

End FloatOrder.

Section Classifier.
Import Py Random MockMlService.

(** The confidence that [predict_traffic] returns is the clamped sum of
    the pre-jitter confidence and of the value drawn by [uniform]. *)
Lemma predict_traffic_confidence (lat lon : float) (hour : Z)
    (day_of_week weather : string) (historical_data_points : Z) (s : Source) :
  snd (fst (predict_traffic lat lon hour day_of_week weather historical_data_points s)) =
  clamp_confidence
    (snd (pre_jitter hour day_of_week weather historical_data_points))
    (fst (uniform (-0.05) 0.05 s)).
Proof.
  unfold predict_traffic.
  destruct (pre_jitter hour day_of_week weather historical_data_points) as [d c].
  unfold bind, uniform, random, ret, reclassify, bind, random, ret. simpl.
  destruct (d_unit (advance s 0%nat) <? 0.2)%float; reflexivity.
Qed.

(** The density that [predict_traffic] returns is the re-classified
    pre-jitter density, the re-classification reading the draws that
    follow the one of the jitter. *)
Lemma predict_traffic_density (lat lon : float) (hour : Z)
    (day_of_week weather : string) (historical_data_points : Z) (s : Source) :
  fst (fst (predict_traffic lat lon hour day_of_week weather historical_data_points s)) =
  fst (reclassify (fst (pre_jitter hour day_of_week weather historical_data_points))
         (advance s)).
Proof.
  unfold predict_traffic.
  destruct (pre_jitter hour day_of_week weather historical_data_points) as [d c].
  unfold bind, uniform, random, ret, reclassify, bind, random, ret. simpl.
  destruct (d_unit (advance s 0%nat) <? 0.2)%float; reflexivity.
Qed.

(** C1.  For every context (any latitude, longitude, hour, day of week,
    weather and historical sample count) and every stream of draws, the
    confidence returned by [predict_traffic] lies in the closed interval
    [[0.5, 0.95]]. *)
Theorem C1_confidence_bounds (lat lon : float) (hour : Z)
    (day_of_week weather : string) (historical_data_points : Z) (s : Source) :
  let confidence :=
    snd (fst (predict_traffic lat lon hour day_of_week weather
                historical_data_points s)) in
  (0.5 <=? confidence)%float = true /\ (confidence <=? 0.95)%float = true.
Proof.
  cbv zeta. rewrite predict_traffic_confidence. unfold clamp_confidence.
  apply clamp_between; reflexivity.
Qed.

(** The three hour bands of [base_by_hour]. *)
Lemma base_by_hour_cases (hour : Z) :
  base_by_hour hour = (HIGH, 0.85%float) \/
  base_by_hour hour = (LOW, 0.80%float) \/
  base_by_hour hour = (MODERATE, 0.75%float).
Proof.
  unfold base_by_hour.
  destruct (((7 <=? hour) && (hour <=? 9)) || ((17 <=? hour) && (hour <=? 19))); auto.
  destruct ((22 <=? hour) || (hour <=? 6)); auto.
Qed.

Lemma str_in_weekend (day_of_week : string) :
  day_of_week = "Saturday"%string \/ day_of_week = "Sunday"%string ->
  str_in day_of_week ["Saturday"; "Sunday"]%string = true.
Proof. intros [-> | ->]; reflexivity. Qed.

Lemma str_in_weekday (day_of_week : string) :
  day_of_week <> "Saturday"%string -> day_of_week <> "Sunday"%string ->
  str_in day_of_week ["Saturday"; "Sunday"]%string = false.
Proof.
  intros H1 H2. simpl.
  apply String.eqb_neq in H1. apply String.eqb_neq in H2.
  rewrite H1, H2. reflexivity.
Qed.

(** C2, as the code has it.  When the re-classification fires (the first
    draw is below 0.2), the second draw [coin] decides: below 0.5 and the
    density not LOW, the density moves one step down; in every other case
    (the coin chose up, or the density is LOW) it moves one step up,
    unless it is CRITICAL, which stays.  So the density is left unchanged
    only at CRITICAL with a coin of 0.5 or more; at LOW it always moves up
    to MODERATE. When the re-classification does not fire the density is
    unchanged. *)
Theorem C2_reclassify_steps (density : TrafficDensity) (s : Source) :
  let fire := d_unit (s 0%nat) in
  let coin := d_unit (s 1%nat) in
  let density' := fst (reclassify density s) in
  ((fire <? 0.2)%float = false -> density' = density) /\
  ((fire <? 0.2)%float = true ->
     ((coin <? 0.5)%float = true -> density <> LOW ->
        severity density' = severity density - 1) /\
     ((coin <? 0.5)%float = false \/ density = LOW -> density <> CRITICAL ->
        severity density' = severity density + 1) /\
     ((coin <? 0.5)%float = false -> density = CRITICAL -> density' = density)).
Proof.
  cbv zeta. unfold reclassify, bind, random, ret, advance. simpl.
  destruct (d_unit (s 0%nat) <? 0.2)%float; simpl.
  - split; [discriminate | intros _].
    unfold shift_prediction.
    destruct (d_unit (s 1%nat) <? 0.5)%float; destruct density; simpl;
      repeat split; intros; try reflexivity; try congruence;
      match goal with
      | H : _ \/ _ |- _ => destruct H; congruence
      end.
  - split; [reflexivity | discriminate].
Qed.

(** C2 holds of actual runs: with the draws 0.1 (fire) and 0.3 (down), HIGH
    moves down to MODERATE and LOW moves up to MODERATE. *)
Lemma C2_witness :
  severity (fst (reclassify HIGH (fun n => match n with
                                           | 0%nat => mkDraw 0.1 0
                                           | _ => mkDraw 0.3 0
                                           end))) = severity HIGH - 1 /\
  severity (fst (reclassify LOW (fun n => match n with
                                          | 0%nat => mkDraw 0.1 0
                                          | _ => mkDraw 0.3 0
                                          end))) = severity LOW + 1.
Proof.
  split.
  - destruct (C2_reclassify_steps HIGH
                (fun n => match n with 0%nat => mkDraw 0.1 0 | _ => mkDraw 0.3 0 end))
      as [_ H].
    destruct (H eq_refl) as (Hdown & _ & _).
    apply Hdown; [reflexivity | discriminate].
  - destruct (C2_reclassify_steps LOW
                (fun n => match n with 0%nat => mkDraw 0.1 0 | _ => mkDraw 0.3 0 end))
      as [_ H].
    destruct (H eq_refl) as (_ & Hup & _).
    apply Hup; [right; reflexivity | discriminate].
Defined.

(** C2, as the specification states it, fails: with the re-classification
    fired and the direction down drawn (coin 0.3) at density LOW, the
    density is not left unchanged, it becomes MODERATE; end to end, a night
    hour on a Monday in clear weather is returned as MODERATE. *)
Lemma C2_down_at_LOW_moves_up :
  let s : Source := fun n => match n with
                             | 0%nat => mkDraw 0.5 0
                             | 1%nat => mkDraw 0.1 0
                             | _ => mkDraw 0.3 0
                             end in
  (0.1 <? 0.2)%float = true /\ (0.3 <? 0.5)%float = true /\
  shift_prediction 0.3 LOW = MODERATE /\
  fst (reclassify LOW (advance s)) <> LOW /\
  fst (pre_jitter 3 "Monday" "CLEAR" 5) = LOW /\
  fst (fst (predict_traffic 16.5062 80.6480 3 "Monday" "CLEAR" 5 s)) = MODERATE.
Proof.
  cbv zeta. repeat split; try reflexivity.
  vm_compute. discriminate.
Qed.

(** C5.  For every context with a rush hour, a weekday, weather CLEAR and
    between 3 and 10 historical samples, the pre-jitter density is HIGH and
    the pre-jitter confidence is 0.85; and for the context of hour 8 on a
    Monday in CLEAR weather with 12 historical samples, on any stream whose
    jitter is zero and whose re-classification does not fire,
    [predict_traffic] returns HIGH with confidence 0.90. *)
Theorem C5_rush_hour_weekday_clear :
  (forall (hour : Z) (day_of_week : string) (historical_data_points : Z),
     7 <= hour <= 9 \/ 17 <= hour <= 19 ->
     day_of_week <> "Saturday"%string -> day_of_week <> "Sunday"%string ->
     3 <= historical_data_points <= 10 ->
     pre_jitter hour day_of_week "CLEAR" historical_data_points =
       (HIGH, 0.85%float)) /\
  (forall s : Source,
     fst (uniform (-0.05) 0.05 s) = 0%float ->
     (d_unit (s 1%nat) <? 0.2)%float = false ->
     fst (predict_traffic 16.5062 80.6480 8 "Monday" "CLEAR" 12 s) =
       (HIGH, 0.90%float)).
Proof.
  split.
  - intros hour day_of_week hist Hh Hsat Hsun Hn.
    unfold pre_jitter, base_by_hour.
    replace (((7 <=? hour) && (hour <=? 9)) || ((17 <=? hour) && (hour <=? 19)))
      with true by (symmetry; destruct Hh; [apply orb_true_intro; left
                                           |apply orb_true_intro; right];
                    apply andb_true_intro; split; apply Z.leb_le; lia).
    unfold adjust_day_of_week. rewrite (str_in_weekday _ Hsat Hsun).
    unfold adjust_weather, adjust_history. simpl.
    replace (hist >? 10) with false by (symmetry; rewrite Z.gtb_ltb; apply Z.ltb_ge; lia).
    replace (hist <? 3) with false by (symmetry; apply Z.ltb_ge; lia).
    reflexivity.
  - intros s Hj Hf.
    apply injective_projections.
    + rewrite predict_traffic_density.
      unfold reclassify, bind, random, ret. unfold advance at 1.
      rewrite Hf. reflexivity.
    + rewrite predict_traffic_confidence, Hj. reflexivity.
Qed.

(** C5 holds of an actual run: hour 8 on a Monday with 5 samples, and the
    stream whose every draw is 0.5 (zero jitter, no re-classification). *)
Lemma C5_witness :
  pre_jitter 8 "Monday" "CLEAR" 5 = (HIGH, 0.85%float) /\
  fst (predict_traffic 16.5062 80.6480 8 "Monday" "CLEAR" 12
         (fun _ => mkDraw 0.5 0)) = (HIGH, 0.90%float).
Proof.
  destruct C5_rush_hour_weekday_clear as [H1 H2]. split.
  - apply H1; [lia | discriminate | discriminate | lia].
  - apply H2; reflexivity.
Defined.

(** C6, as the code has it.  For a context whose day of week is Saturday
    or Sunday, the day-of-week step turns a HIGH base density into MODERATE
    and leaves any other base density alone, and the confidence is lower by
    0.05 (one binary64 subtraction of 0.05) than for the same context on a
    weekday, whether or not the density was de-escalated: right after the
    step, and also before the jitter, once the weather and history steps
    have run.  The density before the jitter is not always the de-escalated
    one: the weather step comes next, and in adverse weather (RAIN, SNOW,
    FOG) it escalates the MODERATE of a HIGH base back to HIGH, and the LOW
    of a night hour to MODERATE; in any other weather the density before
    the jitter is the one that the day-of-week step left. *)
Theorem C6_weekend_adjustment (hour : Z) (weekend weekday weather : string)
    (historical_data_points : Z) :
  weekend = "Saturday"%string \/ weekend = "Sunday"%string ->
  weekday <> "Saturday"%string -> weekday <> "Sunday"%string ->
  let base := base_by_hour hour in
  let adverse := str_in weather ["RAIN"; "SNOW"; "FOG"]%string in
  (fst base = HIGH -> fst (adjust_day_of_week weekend base) = MODERATE) /\
  (fst base <> HIGH -> fst (adjust_day_of_week weekend base) = fst base) /\
  adjust_day_of_week weekday base = base /\
  snd (adjust_day_of_week weekend base) =
    (snd (adjust_day_of_week weekday base) - 0.05)%float /\
  snd (pre_jitter hour weekend weather historical_data_points) =
    (snd (pre_jitter hour weekday weather historical_data_points) - 0.05)%float /\
  fst (pre_jitter hour weekend weather historical_data_points) =
    match fst base with
    | HIGH => if adverse then HIGH else MODERATE
    | MODERATE => if adverse then HIGH else MODERATE
    | LOW => if adverse then MODERATE else LOW
    | CRITICAL => CRITICAL
    end.
Proof.
  intros Hwe Hsat Hsun. cbv zeta.
  unfold pre_jitter, adjust_day_of_week, adjust_weather, adjust_history.
  rewrite (str_in_weekend _ Hwe), (str_in_weekday _ Hsat Hsun).
  generalize (str_in weather ["RAIN"; "SNOW"; "FOG"]%string). intros adverse.
  destruct (base_by_hour_cases hour) as [-> | [-> | ->]];
    cbn [fst snd density_eqb];
    repeat split; try reflexivity; try congruence;
    try destruct adverse; cbn [fst snd density_eqb];
    destruct (historical_data_points >? 10); try reflexivity;
    destruct (historical_data_points <? 3); reflexivity.
Qed.

(** C6 holds of actual contexts: hour 8 with 12 samples, on a Saturday
    against a Monday, in the rain and in clear weather. *)
Lemma C6_witness :
  snd (pre_jitter 8 "Saturday" "RAIN" 12) =
    (snd (pre_jitter 8 "Monday" "RAIN" 12) - 0.05)%float /\
  fst (adjust_day_of_week "Saturday" (base_by_hour 8)) = MODERATE /\
  fst (pre_jitter 8 "Saturday" "CLEAR" 12) = MODERATE.
Proof.
  destruct (C6_weekend_adjustment 8 "Saturday" "Monday" "RAIN" 12)
    as (H1 & _ & _ & _ & H5 & _);
    [left; reflexivity | discriminate | discriminate | ].
  destruct (C6_weekend_adjustment 8 "Saturday" "Monday" "CLEAR" 12)
    as (_ & _ & _ & _ & _ & H6);
    [left; reflexivity | discriminate | discriminate | ].
  split; [exact H5 | split; [apply H1; reflexivity | exact H6]].
Defined.

(** C6, as the specification states it, fails in adverse weather: at hour
    8 on a Saturday in the rain the hour-based base density is HIGH, and
    the density before the jitter and the re-classification is not
    MODERATE, it is HIGH again; end to end, on a stream whose
    re-classification does not fire, [predict_traffic] returns HIGH. *)
Lemma C6_rain_escalates_again :
  fst (base_by_hour 8) = HIGH /\
  str_in "Saturday" ["Saturday"; "Sunday"]%string = true /\
  fst (adjust_day_of_week "Saturday" (base_by_hour 8)) = MODERATE /\
  pre_jitter 8 "Saturday" "RAIN" 12 = (HIGH, 0.75%float) /\
  fst (pre_jitter 8 "Saturday" "RAIN" 12) <> MODERATE /\
  fst (fst (predict_traffic 16.5062 80.6480 8 "Saturday" "RAIN" 12
              (fun _ => mkDraw 0.5 0))) = HIGH.
Proof.
  repeat split; try reflexivity.
  vm_compute. discriminate.
Qed.

(** C7.  In adverse weather (RAIN, SNOW, FOG) the weather step turns LOW
    into MODERATE and MODERATE into HIGH, one step only, and leaves HIGH and
    CRITICAL alone, so the density never gets less severe, and it lowers the
    confidence by 0.10 (one binary64 subtraction); for any other weather the
    step changes nothing. *)
Theorem C7_weather_adjustment (weather : string) (density : TrafficDensity)
    (confidence : float) :
  (weather = "RAIN"%string \/ weather = "SNOW"%string \/ weather = "FOG"%string ->
     fst (adjust_weather weather (density, confidence)) =
       match density with
       | LOW => MODERATE
       | MODERATE => HIGH
       | HIGH => HIGH
       | CRITICAL => CRITICAL
       end /\
     severity density <= severity (fst (adjust_weather weather (density, confidence))) /\
     snd (adjust_weather weather (density, confidence)) = (confidence - 0.10)%float) /\
  (weather <> "RAIN"%string -> weather <> "SNOW"%string -> weather <> "FOG"%string ->
     adjust_weather weather (density, confidence) = (density, confidence)).
Proof.
  split.
  - intros [-> | [-> | ->]]; destruct density; repeat split; vm_compute; congruence.
  - intros H1 H2 H3. unfold adjust_weather. simpl.
    apply String.eqb_neq in H1. apply String.eqb_neq in H2. apply String.eqb_neq in H3.
    rewrite H1, H2, H3. reflexivity.
Qed.

(** C7 holds of actual inputs: LOW in the rain, and LOW under clouds. *)
Lemma C7_witness :
  adjust_weather "RAIN" (LOW, 0.80%float) = (MODERATE, (0.80 - 0.10)%float) /\
  adjust_weather "CLOUDY" (LOW, 0.80%float) = (LOW, 0.80%float).
Proof.
  destruct (C7_weather_adjustment "RAIN" LOW 0.80) as [H _].
  destruct (C7_weather_adjustment "CLOUDY" LOW 0.80) as [_ H'].
  split.
  - destruct H as (Hd & _ & Hc); [left; reflexivity | ].
    apply injective_projections; assumption.
  - apply H'; discriminate.
Defined.

End Classifier.

(* ================================================================== *)
(** * Properties of the request handlers *)
(* ================================================================== *)

Section Handlers.
Import Py Random MockMlService Json Facade Endpoints.

(** On an [int] hour, [str] day and weather and an [int] count, the
    handlers' call of [predict_traffic] is the one of [MockMlService]. *)
Lemma predict_traffic_typed (lat lon : Value) (hour : Z) (day_of_week weather : string)
    (historical_data_points : Z) (x y : float) (s : Source) :
  Untyped.predict_traffic lat lon (VInt hour) (VStr day_of_week) (VStr weather)
    (VInt historical_data_points) s =
  (inr (fst (predict_traffic x y hour day_of_week weather historical_data_points s)),
   snd (predict_traffic x y hour day_of_week weather historical_data_points s)).
Proof.
  unfold Untyped.predict_traffic, Untyped.pre_jitter, Untyped.base_by_hour,
    Untyped.adjust_history, Untyped.adjust_weather, Untyped.adjust_day_of_week,
    predict_traffic, pre_jitter.
  destruct (adjust_history historical_data_points
              (adjust_weather weather
                 (adjust_day_of_week day_of_week (base_by_hour hour)))) as [d c].
  unfold bind, ret.
  destruct (uniform (-0.05) 0.05 s) as [a s1].
  destruct (reclassify d s1) as [d' s2]. reflexivity.
Qed.

(** With a number for the hour and a number for the count, lines 23-51
    raise nothing. *)
Lemma pre_jitter_returns (hour day_of_week weather historical_data_points : Value) :
  Untyped.is_number hour = true ->
  Untyped.is_number historical_data_points = true ->
  exists e, Untyped.pre_jitter hour day_of_week weather historical_data_points = inr e.
Proof.
  intros Hh Hn. unfold Untyped.pre_jitter, Untyped.base_by_hour, Untyped.adjust_history.
  destruct hour; try discriminate;
    destruct historical_data_points; try discriminate; eexists; reflexivity.
Qed.

(** With another value for the hour or for the count, lines 23-51 raise
    [TypeError]. *)
Lemma pre_jitter_raises (hour day_of_week weather historical_data_points : Value) :
  Untyped.is_number hour = false \/
  Untyped.is_number historical_data_points = false ->
  exists message,
    Untyped.pre_jitter hour day_of_week weather historical_data_points =
      inl (TypeError message).
Proof.
  unfold Untyped.pre_jitter, Untyped.base_by_hour, Untyped.adjust_history.
  intros [H | H].
  - destruct hour; try discriminate; eexists; reflexivity.
  - destruct hour; try (eexists; reflexivity);
      destruct historical_data_points; try discriminate; eexists; reflexivity.
Qed.

(** A call of [predict_traffic] that raises nothing makes its draws and
    returns. *)
Lemma predict_traffic_returns (lat lon hour day_of_week weather
    historical_data_points : Value) (s : Source) :
  Untyped.is_number hour = true ->
  Untyped.is_number historical_data_points = true ->
  exists r s',
    Untyped.predict_traffic lat lon hour day_of_week weather
      historical_data_points s = (inr r, s').
Proof.
  intros Hh Hn.
  destruct (pre_jitter_returns hour day_of_week weather historical_data_points Hh Hn)
    as [[d c] He].
  unfold Untyped.predict_traffic. rewrite He.
  destruct (uniform (-0.05) 0.05 s) as [a s1].
  destruct (reclassify d s1) as [d' s2]. eauto.
Qed.

(** A call of [predict_traffic] that raises makes no draw. *)
Lemma predict_traffic_raises (lat lon hour day_of_week weather
    historical_data_points : Value) (s : Source) :
  Untyped.is_number hour = false \/
  Untyped.is_number historical_data_points = false ->
  exists message,
    Untyped.predict_traffic lat lon hour day_of_week weather
      historical_data_points s = (inl (TypeError message), s).
Proof.
  intros H.
  destruct (pre_jitter_raises hour day_of_week weather historical_data_points H)
    as [message He].
  exists message. unfold Untyped.predict_traffic. rewrite He. reflexivity.
Qed.

(** The validation loop of [predict] on a [dict]: it stops at the first of
    lat, lon, hour, dayOfWeek, in this order, that is no key of it. *)
Lemma first_missing_dict (members : list (string * Value)) (w : World) :
  let has key := is_some (lookup key members) in
  first_missing required_fields (VDict members) w =
    (inr (if negb (has "lat"%string) then Some "lat"%string
          else if negb (has "lon"%string) then Some "lon"%string
          else if negb (has "hour"%string) then Some "hour"%string
          else if negb (has "dayOfWeek"%string) then Some "dayOfWeek"%string
          else None), w).
Proof.
  cbv zeta. unfold required_fields, first_missing, contains, and_then, eval, pure.
  destruct (lookup "lat" members); cbn [is_some negb]; [ | reflexivity].
  destruct (lookup "lon" members); cbn [is_some negb]; [ | reflexivity].
  destruct (lookup "hour" members); cbn [is_some negb]; [ | reflexivity].
  destruct (lookup "dayOfWeek" members); reflexivity.
Qed.

(** The body of [predict] on a [dict] that has the four required keys:
    one call of [predict_traffic] on the values as they come, and, when it
    returns, the draw of the simulated processing time. *)
Lemma predict_body_complete (members : list (string * Value)) (w : World)
    (lat lon hour day : Value) :
  lookup "lat"%string members = Some lat ->
  lookup "lon"%string members = Some lon ->
  lookup "hour"%string members = Some hour ->
  lookup "dayOfWeek"%string members = Some day ->
  let weather := field (VDict members) "weather" (VStr "CLEAR") in
  let hist := field (VDict members) "historicalDataPoints" (VInt 0) in
  let call := mkCoreCall lat lon hour day weather hist in
  predict_body (VDict members) w =
    match Untyped.predict_traffic lat lon hour day weather hist (rng w) with
    | (inl e, s) => (inl e, {| rng := s; core_calls := core_calls w ++ [call] |})
    | (inr (prediction, confidence), s) =>
        (inr (Ok200 {|
           prediction := prediction;
           confidence := confidence;
           model_version := "v1.2.3";
           features_used := {|
             coordinates := (lat, lon);
             temporal_hour := hour;
             temporal_day_of_week := day;
             f_weather := weather;
             f_historical_data_points := hist |} |}),
         {| rng := advance s; core_calls := core_calls w ++ [call] |})
    end.
Proof.
  intros H1 H2 H3 H4. cbv zeta.
  unfold predict_body.
  unfold and_then at 1. rewrite first_missing_dict. cbv zeta.
  rewrite H1, H2, H3, H4. cbn [is_some negb].
  unfold and_then, eval, subscript, get, call_predict_traffic, draw, pure.
  rewrite H1, H2, H3, H4.
  change (match lookup "weather" members with
          | Some v => v
          | None => VStr "CLEAR"
          end) with (field (VDict members) "weather" (VStr "CLEAR")).
  change (match lookup "historicalDataPoints" members with
          | Some v => v
          | None => VInt 0
          end) with (field (VDict members) "historicalDataPoints" (VInt 0)).
  destruct (Untyped.predict_traffic lat lon hour day
              (field (VDict members) "weather" (VStr "CLEAR"))
              (field (VDict members) "historicalDataPoints" (VInt 0)) (rng w))
    as [[e | [d c]] s]; reflexivity.
Qed.

(** The answer of [predict] on a [dict] that lacks a required key. *)
Lemma predict_missing (members : list (string * Value)) (w : World) (field : string) :
  fst (first_missing required_fields (VDict members) w) = inr (Some field) ->
  predict (VDict members) w =
    (BadRequest400 ("Missing required field: " ++ field), w).
Proof.
  intros H. unfold predict, predict_body. unfold and_then at 1.
  rewrite first_missing_dict in *. cbn [fst] in H.
  injection H as H. rewrite H. reflexivity.
Qed.

(** C4, as the code has it.  A request, a JSON object, that lacks one of
    lat, lon, hour, dayOfWeek is answered 400 with the message naming the
    first field it lacks in this order, and [predict_traffic] is not called
    (the generator and the call log are as before).  A request that has the
    four fields is not checked any further: whatever its hour, inside
    [[0, 23]] or not, [predict_traffic] is called once on its values.  When
    the hour and the count of historical data points (0 if the request has
    none) are numbers, the answer is 200 with what the call returned; for
    an integer hour that is what [MockMlService.predict_traffic] returns on
    it, and an hour of 22 or more, or of 6 or less, has the base of a night
    hour.  When one of the two is not a number, the call raises
    [TypeError] before any draw and the answer is 500. *)
Theorem C4_predict_validation (members : list (string * Value)) (w : World) :
  let data := VDict members in
  let has key := is_some (lookup key members) in
  (has "lat"%string = false ->
     predict data w = (BadRequest400 "Missing required field: lat", w)) /\
  (has "lat"%string = true -> has "lon"%string = false ->
     predict data w = (BadRequest400 "Missing required field: lon", w)) /\
  (has "lat"%string = true -> has "lon"%string = true -> has "hour"%string = false ->
     predict data w = (BadRequest400 "Missing required field: hour", w)) /\
  (has "lat"%string = true -> has "lon"%string = true -> has "hour"%string = true ->
   has "dayOfWeek"%string = false ->
     predict data w = (BadRequest400 "Missing required field: dayOfWeek", w)) /\
  (forall lat lon hour day : Value,
     lookup "lat"%string members = Some lat ->
     lookup "lon"%string members = Some lon ->
     lookup "hour"%string members = Some hour ->
     lookup "dayOfWeek"%string members = Some day ->
     let weather := field (VDict members) "weather" (VStr "CLEAR") in
     let hist := field (VDict members) "historicalDataPoints" (VInt 0) in
     let r := Untyped.predict_traffic lat lon hour day weather hist (rng w) in
     core_calls (snd (predict data w)) =
       core_calls w ++ [mkCoreCall lat lon hour day weather hist] /\
     (Untyped.is_number hour = true -> Untyped.is_number hist = true ->
        exists body,
          fst (predict data w) = Ok200 body /\
          fst r = inr (prediction body, confidence body) /\
          rng (snd (predict data w)) = advance (snd r)) /\
     (Untyped.is_number hour = false \/ Untyped.is_number hist = false ->
        exists message,
          fst (predict data w) = ServerError500 "Internal server error" message /\
          rng (snd (predict data w)) = rng w) /\
     (forall (h n : Z) (d c : string) (x y : float),
        hour = VInt h -> day = VStr d -> weather = VStr c -> hist = VInt n ->
        exists body,
          fst (predict data w) = Ok200 body /\
          (prediction body, confidence body) =
            fst (predict_traffic x y h d c n (rng w)) /\
          (22 <= h \/ h <= 6 -> base_by_hour h = (LOW, 0.80%float)))).
Proof.
  cbv zeta. repeat apply conj.
  - intros H. apply predict_missing. rewrite first_missing_dict. cbv zeta.
    rewrite H. reflexivity.
  - intros H1 H2. apply predict_missing. rewrite first_missing_dict. cbv zeta.
    rewrite H1, H2. reflexivity.
  - intros H1 H2 H3. apply predict_missing. rewrite first_missing_dict. cbv zeta.
    rewrite H1, H2, H3. reflexivity.
  - intros H1 H2 H3 H4. apply predict_missing. rewrite first_missing_dict. cbv zeta.
    rewrite H1, H2, H3, H4. reflexivity.
  - intros lat lon hour day H1 H2 H3 H4.
    pose proof (predict_body_complete members w lat lon hour day H1 H2 H3 H4) as Hb.
    cbv zeta in Hb. unfold predict. rewrite Hb. clear Hb.
    set (weather := field (VDict members) "weather" (VStr "CLEAR")).
    set (hist := field (VDict members) "historicalDataPoints" (VInt 0)).
    repeat apply conj.
    + destruct (Untyped.predict_traffic lat lon hour day weather hist (rng w))
        as [[e | [d c]] s]; reflexivity.
    + intros Hh Hn.
      destruct (predict_traffic_returns lat lon hour day weather hist (rng w) Hh Hn)
        as ([d c] & s' & Hr).
      rewrite Hr. eexists. repeat split.
    + intros Hbad.
      destruct (predict_traffic_raises lat lon hour day weather hist (rng w) Hbad)
        as (message & Hr).
      rewrite Hr. exists message. split; reflexivity.
    + intros h n d c x y -> -> Hw Hn.
      rewrite Hw, Hn, (predict_traffic_typed lat lon h d c n x y).
      destruct (predict_traffic x y h d c n (rng w)) as [[dens conf] s'].
      eexists. repeat split.
      intros Hnight. unfold base_by_hour.
      replace (((7 <=? h) && (h <=? 9)) || ((17 <=? h) && (h <=? 19)))
        with false by (symmetry; apply orb_false_intro; apply andb_false_iff;
                       rewrite !Z.leb_gt; lia).
      replace ((22 <=? h) || (h <=? 6)) with true
        by (symmetry; apply orb_true_iff; rewrite !Z.leb_le; lia).
      reflexivity.
Qed.

(** C4 holds of actual requests: one without its hour, one complete, and
    one whose hour is a string. *)
Lemma C4_witness :
  let w := {| rng := fun _ => mkDraw 0.5 0; core_calls := [] |} in
  let request hour :=
    VDict (("lat"%string, VFloat 16.5062) :: ("lon"%string, VFloat 80.6480) ::
           hour ++ [("dayOfWeek"%string, VStr "Monday")]) in
  predict (request []) w = (BadRequest400 "Missing required field: hour", w) /\
  (exists body, fst (predict (request [("hour"%string, VInt 8)]) w) = Ok200 body) /\
  (exists message,
     fst (predict (request [("hour"%string, VStr "8")]) w) =
       ServerError500 "Internal server error" message).
Proof.
  cbv zeta. split; [ | split].
  - apply (C4_predict_validation
             [("lat"%string, VFloat 16.5062); ("lon"%string, VFloat 80.6480);
              ("dayOfWeek"%string, VStr "Monday")]); reflexivity.
  - destruct (C4_predict_validation
                [("lat"%string, VFloat 16.5062); ("lon"%string, VFloat 80.6480);
                 ("hour"%string, VInt 8); ("dayOfWeek"%string, VStr "Monday")]
                {| rng := fun _ => mkDraw 0.5 0; core_calls := [] |})
      as (_ & _ & _ & _ & H).
    destruct (H _ _ _ _ eq_refl eq_refl eq_refl eq_refl) as (_ & H200 & _).
    destruct (H200 eq_refl eq_refl) as (body & Hb & _).
    exists body. exact Hb.
  - destruct (C4_predict_validation
                [("lat"%string, VFloat 16.5062); ("lon"%string, VFloat 80.6480);
                 ("hour"%string, VStr "8"); ("dayOfWeek"%string, VStr "Monday")]
                {| rng := fun _ => mkDraw 0.5 0; core_calls := [] |})
      as (_ & _ & _ & _ & H).
    destruct (H _ _ _ _ eq_refl eq_refl eq_refl eq_refl) as (_ & _ & H500 & _).
    destruct (H500 (or_introl eq_refl)) as (message & Hm & _).
    exists message. exact Hm.
Defined.

(** C4, as the specification states it, fails on the hour: the request with
    hour 25 (and the four required fields) is not rejected; it is answered
    200, and [predict_traffic] has been called on hour 25, which it takes
    for a night hour. *)
Lemma C4_hour_25_accepted :
  let data := VDict [("lat"%string, VFloat 16.5062); ("lon"%string, VFloat 80.6480);
                     ("hour"%string, VInt 25); ("dayOfWeek"%string, VStr "Monday")] in
  let w := {| rng := fun _ => mkDraw 0.5 0; core_calls := [] |} in
  fst (predict data w) =
    Ok200 {| prediction := LOW;
             confidence := 0.70000000000000007%float;
             model_version := "v1.2.3";
             features_used := {|
               coordinates := (VFloat 16.5062, VFloat 80.6480);
               temporal_hour := VInt 25;
               temporal_day_of_week := VStr "Monday";
               f_weather := VStr "CLEAR";
               f_historical_data_points := VInt 0 |} |} /\
  core_calls (snd (predict data w)) =
    [mkCoreCall (VFloat 16.5062) (VFloat 80.6480) (VInt 25) (VStr "Monday")
       (VStr "CLEAR") (VInt 0)] /\
  (forall error, fst (predict data w) <> BadRequest400 error).
Proof.
  cbv zeta. split; [ | split].
  - vm_compute. reflexivity.
  - vm_compute. reflexivity.
  - intros error. vm_compute. discriminate.
Qed.

(** One turn of the batch loop on a [dict] that has the four keys: one
    call of [predict_traffic] on the values as they come; when it returns,
    one result is appended, with the id of the item, or the number of
    results so far when it has none, and the loop goes on with the rest. *)
Lemma batch_loop_item (members : list (string * Value)) (rest : list Value)
    (acc : list BatchResult) (w : World) :
  subscriptable (VDict members) = true ->
  let req := VDict members in
  let lat := field req "lat" VNone in
  let lon := field req "lon" VNone in
  let hour := field req "hour" VNone in
  let day := field req "dayOfWeek" VNone in
  let weather := field req "weather" (VStr "CLEAR") in
  let hist := field req "historicalDataPoints" (VInt 0) in
  let w' s := {| rng := s;
                 core_calls := core_calls w ++
                   [mkCoreCall lat lon hour day weather hist] |} in
  batch_loop (req :: rest) acc w =
    match Untyped.predict_traffic lat lon hour day weather hist (rng w) with
    | (inl e, s) => (inl e, w' s)
    | (inr (p, c), s) =>
        batch_loop rest
          (acc ++ [{| b_id := field req "id" (VInt (len acc));
                      b_prediction := p;
                      b_confidence := c |}]) (w' s)
    end.
Proof.
  unfold subscriptable. intros H. cbv zeta. unfold field.
  destruct (lookup "lat" members) as [lat | ] eqn:Hlat; [ | discriminate].
  destruct (lookup "lon" members) as [lon | ] eqn:Hlon; [ | discriminate].
  destruct (lookup "hour" members) as [hour | ] eqn:Hh; [ | discriminate].
  destruct (lookup "dayOfWeek" members) as [day | ] eqn:Hd; [ | discriminate].
  cbn [batch_loop].
  unfold and_then, eval, subscript, get, call_predict_traffic.
  rewrite Hlat, Hlon, Hh, Hd.
  destruct (Untyped.predict_traffic lat lon hour day
              match lookup "weather" members with
              | Some v => v
              | None => VStr "CLEAR"
              end
              match lookup "historicalDataPoints" members with
              | Some v => v
              | None => VInt 0
              end (rng w)) as [[e | [p c]] s]; reflexivity.
Qed.

(** One turn of the batch loop on an item that it gets through:
    [predict_traffic] is called once, one result is appended, and the loop
    goes on with the rest. *)
Lemma batch_loop_step (req : Value) (acc : list BatchResult) (w : World) :
  processable req = true ->
  exists (r : BatchResult) (c : CoreCall) (s : Source),
    b_id r = field req "id" (VInt (len acc)) /\
    forall rest,
      batch_loop (req :: rest) acc w =
        batch_loop rest (acc ++ [r])
          {| rng := s; core_calls := core_calls w ++ [c] |}.
Proof.
  unfold processable. intros H.
  apply andb_prop in H. destruct H as [H Hn].
  apply andb_prop in H. destruct H as [Hs Hh].
  destruct req as [ | | | | | | members]; try discriminate.
  destruct (predict_traffic_returns
              (field (VDict members) "lat" VNone) (field (VDict members) "lon" VNone)
              (field (VDict members) "hour" VNone)
              (field (VDict members) "dayOfWeek" VNone)
              (field (VDict members) "weather" (VStr "CLEAR"))
              (field (VDict members) "historicalDataPoints" (VInt 0))
              (rng w) Hh Hn) as ([p c] & s & Hr).
  do 3 eexists. split; [ | intros rest].
  2: { rewrite (batch_loop_item members rest acc w Hs). cbv zeta.
       rewrite Hr. reflexivity. }
  reflexivity.
Qed.

(** The batch loop over a prefix of items that it gets through: it
    reaches the rest of the list with one result and one call of
    [predict_traffic] more per item of the prefix. *)
Lemma batch_loop_prefix (ok : list Value) :
  Forall (fun req => processable req = true) ok ->
  forall (acc : list BatchResult) (w : World),
  exists (acc' : list BatchResult) (w' : World),
    (forall rest, batch_loop (ok ++ rest) acc w = batch_loop rest acc' w') /\
    List.length acc' = (List.length acc + List.length ok)%nat /\
    List.length (core_calls w') =
      (List.length (core_calls w) + List.length ok)%nat.
Proof.
  induction 1 as [ | req ok Hreq Hok IH]; intros acc w.
  - exists acc, w. simpl. repeat split; auto with arith.
  - destruct (batch_loop_step req acc w Hreq) as (r & c & s & _ & Hstep).
    destruct (IH (acc ++ [r]) {| rng := s; core_calls := core_calls w ++ [c] |})
      as (acc' & w' & Hrun & Hacc & Hcalls).
    exists acc', w'. repeat split.
    + intros rest. simpl. rewrite <- Hrun. apply Hstep.
    + rewrite Hacc, length_app. simpl. lia.
    + rewrite Hcalls. simpl. rewrite length_app. simpl. lia.
Qed.

(** The batch loop at an item that it does not get through.  An item that
    is no [dict], or a [dict] without one of the four keys, raises at the
    first subscript that fails, before any call: [KeyError] on the first of
    lat, lon, hour, dayOfWeek that a [dict] lacks.  An item with the four
    keys raises [TypeError] inside the call of [predict_traffic], before
    any draw.  In both cases the loop ends there, whatever follows. *)
Lemma batch_loop_bad (bad : Value) (acc : list BatchResult) (w : World) :
  processable bad = false ->
  exists (e : Exn) (w' : World),
    (forall rest, batch_loop (bad :: rest) acc w = (inl e, w')) /\
    rng w' = rng w /\
    List.length (core_calls w') =
      (List.length (core_calls w) + if subscriptable bad then 1 else 0)%nat /\
    (forall members, bad = VDict members ->
       let has key := is_some (lookup key members) in
       (has "lat"%string = false -> e = KeyError "lat") /\
       (has "lat"%string = true -> has "lon"%string = false -> e = KeyError "lon") /\
       (has "lat"%string = true -> has "lon"%string = true ->
        has "hour"%string = false -> e = KeyError "hour") /\
       (has "lat"%string = true -> has "lon"%string = true ->
        has "hour"%string = true -> has "dayOfWeek"%string = false ->
        e = KeyError "dayOfWeek")) /\
    (subscriptable bad = true \/ (forall members, bad <> VDict members) ->
       exists message, e = TypeError message).
Proof.
  intros Hbad. destruct (subscriptable bad) eqn:Hs.
  - destruct bad as [ | | | | | | members]; try discriminate.
    unfold processable in Hbad. rewrite Hs in Hbad. cbn [andb] in Hbad.
    apply andb_false_iff in Hbad.
    destruct (predict_traffic_raises
                (field (VDict members) "lat" VNone) (field (VDict members) "lon" VNone)
                (field (VDict members) "hour" VNone)
                (field (VDict members) "dayOfWeek" VNone)
                (field (VDict members) "weather" (VStr "CLEAR"))
                (field (VDict members) "historicalDataPoints" (VInt 0))
                (rng w) Hbad) as (message & Hr).
    do 2 eexists. split; [ | split; [ | split; [ | split]]].
    + intros rest. rewrite (batch_loop_item members rest acc w Hs). cbv beta zeta.
      rewrite Hr. reflexivity.
    + reflexivity.
    + cbn. rewrite length_app. reflexivity.
    + intros m Hm. injection Hm as <-. cbv beta zeta.
      unfold subscriptable in Hs.
      destruct (lookup "lat" members); [ | discriminate].
      destruct (lookup "lon" members); [ | discriminate].
      destruct (lookup "hour" members); [ | discriminate].
      destruct (lookup "dayOfWeek" members); [ | discriminate].
      cbn [is_some]. repeat split; intros; discriminate.
    + intros _. exists message. reflexivity.
  - destruct bad as [ | b | n | x | s | items | members].
    1-6: (do 2 eexists; split; [intros rest; reflexivity | ];
          split; [reflexivity | ]; split; [cbn; lia | ];
          split; [intros m Hm; discriminate | ];
          intros _; eexists; reflexivity).
    unfold subscriptable in Hs.
    destruct (lookup "lat" members) as [lat | ] eqn:Hlat;
      [destruct (lookup "lon" members) as [lon | ] eqn:Hlon;
       [destruct (lookup "hour" members) as [hour | ] eqn:Hh;
        [destruct (lookup "dayOfWeek" members) as [day | ] eqn:Hd;
         [discriminate | ] | ] | ] | ];
      (do 2 eexists; split;
       [intros rest; cbn [batch_loop]; unfold and_then, eval, subscript;
        rewrite ?Hlat, ?Hlon, ?Hh, ?Hd; reflexivity | ];
       split; [reflexivity | ]; split; [cbn; lia | ];
       split; [intros m Hm; injection Hm as <-; cbv beta zeta;
               rewrite ?Hlat, ?Hlon, ?Hh, ?Hd; cbn [is_some];
               repeat split; intros; try reflexivity; discriminate | ];
       intros [H | H]; [discriminate | exfalso; apply (H members); reflexivity]).
Qed.




End Handlers.

(* ================================================================== *)
(** * Rounding in binary64

    The specification of the primitive floats ([SpecFloat]) gives the
    operations as functions on mantissas and exponents.  The lemmas of this
    section bound the result of a rounding by the doubles around the exact
    value; they are what carries the ranges of [random.uniform] and of the
    weighted draw of [random.choices] from the reals to the doubles. *)
(* ================================================================== *)

Section Binary64Rounding.
Import Py Binary64 Round.

(** A positive number with [d] binary digits lies between [2^(d-1)] and [2^d]. *)
Lemma digits2_pos_bounds (p : positive) :
  2 ^ (Zpos (digits2_pos p) - 1) <= Zpos p < 2 ^ Zpos (digits2_pos p).
Proof.
  induction p as [p IH | p IH | ]; simpl digits2_pos.
  - rewrite Pos2Z.inj_succ.
    replace (Z.succ (Zpos (digits2_pos p)) - 1) with (Z.succ (Zpos (digits2_pos p) - 1)) by lia.
    rewrite !Z.pow_succ_r by lia. lia.
  - rewrite Pos2Z.inj_succ.
    replace (Z.succ (Zpos (digits2_pos p)) - 1) with (Z.succ (Zpos (digits2_pos p) - 1)) by lia.
    rewrite !Z.pow_succ_r by lia. lia.
  - simpl. lia.
Qed.

(** An invariant indexed by the number of iterations is carried through
    [iter_pos]. *)
Lemma iter_pos_invariant {A : Type} (f : A -> A) (Inv : Z -> A -> Prop) :
  (forall k x, 0 <= k -> Inv k x -> Inv (k + 1) (f x)) ->
  forall p k x, 0 <= k -> Inv k x -> Inv (k + Zpos p) (iter_pos f p x).
Proof.
  intros Hstep. induction p as [p IH | p IH | ]; intros k x Hk Hx; simpl.
  - replace (k + Zpos p~1) with (k + 1 + Zpos p + Zpos p) by lia.
    apply IH; [lia | ]. apply IH; [lia | ]. apply Hstep; assumption.
  - replace (k + Zpos p~0) with (k + Zpos p + Zpos p) by lia.
    apply IH; [lia | ]. apply IH; assumption.
  - apply Hstep; assumption.
Qed.

(** One right shift of a non-negative mantissa halves it, moves its last bit
    to the round bit and accumulates the old round bit in the sticky bit. *)
Lemma shr_1_nonneg (m : Z) (r s : bool) :
  0 <= m ->
  shr_1 (Build_shr_record m r s) = Build_shr_record (m / 2) (Z.odd m) (r || s).
Proof.
  intros Hm. destruct m as [ | p | p]; [reflexivity | | lia].
  destruct p as [p | p | ]; simpl shr_1; f_equal.
  - rewrite Pos2Z.inj_xI. apply Z.div_unique with (r := 1); lia.
  - rewrite Pos2Z.inj_xO. apply Z.div_unique with (r := 0); lia.
Qed.

(** One more right shift. *)
Lemma shifted_step (m0 k : Z) (mrs : shr_record) :
  0 <= m0 -> 0 <= k -> shifted m0 k mrs -> shifted m0 (k + 1) (shr_1 mrs).
Proof.
  intros Hm Hk (Hq & Hr & Hs). destruct mrs as [m r s]. cbn [shr_m shr_r shr_s] in Hq, Hr, Hs.
  assert (Hp : 0 < 2 ^ k) by (apply Z.pow_pos_nonneg; lia).
  assert (Hm' : 0 <= m) by (subst m; apply Z.div_pos; lia).
  rewrite shr_1_nonneg by assumption. unfold shifted. cbn [shr_m shr_r shr_s].
  rewrite Z.pow_add_r, Z.pow_1_r by lia.
  assert (Hdiv : m0 / (2 ^ k * 2) = m / 2) by (subst m; rewrite Z.div_div; lia).
  assert (Hmod : m0 mod (2 ^ k * 2) = m0 mod 2 ^ k + 2 ^ k * (m mod 2)).
  { subst m. rewrite Z.rem_mul_r by lia. reflexivity. }
  pose proof (Z.mod_pos_bound m0 (2 ^ k) Hp) as Hb.
  pose proof (Z.mod_pos_bound m 2 ltac:(lia)) as Hb2.
  rewrite Hdiv, Hmod. pose proof (Zmod_odd m) as Ho.
  split; [reflexivity | split]; intros H.
  - destruct (Z.odd m); [rewrite Ho in H; lia | reflexivity].
  - destruct (Z.odd m); rewrite Ho in H; [lia | ].
    rewrite Hs by lia. rewrite Hr by lia. reflexivity.
Qed.

(** No shift at all. *)
Lemma shifted_zero (m : Z) : shifted m 0 (Build_shr_record m false false).
Proof.
  unfold shifted. cbn [shr_m shr_r shr_s]. rewrite Z.pow_0_r, Z.div_1_r. auto.
Qed.

(** [shr] of an exact mantissa by [n >= 0] positions. *)
Lemma shr_spec (m e n : Z) :
  0 <= m -> 0 <= n ->
  shifted m n (fst (shr (Build_shr_record m false false) e n)) /\
  snd (shr (Build_shr_record m false false) e n) = e + n.
Proof.
  intros Hm Hn. destruct n as [ | p | p]; [ | | lia]; cbn [shr fst snd].
  - split; [apply shifted_zero | lia].
  - split; [ | reflexivity].
    apply (iter_pos_invariant shr_1 (shifted m)) with (k := 0) (p := p);
      [ | lia | apply shifted_zero].
    intros k x Hk Hx. apply shifted_step; assumption.
Qed.

(** The exponent of the binary64 format for a number of magnitude [x]. *)
Lemma fexp_eq (x : Z) : fexp prec emax x = Z.max (x - 53) (-1074).
Proof. reflexivity. Qed.

Lemma Zdigits2_bounds (m : Z) :
  0 < m -> 2 ^ (Zdigits2 m - 1) <= m < 2 ^ Zdigits2 m /\ 0 < Zdigits2 m.
Proof.
  destruct m as [ | p | p]; try lia. intros _. simpl Zdigits2.
  split; [apply digits2_pos_bounds | lia].
Qed.

Lemma pow2_lt_reflect (a b : Z) : 0 <= a -> 0 <= b -> 2 ^ a < 2 ^ b -> a < b.
Proof. intros Ha Hb H. apply (Z.pow_lt_mono_r_iff 2); lia. Qed.

(** Rounding to nearest even keeps the quotient or adds one to it, and keeps
    it when the round bit is clear. *)
Lemma round_nearest_even_range (q : Z) (mrs : shr_record) :
  shr_m mrs = q ->
  q <= round_nearest_even (shr_m mrs) (loc_of_shr_record mrs) <= q + 1 /\
  (shr_r mrs = false -> round_nearest_even (shr_m mrs) (loc_of_shr_record mrs) = q).
Proof.
  destruct mrs as [m [ | ] [ | ]]; cbn; intros ->; try destruct (Z.even q); split; (lia || auto || discriminate).
Qed.

(** What [binary_round_aux] computes on an exact positive [P * 2^E] that
    needs no left shift: [P] is divided by [2^n] to reach the exponent of
    the format, the quotient is kept or incremented, kept when the remainder
    is below one half, and the result is renormalised. *)
Lemma binary_round_aux_spec (P E : Z) :
  0 < P -> E <= fexp prec emax (Zdigits2 P + E) ->
  let e' := fexp prec emax (Zdigits2 P + E) in
  let n := e' - E in
  exists M,
    P / 2 ^ n <= M <= P / 2 ^ n + 1 /\
    (2 * (P mod 2 ^ n) < 2 ^ n -> M = P / 2 ^ n) /\
    binary_round_aux prec emax false P E loc_Exact = finish M e'.
Proof.
  intros HP HE e' n.
  assert (Hn : 0 <= n) by (unfold n, e'; lia).
  assert (He' : -1074 <= e') by (unfold e'; rewrite fexp_eq; lia).
  destruct (Zdigits2_bounds P HP) as [[Hd1 Hd2] Hd0].
  assert (H2n : 0 < 2 ^ n) by (apply Z.pow_pos_nonneg; lia).
  assert (Hq : 0 <= P / 2 ^ n < 2 ^ 53).
  { split; [apply Z.div_pos; lia | ].
    apply Z.div_lt_upper_bound; [lia | ].
    rewrite <- Z.pow_add_r by lia.
    eapply Z.lt_le_trans; [exact Hd2 | ].
    apply Z.pow_le_mono_r; [lia | ].
    unfold n, e'. rewrite fexp_eq. lia. }
  unfold binary_round_aux, shr_fexp. cbn [shr_record_of_loc].
  fold e'. fold n.
  destruct (shr_spec P E n ltac:(lia) Hn) as [Hsh He1].
  destruct (shr {| shr_m := P; shr_r := false; shr_s := false |} E n) as [mrs e1].
  cbn [fst snd] in Hsh, He1. destruct Hsh as (Hm & Hr & _).
  destruct (round_nearest_even_range _ mrs Hm) as [HM HMx].
  set (M := round_nearest_even (shr_m mrs) (loc_of_shr_record mrs)) in *.
  clearbody M.
  assert (Hee : e1 = e') by (unfold n in He1; lia). clear He1. subst e1.
  exists M. split; [exact HM | split; [intros Hhalf; apply HMx, Hr, Hhalf | ]].
  unfold finish.
  destruct (Z.eqb_spec M 0) as [HM0 | HM0].
  - rewrite HM0. cbn [Zdigits2 Z.add]. rewrite fexp_eq.
    replace (Z.max (e' - 53) (-1074) - e') with (- (e' - Z.max (e' - 53) (-1074))) by lia.
    destruct (e' - Z.max (e' - 53) (-1074)) eqn:Hz; try lia; reflexivity.
  - destruct (Z.ltb_spec M (2 ^ 53)) as [HMlt | HMge].
    + destruct (Zdigits2_bounds M ltac:(lia)) as [[Hm1 Hm2] Hm0].
      assert (Zdigits2 M - 1 < 53) by (apply pow2_lt_reflect; lia).
      rewrite fexp_eq.
      assert (Hsh0 : Z.max (Zdigits2 M + e' - 53) (-1074) - e' <= 0) by lia.
      destruct (Z.max (Zdigits2 M + e' - 53) (-1074) - e') eqn:Hz; try lia;
        cbn [shr shr_m shr_record_of_loc];
        (destruct M as [ | pm | pm]; try lia; reflexivity).
    + assert (HM53 : M = 2 ^ 53) by lia.
      rewrite HM53. rewrite fexp_eq. change (Zdigits2 (2 ^ 53)) with 54.
      replace (Z.max (54 + e' - 53) (-1074) - e') with 1 by lia.
      reflexivity.
Qed.

(** Comparison of two positive finite doubles: exponents first, then
    mantissas. *)
Lemma SFleb_finite (m1 m2 : positive) (e1 e2 : Z) :
  e1 < e2 \/ (e1 = e2 /\ Zpos m1 <= Zpos m2) ->
  SFleb (S754_finite false m1 e1) (S754_finite false m2 e2) = true.
Proof.
  unfold SFleb, SFcompare. intros [H | [-> H]].
  - apply Z.compare_lt_iff in H. rewrite H. reflexivity.
  - rewrite Z.compare_refl. change (Pos.compare_cont Eq m1 m2) with (Pos.compare m1 m2).
    destruct (Pos.compare_spec m1 m2); try reflexivity; lia.
Qed.

Lemma SFltb_finite (m1 m2 : positive) (e1 e2 : Z) :
  e1 < e2 \/ (e1 = e2 /\ Zpos m1 < Zpos m2) ->
  SFltb (S754_finite false m1 e1) (S754_finite false m2 e2) = true.
Proof.
  unfold SFltb, SFcompare. intros [H | [-> H]].
  - apply Z.compare_lt_iff in H. rewrite H. reflexivity.
  - rewrite Z.compare_refl. change (Pos.compare_cont Eq m1 m2) with (Pos.compare m1 m2).
    destruct (Pos.compare_spec m1 m2); try reflexivity; lia.
Qed.

Lemma SFleb_finite_inv (m1 m2 : positive) (e1 e2 : Z) :
  SFleb (S754_finite false m1 e1) (S754_finite false m2 e2) = true ->
  e1 < e2 \/ (e1 = e2 /\ Zpos m1 <= Zpos m2).
Proof.
  unfold SFleb, SFcompare.
  destruct (Z.compare_spec e1 e2) as [-> | H | H]; try discriminate; auto.
  change (Pos.compare_cont Eq m1 m2) with (Pos.compare m1 m2).
  destruct (Pos.compare_spec m1 m2); try discriminate; intros _; right; split; lia.
Qed.

Lemma SFltb_finite_inv (m1 m2 : positive) (e1 e2 : Z) :
  SFltb (S754_finite false m1 e1) (S754_finite false m2 e2) = true ->
  e1 < e2 \/ (e1 = e2 /\ Zpos m1 < Zpos m2).
Proof.
  unfold SFltb, SFcompare.
  destruct (Z.compare_spec e1 e2) as [-> | H | H]; try discriminate; auto.
  change (Pos.compare_cont Eq m1 m2) with (Pos.compare m1 m2).
  destruct (Pos.compare_spec m1 m2); try discriminate; intros _; right; split; lia.
Qed.

(** A normal mantissa has 53 bits. *)
Lemma normal_mantissa (m : positive) :
  Zpos (digits2_pos m) = 53 -> 2 ^ 52 <= Zpos m < 2 ^ 53.
Proof.
  intros H. pose proof (digits2_pos_bounds m) as Hb. rewrite H in Hb. exact Hb.
Qed.

(** Rounding is monotone against a double above: an exact value that does
    not exceed the normal double [mb * 2^eb] rounds to a double that does
    not exceed it either. *)
Lemma round_le_bound (X ez : Z) (mb : positive) (eb : Z) :
  0 < X -> ez <= fexp prec emax (Zdigits2 X + ez) ->
  Zpos (digits2_pos mb) = 53 -> -1074 <= eb <= 971 -> ez <= eb ->
  X <= Zpos mb * 2 ^ (eb - ez) ->
  SFleb (binary_round_aux prec emax false X ez loc_Exact)
        (S754_finite false mb eb) = true.
Proof.
  intros HX Hez Hmb Heb Hle Hbound.
  destruct (binary_round_aux_spec X ez HX Hez) as (M & HM & Hex & ->).
  destruct (Zdigits2_bounds X HX) as [[Hd1 Hd2] Hd0].
  apply normal_mantissa in Hmb.
  set (e' := fexp prec emax (Zdigits2 X + ez)) in *.
  set (n := e' - ez) in *.
  assert (Hn : 0 <= n) by (unfold n; lia).
  assert (Hd : Zdigits2 X - 1 < 53 + (eb - ez)).
  { apply pow2_lt_reflect; try lia.
    eapply Z.le_lt_trans; [exact Hd1 | ].
    eapply Z.le_lt_trans; [exact Hbound | ].
    rewrite Z.pow_add_r by lia.
    apply Z.mul_lt_mono_pos_r; [apply Z.pow_pos_nonneg; lia | lia]. }
  assert (He' : e' <= eb) by (unfold e'; rewrite fexp_eq; lia).
  assert (He'' : -1074 <= e') by (unfold e'; rewrite fexp_eq; lia).
  set (k := eb - e').
  assert (Hk : 0 <= k) by (unfold k; lia).
  assert (Hpow : 2 ^ (eb - ez) = 2 ^ k * 2 ^ n).
  { rewrite <- Z.pow_add_r by lia. f_equal. unfold k, n. lia. }
  assert (H2n : 0 < 2 ^ n) by (apply Z.pow_pos_nonneg; lia).
  assert (H2k : 0 < 2 ^ k) by (apply Z.pow_pos_nonneg; lia).
  rewrite Hpow in Hbound.
  assert (Hq : X / 2 ^ n <= Zpos mb * 2 ^ k).
  { apply Z.div_le_upper_bound; [lia | ]. lia. }
  assert (HMB : M <= Zpos mb * 2 ^ k).
  { destruct (Z.eq_dec (X / 2 ^ n) (Zpos mb * 2 ^ k)) as [Heq | Hne]; [ | lia].
    rewrite <- Heq. apply Z.eq_le_incl. apply Hex.
    pose proof (Z.div_mod X (2 ^ n) ltac:(lia)) as Hdm.
    pose proof (Z.mod_pos_bound X (2 ^ n) H2n) as Hmod.
    rewrite Heq in Hdm. nia. }
  assert (HM0 : 0 <= M).
  { assert (0 <= X / 2 ^ n) by (apply Z.div_pos; lia). lia. }
  unfold finish.
  destruct (Z.eqb_spec M 0) as [HMz | HMz]; [reflexivity | ].
  destruct (Z.ltb_spec M (2 ^ 53)) as [HMlt | HMge].
  - replace (e' <=? 971) with true by (symmetry; apply Z.leb_le; lia).
    apply SFleb_finite.
    destruct (Z.eq_dec e' eb) as [Heq | Hne]; [right | left; lia].
    split; [exact Heq | ].
    assert (k = 0) by (unfold k; lia).
    rewrite Z2Pos.id by lia.
    replace (2 ^ k) with 1 in HMB by (subst k; rewrite H; reflexivity). lia.
  - assert (Hk1 : 1 <= k).
    { destruct (Z.eq_dec k 0) as [Hk0 | Hk0]; [ | lia].
      rewrite Hk0 in HMB. change (2 ^ 0) with 1 in HMB. lia. }
    replace (e' + 1 <=? 971) with true by (symmetry; apply Z.leb_le; unfold k in Hk1; lia).
    apply SFleb_finite. unfold k in Hk1.
    destruct (Z.eq_dec (e' + 1) eb) as [Heq | Hne]; [right | left; lia].
    split; [exact Heq | ]. change (Z.pos (2 ^ 52)) with (2 ^ 52). lia.
Qed.

(** Rounding is monotone against a double below. *)
Lemma round_ge_bound (X ez : Z) (ma : positive) (ea : Z) :
  0 < X -> ez <= fexp prec emax (Zdigits2 X + ez) ->
  Zpos (digits2_pos ma) = 53 -> -1074 <= ea -> ez <= ea ->
  Zpos ma * 2 ^ (ea - ez) <= X ->
  SFleb (S754_finite false ma ea)
        (binary_round_aux prec emax false X ez loc_Exact) = true.
Proof.
  intros HX Hez Hma Hea Hle Hbound.
  destruct (binary_round_aux_spec X ez HX Hez) as (M & HM & _ & ->).
  destruct (Zdigits2_bounds X HX) as [[Hd1 Hd2] Hd0].
  apply normal_mantissa in Hma.
  set (e' := fexp prec emax (Zdigits2 X + ez)) in *.
  set (n := e' - ez) in *.
  assert (Hn : 0 <= n) by (unfold n; lia).
  assert (H2a : 0 < 2 ^ (ea - ez)) by (apply Z.pow_pos_nonneg; lia).
  assert (Hd : 52 + (ea - ez) < Zdigits2 X).
  { apply pow2_lt_reflect; try lia.
    eapply Z.le_lt_trans; [ | exact Hd2].
    eapply Z.le_trans; [ | exact Hbound].
    rewrite Z.pow_add_r by lia.
    apply Z.mul_le_mono_nonneg_r; lia. }
  assert (He' : ea <= e') by (unfold e'; rewrite fexp_eq; lia).
  assert (H2n : 0 < 2 ^ n) by (apply Z.pow_pos_nonneg; lia).
  assert (Hq : 2 ^ 52 <= X / 2 ^ n).
  { apply Z.div_le_lower_bound; [lia | ].
    destruct (Z.eq_dec e' ea) as [Heq | Hne].
    - replace n with (ea - ez) by (unfold n; lia). nia.
    - assert (Hn' : n = Zdigits2 X - 53) by (unfold n, e'; rewrite fexp_eq; lia).
      eapply Z.le_trans; [ | exact Hd1].
      rewrite <- Z.pow_add_r by lia. apply Z.pow_le_mono_r; lia. }
  unfold finish.
  destruct (Z.eqb_spec M 0) as [HMz | HMz]; [lia | ].
  destruct (Z.ltb_spec M (2 ^ 53)) as [HMlt | HMge].
  - destruct (e' <=? 971); [ | reflexivity].
    apply SFleb_finite.
    destruct (Z.eq_dec e' ea) as [Heq | Hne]; [right | left; lia].
    split; [auto | ].
    rewrite Z2Pos.id by lia.
    assert (Zpos ma <= X / 2 ^ n); [ | lia].
    apply Z.div_le_lower_bound; [lia | ].
    replace n with (ea - ez) by (unfold n; lia). lia.
  - destruct (e' + 1 <=? 971); [ | reflexivity].
    apply SFleb_finite. left. lia.
Qed.

(** The representation of a primitive float is canonical and in range. *)
Lemma valid_finite (x : float) (s : bool) (m : positive) (e : Z) :
  Prim2SF x = S754_finite s m e ->
  e = fexp prec emax (Zpos (digits2_pos m) + e) /\ e <= 971.
Proof.
  intros H. pose proof (Prim2SF_valid x) as Hv. rewrite H in Hv.
  unfold SpecFloat.valid_binary, bounded, canonical_mantissa in Hv.
  apply andb_prop in Hv. destruct Hv as [H1 H2].
  apply Z.eqb_eq in H1. apply Z.leb_le in H2.
  split; [symmetry; exact H1 | exact H2].
Qed.

(** A draw of [[0, 1)] is a zero or a positive finite double below one. *)
Lemma unit_draw_cases (u : float) :
  unit_draw u = true ->
  (exists s, Prim2SF u = S754_zero s) \/
  (exists m e, Prim2SF u = S754_finite false m e /\
               -1074 <= e /\ Zpos (digits2_pos m) + e <= 0 /\
               Zpos (digits2_pos m) <= 53).
Proof.
  unfold unit_draw. intros H. apply andb_prop in H. destruct H as [H0 H1].
  rewrite leb_spec in H0. rewrite ltb_spec in H1.
  change (Prim2SF 0) with (S754_zero false) in H0.
  change (Prim2SF 1) with (S754_finite false (2 ^ 52) (-52)) in H1.
  destruct (Prim2SF u) as [s | s | | s m e] eqn:Hu.
  - left. exists s. reflexivity.
  - destruct s; discriminate.
  - discriminate.
  - destruct s; [discriminate | ].
    right. exists m, e. split; [reflexivity | ].
    destruct (valid_finite u false m e Hu) as [Hc _]. rewrite fexp_eq in Hc.
    apply SFltb_finite_inv in H1.
    pose proof (digits2_pos_bounds m) as Hd.
    destruct H1 as [H1 | [H1 H2]]; [lia | ].
    change (Z.pos (2 ^ 52)) with (2 ^ 52) in H2.
    assert (Zpos (digits2_pos m) - 1 < 52) by (apply pow2_lt_reflect; lia).
    lia.
Qed.

Lemma finish_nonneg (M e : Z) : SFleb (S754_zero false) (finish M e) = true.
Proof.
  unfold finish.
  destruct (M =? 0); [reflexivity | ].
  destruct (M <? 2 ^ 53); [destruct (e <=? 971) | destruct (e + 1 <=? 971)];
    reflexivity.
Qed.

Lemma Zdigits2_lower (P k : Z) : 0 <= k -> 2 ^ k <= P -> k < Zdigits2 P.
Proof.
  intros Hk H.
  assert (HP : 0 < P) by (pose proof (Z.pow_pos_nonneg 2 k); lia).
  destruct (Zdigits2_bounds P HP) as [[_ Hd] Hd0].
  apply pow2_lt_reflect; lia.
Qed.

(** The product of a normal positive double by a draw of [[0, 1)]. *)
Lemma SFmul_unit_le (mc : positive) (ec : Z) (m : positive) (e : Z) :
  Zpos (digits2_pos mc) = 53 -> -1074 <= ec <= 971 ->
  Zpos (digits2_pos m) + e <= 0 ->
  let p := binary_round_aux prec emax false (Zpos (mc * m)) (ec + e) loc_Exact in
  SFleb (S754_zero false) p = true /\
  SFleb p (S754_finite false mc ec) = true.
Proof.
  intros Hmc Hec Hu p.
  pose proof (normal_mantissa mc Hmc) as Hn.
  pose proof (digits2_pos_bounds m) as Hdm.
  assert (HP : 2 ^ 52 <= Zpos (mc * m)) by (rewrite Pos2Z.inj_mul; nia).
  assert (HdP : 52 < Zdigits2 (Zpos (mc * m))) by (apply Zdigits2_lower; lia).
  assert (Hez : ec + e <= fexp prec emax (Zdigits2 (Zpos (mc * m)) + (ec + e)))
    by (rewrite fexp_eq; lia).
  split.
  - unfold p.
    destruct (binary_round_aux_spec (Zpos (mc * m)) (ec + e) ltac:(lia) Hez)
      as (M & _ & _ & ->).
    apply finish_nonneg.
  - apply round_le_bound; try assumption; try lia.
    replace (ec - (ec + e)) with (- e) by lia.
    rewrite Pos2Z.inj_mul. apply Z.mul_le_mono_nonneg_l; [lia | ].
    apply Z.lt_le_incl. eapply Z.lt_le_trans; [apply Hdm | ].
    apply Z.pow_le_mono_r; lia.
Qed.

(** The product of a normal positive double [c] by a draw of [[0, 1)] lies
    between zero and [c]. *)
Lemma mul_unit_le (c u : float) (mc : positive) (ec : Z) :
  Prim2SF c = S754_finite false mc ec ->
  Zpos (digits2_pos mc) = 53 -> -1074 <= ec ->
  unit_draw u = true ->
  (0 <=? c * u)%float = true /\ (c * u <=? c)%float = true.
Proof.
  intros Hc Hmc Hec Hu.
  destruct (valid_finite c _ _ _ Hc) as [_ Hec'].
  rewrite !leb_spec, mul_spec, Hc. change (Prim2SF 0) with (S754_zero false).
  destruct (unit_draw_cases u Hu) as [[s ->] | (m & e & -> & He & Hd & _)].
  - destruct s; split; reflexivity.
  - apply SFmul_unit_le; try assumption; lia.
Qed.

Lemma SFltb_finish (M e : Z) (mc : positive) (ec : Z) :
  0 <= M -> ec <= 971 ->
  (M < 2 ^ 53 -> e < ec \/ (e = ec /\ M < Zpos mc)) ->
  (2 ^ 53 <= M -> e + 1 < ec \/ (e + 1 = ec /\ 2 ^ 52 < Zpos mc)) ->
  SFltb (finish M e) (S754_finite false mc ec) = true.
Proof.
  intros HM Hec Hlt Hge. unfold finish.
  destruct (Z.eqb_spec M 0); [reflexivity | ].
  destruct (Z.ltb_spec M (2 ^ 53)) as [H | H].
  - specialize (Hlt H).
    replace (e <=? 971) with true by (symmetry; apply Z.leb_le; lia).
    apply SFltb_finite. rewrite Z2Pos.id by lia. exact Hlt.
  - specialize (Hge H).
    replace (e + 1 <=? 971) with true by (symmetry; apply Z.leb_le; lia).
    apply SFltb_finite. exact Hge.
Qed.

(** The product of a draw of [[0, 1)] by a normal positive double that is
    not a power of two is strictly below that double. *)
Lemma SFmul_unit_lt (mc : positive) (ec : Z) (m : positive) (e : Z) :
  Zpos (digits2_pos mc) = 53 -> 2 ^ 52 < Zpos mc -> -1073 <= ec <= 971 ->
  Zpos (digits2_pos m) + e <= 0 ->
  e = fexp prec emax (Zpos (digits2_pos m) + e) ->
  SFltb (binary_round_aux prec emax false (Zpos (m * mc)) (e + ec) loc_Exact)
        (S754_finite false mc ec) = true.
Proof.
  intros Hmc Hnp Hec Hu Hcan.
  pose proof (normal_mantissa mc Hmc) as Hn.
  pose proof (digits2_pos_bounds m) as Hdm.
  rewrite fexp_eq in Hcan.
  set (P := Zpos (m * mc)).
  assert (HPeq : P = Zpos m * Zpos mc) by (unfold P; apply Pos2Z.inj_mul).
  assert (HP : 2 ^ 52 <= P) by nia.
  assert (HdP : 52 < Zdigits2 P) by (apply Zdigits2_lower; lia).
  assert (Hez : e + ec <= fexp prec emax (Zdigits2 P + (e + ec)))
    by (rewrite fexp_eq; lia).
  destruct (binary_round_aux_spec P (e + ec) ltac:(lia) Hez) as (M & HM & Hex & ->).
  destruct (Zdigits2_bounds P ltac:(lia)) as [[Hd1 Hd2] _].
  assert (HPlt : P < 2 ^ (Zpos (digits2_pos m) + 53)).
  { rewrite Z.pow_add_r by lia. nia. }
  assert (HdPu : Zdigits2 P - 1 < Zpos (digits2_pos m) + 53)
    by (apply pow2_lt_reflect; lia).
  set (e' := fexp prec emax (Zdigits2 P + (e + ec))) in *.
  assert (He' : e' = Z.max (Zdigits2 P + (e + ec) - 53) (-1074)) by reflexivity.
  assert (HM0 : 0 <= M).
  { assert (0 <= P / 2 ^ (e' - (e + ec))) by (apply Z.div_pos; [lia | apply Z.pow_pos_nonneg; lia]).
    lia. }
  apply SFltb_finish; try lia.
  - intros HMlt.
    destruct (Z.eq_dec e' ec) as [Heq | Hne]; [right | left; lia].
    split; [exact Heq | ].
    assert (Hd53 : Zpos (digits2_pos m) = 53) by lia.
    assert (He53 : e = -53) by lia.
    assert (Hn53 : e' - (e + ec) = 53) by lia.
    rewrite Hn53 in HM, Hex.
    rewrite Hd53 in Hdm.
    pose proof (Z.div_mod P (2 ^ 53) ltac:(lia)) as Hdiv.
    pose proof (Z.mod_pos_bound P (2 ^ 53) ltac:(lia)) as Hmod.
    assert (Hq : P / 2 ^ 53 <= Zpos mc - 1).
    { assert (P / 2 ^ 53 < Zpos mc); [ | lia].
      apply Z.div_lt_upper_bound; [lia | ]. nia. }
    destruct (Z.eq_dec (P / 2 ^ 53) (Zpos mc - 1)) as [Hq1 | Hq1]; [ | lia].
    rewrite Hex; [lia | ].
    rewrite Hq1 in Hdiv. nia.
  - intros HMge.
    destruct (Z.eq_dec (e' + 1) ec) as [Heq | Hne]; [right; split; [exact Heq | lia] | left].
    assert (e' <= ec) by lia.
    destruct (Z.eq_dec e' ec) as [Heq | Hne']; [ | lia].
    exfalso.
    assert (Hd53 : Zpos (digits2_pos m) = 53) by lia.
    assert (Hn53 : e' - (e + ec) = 53) by lia.
    rewrite Hn53 in HM. rewrite Hd53 in Hdm.
    assert (P / 2 ^ 53 < Zpos mc) by (apply Z.div_lt_upper_bound; [lia | nia]).
    lia.
Qed.

(** [random() * c < c] for a normal positive double [c] that is not a power
    of two. *)
Lemma mul_unit_lt (u c : float) (mc : positive) (ec : Z) :
  Prim2SF c = S754_finite false mc ec ->
  Zpos (digits2_pos mc) = 53 -> 2 ^ 52 < Zpos mc -> -1073 <= ec ->
  unit_draw u = true ->
  (u * c <? c)%float = true.
Proof.
  intros Hc Hmc Hnp Hec Hu.
  destruct (valid_finite c _ _ _ Hc) as [_ Hec'].
  rewrite ltb_spec, mul_spec, Hc.
  destruct (Prim2SF u) as [s | s | | s m e] eqn:Heq;
    destruct (unit_draw_cases u Hu) as [[s' Hz] | (m' & e' & Hf & He & Hd & _)];
    rewrite Heq in *; try discriminate.
  - destruct s; reflexivity.
  - inversion Hf; subst s m' e'.
    destruct (valid_finite u _ _ _ Heq) as [Hcan _].
    cbn [SF64mul SFmul xorb].
    apply SFmul_unit_lt; try assumption; lia.
Qed.

(** [random() * 100.0 < 100.0]: the weighted draw of [random.choices] over
    weights that sum to 100 never reaches the total. *)
Lemma random_times_100 (u : float) :
  unit_draw u = true -> (u * 100 <? 100)%float = true.
Proof.
  intros Hu. apply (mul_unit_lt u 100 7036874417766400 (-46)); try assumption.
  - reflexivity.
  - reflexivity.
  - reflexivity.
  - lia.
Qed.

(** Aligning a mantissa to a smaller exponent multiplies it by the power of
    two. *)
Lemma shl_align_spec (m : positive) (e e' : Z) :
  e' <= e ->
  Zpos (fst (shl_align m e e')) = Zpos m * 2 ^ (e - e').
Proof.
  intros H. unfold shl_align.
  destruct (e' - e) as [ | d | d] eqn:Hd; try lia; cbn [fst].
  - replace (e - e') with 0 by lia. lia.
  - change (Pos.iter xO m d) with (shift_pos d m).
    rewrite shift_pos_correct. replace (e - e') with (Zpos d) by lia.
    change (Z.pow_pos 2 d) with (2 ^ Zpos d). lia.
Qed.

Lemma binary_round_normal (mS : positive) (ez : Z) :
  ez <= fexp prec emax (Zpos (digits2_pos mS) + ez) ->
  binary_round prec emax false mS ez =
  binary_round_aux prec emax false (Zpos mS) ez loc_Exact.
Proof.
  intros H. unfold binary_round, shl_align.
  destruct (fexp prec emax (Zpos (digits2_pos mS) + ez) - ez) eqn:Hd; try lia; reflexivity.
Qed.

(** The sum of a normal positive double [a] and of a double between zero
    and [c], when [a + c] is the double [b]. *)
Lemma SFadd_bounds (ma mb mc : positive) (ea eb ec : Z) (my : positive) (ey : Z) :
  Zpos (digits2_pos ma) = 53 -> Zpos (digits2_pos mb) = 53 ->
  Zpos (digits2_pos mc) = 53 ->
  -1074 <= ea -> -1074 <= eb <= 971 -> 
  Zpos mb * 2 ^ (eb - Z.min (Z.min ea ec) eb) =
    Zpos ma * 2 ^ (ea - Z.min (Z.min ea ec) eb) +
    Zpos mc * 2 ^ (ec - Z.min (Z.min ea ec) eb) ->
  Zpos (digits2_pos my) <= 53 ->
  ey < ec \/ (ey = ec /\ Zpos my <= Zpos mc) ->
  let x := SFadd prec emax (S754_finite false ma ea) (S754_finite false my ey) in
  SFleb (S754_finite false ma ea) x = true /\
  SFleb x (S754_finite false mb eb) = true.
Proof.
  intros Hma Hmb Hmc Hea Heb Hsum Hdy Hyc x.
  pose proof (normal_mantissa ma Hma) as Hna.
  pose proof (normal_mantissa mc Hmc) as Hnc.
  pose proof (digits2_pos_bounds my) as Hby.
  assert (Hmy : Zpos my < 2 ^ 53).
  { eapply Z.lt_le_trans; [apply Hby | apply Z.pow_le_mono_r; lia]. }
  set (e0 := Z.min (Z.min ea ec) eb) in *.
  set (ez := Z.min ea ey).
  assert (Hez0 : ez <= e0 \/ e0 <= ez) by lia.
  unfold x, SFadd. fold ez. cbn [cond_Zopp].
  rewrite (shl_align_spec ma ea ez) by (unfold ez; lia).
  rewrite (shl_align_spec my ey ez) by (unfold ez; lia).
  set (A := Zpos ma * 2 ^ (ea - ez)).
  set (Y := Zpos my * 2 ^ (ey - ez)).
  assert (H2a : 0 < 2 ^ (ea - ez)) by (apply Z.pow_pos_nonneg; unfold ez; lia).
  assert (H2y : 0 < 2 ^ (ey - ez)) by (apply Z.pow_pos_nonneg; unfold ez; lia).
  assert (HA : 2 ^ 52 <= A) by (unfold A; nia).
  assert (HY : 0 < Y) by (unfold Y; nia).
  assert (Hezc : ez <= ec) by (unfold ez; lia).
  assert (H2c : 0 < 2 ^ (ec - ez)) by (apply Z.pow_pos_nonneg; lia).
  assert (HYC : Y <= Zpos mc * 2 ^ (ec - ez)).
  { unfold Y. destruct Hyc as [Hlt | [-> Hle]].
    - replace (ec - ez) with ((ec - ey - 1) + 1 + (ey - ez)) by lia.
      rewrite !Z.pow_add_r by lia. change (2 ^ 1) with 2.
      assert (0 < 2 ^ (ec - ey - 1)) by (apply Z.pow_pos_nonneg; lia).
      set (W := 2 ^ (ey - ez)) in *. set (U := 2 ^ (ec - ey - 1)) in *.
      assert (Zpos my * W <= 2 * Zpos mc * W) by (apply Z.mul_le_mono_nonneg_r; lia).
      assert (Zpos mc * 1 <= Zpos mc * U) by (apply Z.mul_le_mono_nonneg_l; lia).
      assert (Zpos mc * 1 * (2 * W) <= Zpos mc * U * (2 * W))
        by (apply Z.mul_le_mono_nonneg_r; lia).
      lia.
    - apply Z.mul_le_mono_nonneg_r; lia. }
  destruct (A + Y) as [ | mS | mS] eqn:HS; try lia.
  cbn [binary_normalize].
  assert (Hd : 52 < Zdigits2 (Zpos mS)) by (apply Zdigits2_lower; lia).
  cbn [Zdigits2] in Hd.
  assert (Hfe : ez <= fexp prec emax (Zpos (digits2_pos mS) + ez))
    by (rewrite fexp_eq; lia).
  rewrite binary_round_normal by exact Hfe.
  split.
  - apply round_ge_bound; try assumption; lia.
  - assert (Hzb : ez <= eb).
    { unfold ez. destruct (Z.le_gt_cases ea eb); [lia | ].
      (* eb < ea: then b = a + c < a is impossible *)
      exfalso.
      assert (He0 : e0 = Z.min ec eb) by (unfold e0; lia).
      assert (0 < 2 ^ (ec - e0)) by (apply Z.pow_pos_nonneg; lia).
      assert (0 < 2 ^ (eb - e0)) by (apply Z.pow_pos_nonneg; lia).
      pose proof (normal_mantissa mb Hmb) as Hnb.
      replace (ea - e0) with ((ea - eb - 1) + 1 + (eb - e0)) in Hsum by lia.
      rewrite !Z.pow_add_r in Hsum by lia. change (2 ^ 1) with 2 in Hsum.
      assert (0 < 2 ^ (ea - eb - 1)) by (apply Z.pow_pos_nonneg; lia).
      set (T := 2 ^ (eb - e0)) in *. set (U := 2 ^ (ea - eb - 1)) in *.
      set (V := 2 ^ (ec - e0)) in *.
      assert (2 ^ 52 * 1 <= Zpos ma * U) by (apply Z.mul_le_mono_nonneg; lia).
      assert (2 ^ 53 * T <= Zpos ma * U * 2 * T) by nia.
      assert (Zpos mb * T < 2 ^ 53 * T) by (apply Z.mul_lt_mono_pos_r; lia).
      assert (0 < Zpos mc * V) by (apply Z.mul_pos_pos; lia).
      lia. }
    apply round_le_bound; try assumption; try lia.
    rewrite <- HS.
    (* scale the exact sum from e0 to ez *)
    assert (He0z : ez <= e0) by (unfold e0; lia).
    assert (H2z : 0 < 2 ^ (e0 - ez)) by (apply Z.pow_pos_nonneg; lia).
    replace (eb - ez) with ((eb - e0) + (e0 - ez)) by lia.
    rewrite Z.pow_add_r by (unfold e0; lia).
    rewrite Z.mul_assoc, Hsum, Z.mul_add_distr_r, <- !Z.mul_assoc, <- !Z.pow_add_r
      by (unfold e0; lia).
    replace (ea - e0 + (e0 - ez)) with (ea - ez) by lia.
    replace (ec - e0 + (e0 - ez)) with (ec - ez) by lia.
    fold A. lia.
Qed.

(** what [0 <= y <= c] makes of a double [y], for a finite positive [c] *)
Lemma between_zero_cases (y c : float) (mc : positive) (ec : Z) :
  Prim2SF c = S754_finite false mc ec ->
  (0 <=? y)%float = true -> (y <=? c)%float = true ->
  (exists s, Prim2SF y = S754_zero s) \/
  (exists my ey, Prim2SF y = S754_finite false my ey /\
                 Zpos (digits2_pos my) <= 53 /\
                 (ey < ec \/ (ey = ec /\ Zpos my <= Zpos mc))).
Proof.
  intros Hc H0 H1. rewrite leb_spec in H0, H1. rewrite Hc in H1.
  change (Prim2SF 0) with (S754_zero false) in H0.
  destruct (Prim2SF y) as [s | s | | s my ey] eqn:Hy.
  - left. exists s. reflexivity.
  - destruct s; discriminate.
  - discriminate.
  - destruct s; [discriminate | ].
    right. exists my, ey. split; [reflexivity | ].
    destruct (valid_finite y _ _ _ Hy) as [Hcan _]. rewrite fexp_eq in Hcan.
    split; [lia | apply SFleb_finite_inv; exact H1].
Qed.

(** [random.uniform(a, b)] stays within [[a, b]] when [a], [b] and
    [b - a] are normal positive doubles and [a + (b - a)] is exactly [b]. *)
Lemma uniform_within (a b : float) (ma mb mc : positive) (ea eb ec : Z) :
  Prim2SF a = S754_finite false ma ea ->
  Prim2SF b = S754_finite false mb eb ->
  Prim2SF (b - a)%float = S754_finite false mc ec ->
  Zpos (digits2_pos ma) = 53 -> Zpos (digits2_pos mb) = 53 ->
  Zpos (digits2_pos mc) = 53 ->
  -1074 <= ea -> -1074 <= eb -> -1074 <= ec ->
  Zpos mb * 2 ^ (eb - Z.min (Z.min ea ec) eb) =
    Zpos ma * 2 ^ (ea - Z.min (Z.min ea ec) eb) +
    Zpos mc * 2 ^ (ec - Z.min (Z.min ea ec) eb) ->
  (a <=? b)%float = true ->
  forall u, unit_draw u = true ->
    (a <=? a + (b - a) * u)%float = true /\
    (a + (b - a) * u <=? b)%float = true.
Proof.
  intros Ha Hb Hc Hma Hmb Hmc Hea Heb Hec Hsum Hab u Hu.
  destruct (mul_unit_le (b - a) u mc ec Hc Hmc Hec Hu) as [Hy0 Hyc].
  destruct (valid_finite b _ _ _ Hb) as [_ Heb'].
  destruct (between_zero_cases _ _ mc ec Hc Hy0 Hyc)
    as [[s Hy] | (my & ey & Hy & Hdy & Hle)].
  - assert (Hsame : (a + (b - a) * u)%float = a).
    { apply Prim2SF_inj. rewrite add_spec, Ha, Hy. reflexivity. }
    rewrite Hsame. split; [ | exact Hab].
    rewrite leb_spec, Ha. apply SFleb_finite. right. split; lia.
  - rewrite !leb_spec, add_spec, Ha, Hb, Hy.
    apply (SFadd_bounds ma mb mc ea eb ec my ey); try assumption; lia.
Qed.

Ltac uniform_range a b :=
  let sa := eval vm_compute in (Prim2SF a) in
  let sb := eval vm_compute in (Prim2SF b) in
  let sc := eval vm_compute in (Prim2SF (b - a)%float) in
  match sa with
  | S754_finite false ?ma ?ea =>
      match sb with
      | S754_finite false ?mb ?eb =>
          match sc with
          | S754_finite false ?mc ?ec =>
              apply (uniform_within a b ma mb mc ea eb ec);
              first [assumption | reflexivity | lia]
          end
      end
  end.

(** The four ranges of [speed_ranges]. *)
Lemma uniform_40_60 (u : float) :
  unit_draw u = true ->
  (40 <=? 40 + (60 - 40) * u)%float = true /\ (40 + (60 - 40) * u <=? 60)%float = true.
Proof.
  intros Hu. uniform_range 40%float 60%float.
Qed.

Lemma uniform_20_40 (u : float) :
  unit_draw u = true ->
  (20 <=? 20 + (40 - 20) * u)%float = true /\ (20 + (40 - 20) * u <=? 40)%float = true.
Proof.
  intros Hu. uniform_range 20%float 40%float.
Qed.

Lemma uniform_10_25 (u : float) :
  unit_draw u = true ->
  (10 <=? 10 + (25 - 10) * u)%float = true /\ (10 + (25 - 10) * u <=? 25)%float = true.
Proof.
  intros Hu. uniform_range 10%float 25%float.
Qed.

Lemma uniform_2_15 (u : float) :
  unit_draw u = true ->
  (2 <=? 2 + (15 - 2) * u)%float = true /\ (2 + (15 - 2) * u <=? 15)%float = true.
Proof.
  intros Hu. uniform_range 2%float 15%float.
Qed.

(** Rounding to the nearest integer stays between two integer bounds. *)
Lemma nearest_even_between (m e lo hi : Z) :
  e < 0 -> lo * 2 ^ (- e) <= m <= hi * 2 ^ (- e) ->
  lo <= nearest_even m e <= hi.
Proof.
  intros He [Hlo Hhi]. unfold nearest_even.
  replace (0 <=? e) with false by (symmetry; apply Z.leb_gt; lia).
  assert (Hd : 0 < 2 ^ (- e)) by (apply Z.pow_pos_nonneg; lia).
  set (d := 2 ^ (- e)) in *.
  pose proof (Z.div_mod m d ltac:(lia)) as Hdm.
  pose proof (Z.mod_pos_bound m d Hd) as Hr.
  assert (Hq1 : lo <= m / d) by (apply Z.div_le_lower_bound; lia).
  assert (Hq2 : m / d <= hi) by (apply Z.div_le_upper_bound; lia).
  assert (Hq3 : m / d = hi -> m mod d = 0) by (intros Heq; rewrite Heq in Hdm; lia).
  destruct (Z.compare_spec (2 * (m mod d)) d) as [Hc | Hc | Hc].
  - assert (m / d <> hi) by (intros Heq; specialize (Hq3 Heq); lia).
    destruct (Z.even (m / d)); lia.
  - lia.
  - assert (m / d <> hi) by (intros Heq; specialize (Hq3 Heq); lia). lia.
Qed.

(** A double between two positive finite doubles is positive and finite. *)
Lemma between_cases (x a b : float) (ma mb : positive) (ea eb : Z) :
  Prim2SF a = S754_finite false ma ea ->
  Prim2SF b = S754_finite false mb eb ->
  (a <=? x)%float = true -> (x <=? b)%float = true ->
  exists m e, Prim2SF x = S754_finite false m e /\
              Zpos (digits2_pos m) <= 53 /\
              (-1074 < e -> Zpos (digits2_pos m) = 53) /\
              (ea < e \/ (ea = e /\ Zpos ma <= Zpos m)) /\
              (e < eb \/ (e = eb /\ Zpos m <= Zpos mb)).
Proof.
  intros Ha Hb H0 H1. rewrite leb_spec in H0, H1. rewrite Ha in H0. rewrite Hb in H1.
  destruct (Prim2SF x) as [s | s | | s m e] eqn:Hx.
  - discriminate.
  - destruct s; discriminate.
  - discriminate.
  - destruct s; [discriminate | ].
    exists m, e. split; [reflexivity | ].
    destruct (valid_finite x _ _ _ Hx) as [Hcan _]. rewrite fexp_eq in Hcan.
    split; [lia | ]. split; [lia | ].
    split; apply SFleb_finite_inv; assumption.
Qed.

(** [round(x, 1)] of a double between the integers [A] and [B] is a number
    of tenths between [10 * A] and [10 * B]. *)
Lemma round1_within (x a b : float) (A B : Z) (ma mb : positive) (ea eb : Z) :
  Prim2SF a = S754_finite false ma ea ->
  Prim2SF b = S754_finite false mb eb ->
  Zpos (digits2_pos ma) = 53 -> Zpos (digits2_pos mb) = 53 ->
  -1074 <= ea -> eb < 0 ->
  A * 2 ^ (- ea) = Zpos ma -> B * 2 ^ (- eb) = Zpos mb ->
  (a <=? x)%float = true -> (x <=? b)%float = true ->
  exists n, 10 * A <= n <= 10 * B /\ round1 x = tenths false n.
Proof.
  intros Ha Hb Hma Hmb Hea Heb HA HB H0 H1.
  destruct (between_cases x a b ma mb ea eb Ha Hb H0 H1)
    as (m & e & Hx & Hd & Hnorm & Hlo & Hhi).
  pose proof (normal_mantissa ma Hma) as Hna.
  pose proof (normal_mantissa mb Hmb) as Hnb.
  pose proof (digits2_pos_bounds m) as Hbm.
  assert (Hm53 : Zpos m < 2 ^ 53).
  { eapply Z.lt_le_trans; [apply Hbm | apply Z.pow_le_mono_r; lia]. }
  assert (He : ea <= e <= eb) by lia.
  exists (nearest_even (10 * Zpos m) e). split.
  - assert (H2e : 0 < 2 ^ (- e)) by (apply Z.pow_pos_nonneg; lia).
    assert (HAm : A * 2 ^ (- e) <= Zpos m).
    { destruct Hlo as [Hlt | [Heq Hle]].
      - rewrite (Hnorm ltac:(lia)) in Hbm.
        assert (H2 : 0 < 2 ^ (e - ea - 1)) by (apply Z.pow_pos_nonneg; lia).
        replace (- ea) with ((- e) + (e - ea - 1) + 1) in HA by lia.
        rewrite !Z.pow_add_r in HA by lia. change (2 ^ 1) with 2 in HA.
        set (T := 2 ^ (- e)) in *. set (U := 2 ^ (e - ea - 1)) in *.
        assert (0 <= A) by nia.
        assert (A * T * 1 <= A * T * U) by (apply Z.mul_le_mono_nonneg_l; nia).
        lia.
      - subst e. lia. }
    assert (HmB : Zpos m <= B * 2 ^ (- e)).
    { destruct Hhi as [Hlt | [Heq Hle]].
      - assert (H2 : 0 < 2 ^ (eb - e - 1)) by (apply Z.pow_pos_nonneg; lia).
        assert (H2b : 0 < 2 ^ (- eb)) by (apply Z.pow_pos_nonneg; lia).
        replace (- e) with ((- eb) + (eb - e - 1) + 1) by lia.
        rewrite !Z.pow_add_r by lia. change (2 ^ 1) with 2.
        set (T := 2 ^ (- eb)) in *. set (U := 2 ^ (eb - e - 1)) in *.
        assert (Zpos mb * 1 <= Zpos mb * U) by (apply Z.mul_le_mono_nonneg_l; lia).
        rewrite <- HB in H. lia.
      - subst e. lia. }
    apply nearest_even_between; lia.
  - unfold round1. rewrite Hx. reflexivity.
Qed.

(** Checking a property on the integers from [lo] on, one by one. *)
Lemma all_from_spec (f : Z -> bool) (count : nat) :
  forall lo, all_from f lo count = true ->
  forall n, lo <= n < lo + Z.of_nat count -> f n = true.
Proof.
  induction count as [ | k IH]; intros lo H n Hn; [lia | ].
  simpl in H. apply andb_prop in H. destruct H as [H1 H2].
  destruct (Z.eq_dec n lo) as [-> | Hne]; [exact H1 | ].
  apply (IH (lo + 1) H2). lia.
Qed.

Lemma tenths_within_spec (lo hi n : Z) :
  tenths_within lo hi = true -> 10 * lo <= n <= 10 * hi ->
  (float_of_Z lo <=? tenths false n)%float = true /\
  (tenths false n <=? float_of_Z hi)%float = true.
Proof.
  intros H Hn. apply andb_prop.
  apply (all_from_spec _ _ _ H n). lia.
Qed.

(** The doubles nearest to the tenths of each speed range stay in the
    range: 201, 201, 151 and 131 values, each one computed. *)
Lemma tenths_40_60 : tenths_within 40 60 = true.
Proof. vm_compute. reflexivity. Qed.

Lemma tenths_20_40 : tenths_within 20 40 = true.
Proof. vm_compute. reflexivity. Qed.

Lemma tenths_10_25 : tenths_within 10 25 = true.
Proof. vm_compute. reflexivity. Qed.

Lemma tenths_2_15 : tenths_within 2 15 = true.
Proof. vm_compute. reflexivity. Qed.

Ltac round_range a b A B :=
  let sa := eval vm_compute in (Prim2SF a) in
  let sb := eval vm_compute in (Prim2SF b) in
  match sa with
  | S754_finite false ?ma ?ea =>
      match sb with
      | S754_finite false ?mb ?eb =>
          apply (round1_within _ a b A B ma mb ea eb);
          first [assumption | reflexivity | lia]
      end
  end.

(** [round(random.uniform(lo, hi), 1)] for the four speed ranges. *)
Lemma speed_40_60 (u : float) :
  unit_draw u = true -> speed_within 40 60 (round1 (40 + (60 - 40) * u)).
Proof.
  intros Hu. destruct (uniform_40_60 u Hu) as [H0 H1].
  assert (Hn : exists n, 10 * 40 <= n <= 10 * 60 /\
                         round1 (40 + (60 - 40) * u) = tenths false n)
    by (round_range 40%float 60%float 40 60).
  destruct Hn as (n & Hn & ->).
  destruct (tenths_within_spec 40 60 n tenths_40_60 Hn) as [Ha Hb].
  repeat split; try assumption. exists n. split; [lia | reflexivity].
Qed.

Lemma speed_20_40 (u : float) :
  unit_draw u = true -> speed_within 20 40 (round1 (20 + (40 - 20) * u)).
Proof.
  intros Hu. destruct (uniform_20_40 u Hu) as [H0 H1].
  assert (Hn : exists n, 10 * 20 <= n <= 10 * 40 /\
                         round1 (20 + (40 - 20) * u) = tenths false n)
    by (round_range 20%float 40%float 20 40).
  destruct Hn as (n & Hn & ->).
  destruct (tenths_within_spec 20 40 n tenths_20_40 Hn) as [Ha Hb].
  repeat split; try assumption. exists n. split; [lia | reflexivity].
Qed.

Lemma speed_10_25 (u : float) :
  unit_draw u = true -> speed_within 10 25 (round1 (10 + (25 - 10) * u)).
Proof.
  intros Hu. destruct (uniform_10_25 u Hu) as [H0 H1].
  assert (Hn : exists n, 10 * 10 <= n <= 10 * 25 /\
                         round1 (10 + (25 - 10) * u) = tenths false n)
    by (round_range 10%float 25%float 10 25).
  destruct Hn as (n & Hn & ->).
  destruct (tenths_within_spec 10 25 n tenths_10_25 Hn) as [Ha Hb].
  repeat split; try assumption. exists n. split; [lia | reflexivity].
Qed.

Lemma speed_2_15 (u : float) :
  unit_draw u = true -> speed_within 2 15 (round1 (2 + (15 - 2) * u)).
Proof.
  intros Hu. destruct (uniform_2_15 u Hu) as [H0 H1].
  assert (Hn : exists n, 10 * 2 <= n <= 10 * 15 /\
                         round1 (2 + (15 - 2) * u) = tenths false n)
    by (round_range 2%float 15%float 2 15).
  destruct Hn as (n & Hn & ->).
  destruct (tenths_within_spec 2 15 n tenths_2_15 Hn) as [Ha Hb].
  repeat split; try assumption. exists n. split; [lia | reflexivity].
Qed.

End Binary64Rounding.

(* ================================================================== *)
(** * Properties of the Magnitude Synthesizer and of the Observation
      Builder *)
(* ================================================================== *)

Section Generator.
Import Py Random Round Binary64 SampleDataGenerator Streams.

Lemma consumed_well_formed (k : nat) (s s' : Source) :
  consumed k s s' -> well_formed s -> well_formed s'.
Proof. intros H Hs n. rewrite H. apply Hs. Qed.

Lemma consumed_refl (s : Source) : consumed 0 s s.
Proof. intros n. reflexivity. Qed.

Lemma consumed_advance (s : Source) : consumed 1 s (advance s).
Proof. intros n. reflexivity. Qed.

Lemma consumed_trans (j k : nat) (s s' s'' : Source) :
  consumed j s s' -> consumed k s' s'' -> consumed (j + k) s s''.
Proof.
  intros H1 H2 n. rewrite H2, H1. f_equal. lia.
Qed.

Lemma consumed_fair (bounds : list Z) (fuel k : nat) (s s' : Source) :
  consumed k s s' -> fair bounds fuel s -> fair bounds fuel s'.
Proof.
  intros H Hs n Hn i. destruct (Hs n Hn (k + i)%nat) as (j & Hj & Ha).
  exists j. split; [exact Hj | ]. rewrite H.
  replace (k + (i + j))%nat with (k + i + j)%nat by lia. exact Ha.
Qed.

(** The bit length of a positive integer is not negative. *)
Lemma bit_length_nonneg (n : Z) : 0 <= bit_length n.
Proof.
  unfold bit_length. destruct (n =? 0); [lia | ].
  pose proof (Z.log2_nonneg (Z.abs n)). lia.
Qed.

(** The loop of [_randbelow(n)] returns exactly when one of the first
    [fuel] draws is accepted: it has then consumed the draws rejected
    before it and that draw, of which it returns the bits that
    [getrandbits] keeps, an integer of [[0, n)]. *)
Lemma randbelow_spec (fuel : nat) (n : Z) :
  forall s : Source,
  match rejections fuel n s with
  | Some j =>
      exists s',
        randbelow fuel n s = Some (d_int (s j) mod 2 ^ bit_length n, s') /\
        consumed (S j) s s' /\
        0 <= d_int (s j) mod 2 ^ bit_length n < n
  | None => randbelow fuel n s = None
  end.
Proof.
  unfold randbelow.
  induction fuel as [ | fuel IH]; intros s; [reflexivity | ].
  cbn [rejections randbelow_loop]. unfold getrandbits, accepted.
  destruct (d_int (s 0%nat) mod 2 ^ bit_length n >=? n) eqn:Hr; cbn [negb].
  - specialize (IH (advance s)).
    destruct (rejections fuel n (advance s)) as [j | ]; cbn [option_map].
    + destruct IH as (s' & Hrun & Hc & Hb). exists s'. split; [exact Hrun | ].
      split; [ | exact Hb].
      intros i. rewrite Hc. unfold advance. f_equal.
    + exact IH.
  - exists (advance s). split; [reflexivity | ]. split; [apply consumed_advance | ].
    split.
    + apply Z.mod_pos_bound, Z.pow_pos_nonneg; [lia | apply bit_length_nonneg].
    + rewrite Z.geb_leb in Hr. apply Z.leb_gt in Hr. exact Hr.
Qed.

(** When the loop of [_randbelow(n)] returns. *)
Lemma randbelow_returns (fuel : nat) (n r : Z) (s s' : Source) :
  randbelow fuel n s = Some (r, s') ->
  exists j, rejections fuel n s = Some j /\ consumed (S j) s s' /\ 0 <= r < n.
Proof.
  intros H. pose proof (randbelow_spec fuel n s) as Hs.
  destruct (rejections fuel n s) as [j | ]; [ | congruence].
  destruct Hs as (s1 & Hrun & Hc & Hb). rewrite Hrun in H.
  inversion H; subst. exists j. auto.
Qed.

(** The loop finds the first accepted draw when there is one within the
    fuel. *)
Lemma rejections_found (fuel : nat) (n : Z) :
  forall (s : Source) (j : nat),
  (j < fuel)%nat -> accepted n (s j) = true ->
  exists j', rejections fuel n s = Some j'.
Proof.
  induction fuel as [ | fuel IH]; intros s j Hj Ha; [lia | ].
  cbn [rejections]. destruct (accepted n (s 0%nat)) eqn:H0; [eauto | ].
  destruct j as [ | j]; [congruence | ].
  destruct (IH (advance s) j ltac:(lia) Ha) as (j' & Hj').
  rewrite Hj'. cbn. eauto.
Qed.

Lemma fair_rejections (bounds : list Z) (fuel : nat) (n : Z) (s : Source) :
  fair bounds fuel s -> In n bounds -> exists j, rejections fuel n s = Some j.
Proof.
  intros Hs Hn. destruct (Hs n Hn 0%nat) as (j & Hj & Ha).
  apply (rejections_found fuel n s j Hj Ha).
Qed.

(** [random.randint(a, b)] returns an integer of [[a, b]]. *)
Lemma randint_range (fuel : nat) (a b v : Z) (s s' : Source) :
  randint fuel a b s = Some (v, s') -> a <= v <= b.
Proof.
  unfold randint, after, done. intros H.
  destruct (randbelow fuel (b - a + 1) s) as [[r s1] | ] eqn:Hr; [ | discriminate].
  inversion H; subst.
  destruct (randbelow_returns _ _ _ _ _ Hr) as (j & _ & _ & Hb). lia.
Qed.

(** What [generate_average_speed] returns, by density. *)
Lemma generate_average_speed_eq (density : TrafficDensity) (s : Source) :
  fst (generate_average_speed density s) =
  let u := d_unit (s 0%nat) in
  match density with
  | LOW => round1 (40 + (60 - 40) * u)
  | MODERATE => round1 (20 + (40 - 20) * u)
  | HIGH => round1 (10 + (25 - 10) * u)
  | CRITICAL => round1 (2 + (15 - 2) * u)
  end%float.
Proof. destruct density; reflexivity. Qed.

(** [generate_vehicle_count] returns exactly when [_randbelow] does, on
    the width of the range of the density, and then with a count of the
    range. *)
Lemma generate_vehicle_count_spec (fuel : nat) (density : TrafficDensity) (s : Source) :
  let lo := fst (density_ranges density) in
  let hi := snd (density_ranges density) in
  match generate_vehicle_count fuel density s with
  | Some (count, s') =>
      lo <= count <= hi /\
      exists j, rejections fuel (hi - lo + 1) s = Some j /\ consumed (S j) s s'
  | None => rejections fuel (hi - lo + 1) s = None
  end.
Proof.
  cbv zeta. unfold generate_vehicle_count.
  destruct (density_ranges density) as [lo hi]. cbn [fst snd].
  unfold randint, after, done.
  pose proof (randbelow_spec fuel (hi - lo + 1) s) as Hs.
  destruct (rejections fuel (hi - lo + 1) s) as [j | ].
  - destruct Hs as (s' & -> & Hc & Hb). split; [lia | eauto].
  - rewrite Hs. reflexivity.
Qed.

(** C8.  For every density and every draw of the generator, the vehicle
    count lies in the inclusive range of the table (LOW 5-20, MODERATE
    21-50, HIGH 51-80, CRITICAL 81-120), and the average speed lies in the
    inclusive range of the table (LOW 40-60, MODERATE 20-40, HIGH 10-25,
    CRITICAL 2-15) and is a number of tenths, that is, rounded to one
    decimal place.  The draw behind the speed is a value of
    [random.random()], in [[0, 1)].  The count is returned as soon as
    [random.randint] accepts a draw: it is not returned within the fuel
    only when each of the first [fuel] draws is rejected. *)
Theorem C8_magnitude_in_table_range (fuel : nat) (density : TrafficDensity)
    (s : Source) :
  unit_draw (d_unit (s 0%nat)) = true ->
  let speed := fst (generate_average_speed density s) in
  let counted (lo hi : Z) :=
    match generate_vehicle_count fuel density s with
    | Some (count, _) => lo <= count <= hi
    | None => rejections fuel (hi - lo + 1) s = None
    end in
  match density with
  | LOW => counted 5 20 /\ speed_within 40 60 speed
  | MODERATE => counted 21 50 /\ speed_within 20 40 speed
  | HIGH => counted 51 80 /\ speed_within 10 25 speed
  | CRITICAL => counted 81 120 /\ speed_within 2 15 speed
  end.
Proof.
  intros Hu. cbv zeta. rewrite generate_average_speed_eq. cbv zeta.
  pose proof (generate_vehicle_count_spec fuel density s) as Hc. cbv zeta in Hc.
  destruct density; cbn [density_ranges fst snd] in Hc;
    (split;
     [destruct (generate_vehicle_count fuel _ s) as [[count s'] | ];
      [apply Hc | exact Hc] | ]).
  - apply speed_40_60, Hu.
  - apply speed_20_40, Hu.
  - apply speed_10_25, Hu.
  - apply speed_2_15, Hu.
Qed.

(** C8 holds of actual draws: CRITICAL with the draw 0.25, the raw integer
    being 47, which [random.randint] rejects (the width of the range is
    40), and then 7. *)
Lemma C8_witness :
  let s : Source := fun n => match n with
                             | O => mkDraw 0.25 47
                             | _ => mkDraw 0.25 7
                             end in
  match generate_vehicle_count 5 CRITICAL s with
  | Some (count, _) => 81 <= count <= 120
  | None => rejections 5 (120 - 81 + 1) s = None
  end /\
  option_map fst (generate_vehicle_count 5 CRITICAL s) = Some 88 /\
  speed_within 2 15 (fst (generate_average_speed CRITICAL s)).
Proof.
  cbv zeta.
  pose proof (C8_magnitude_in_table_range 5 CRITICAL
                (fun n => match n with
                          | O => mkDraw 0.25 47
                          | _ => mkDraw 0.25 7
                          end) eq_refl) as [Hc Hs].
  split; [exact Hc | split; [reflexivity | exact Hs]].
Defined.

(** C9.  On a weekend (Saturday is 5, Sunday is 6) the weekend step turns
    CRITICAL into HIGH, turns HIGH into MODERATE when the coin it draws is
    below 0.5 and leaves it HIGH otherwise, and changes no other density. *)
Theorem C9_weekend_dampening (weekday : Z) (density : TrafficDensity) (s : Source) :
  weekday = 5 \/ weekday = 6 ->
  let coin := d_unit (s 0%nat) in
  fst (weekend_adjustment weekday density s) =
    match density with
    | CRITICAL => HIGH
    | HIGH => if (coin <? 0.5)%float then MODERATE else HIGH
    | MODERATE => MODERATE
    | LOW => LOW
    end.
Proof.
  intros Hw. cbv zeta. unfold weekend_adjustment.
  replace (weekday >=? 5) with true by (symmetry; apply Z.geb_le; lia).
  destruct density; try reflexivity.
  cbn [density_eqb]. unfold bind, random, ret.
  destruct (d_unit (s 0%nat) <? 0.5)%float; reflexivity.
Qed.

(** C9 holds of actual runs: a Saturday, HIGH, with the coin 0.25. *)
Lemma C9_witness :
  fst (weekend_adjustment 5 HIGH (fun _ => mkDraw 0.25 0)) = MODERATE.
Proof.
  exact (C9_weekend_dampening 5 HIGH (fun _ => mkDraw 0.25 0) (or_introl eq_refl)).
Defined.

(** The binary search of [random.choices] over the night weights. *)
Lemma bisect_night (x : float) :
  bisect (accumulate [70; 25; 5; 0]) x 0 (len TRAFFIC_DENSITIES - 1) =
  if (x <? 95)%float then (if (x <? 70)%float then 0 else 1)
  else if (x <? 100)%float then 2 else 3.
Proof.
  cbv -[PrimFloat.ltb float_of_Z].
  change (float_of_Z 95) with 95%float. change (float_of_Z 70) with 70%float.
  change (float_of_Z 100) with 100%float.
  destruct (x <? 95)%float; [destruct (x <? 70)%float | destruct (x <? 100)%float];
    reflexivity.
Qed.

(** At night the weighted draw gives CRITICAL the weight 0: it is never
    drawn. *)
Lemma night_draw_not_critical (hour : Z) (s : Source) :
  22 <= hour <= 23 \/ 0 <= hour <= 6 ->
  unit_draw (d_unit (s 0%nat)) = true ->
  fst (generate_traffic_density_by_hour hour s) <> CRITICAL.
Proof.
  intros Hh Hu. unfold generate_traffic_density_by_hour.
  replace (((7 <=? hour) && (hour <=? 9)) || ((17 <=? hour) && (hour <=? 19)))
    with false by (symmetry; apply orb_false_intro; apply andb_false_iff;
                   rewrite !Z.leb_gt; lia).
  replace ((22 <=? hour) || (hour <=? 6)) with true
    by (symmetry; apply orb_true_iff; rewrite !Z.leb_le; lia).
  unfold choices1, bind, random, ret. cbn [fst].
  rewrite bisect_night.
  change (float_of_Z (last (accumulate [70; 25; 5; 0]%Z) 0%Z) + 0)%float with 100%float.
  rewrite (random_times_100 _ Hu).
  destruct (d_unit (s 0%nat) * 100 <? 95)%float;
    [destruct (d_unit (s 0%nat) * 100 <? 70)%float | ]; discriminate.
Qed.

(** The weekend step only lowers the severity. *)
Lemma weekend_adjustment_lowers (weekday : Z) (density : TrafficDensity) (s : Source) :
  severity (fst (weekend_adjustment weekday density s)) <= severity density.
Proof.
  unfold weekend_adjustment.
  destruct (weekday >=? 5); [ | cbn; lia].
  destruct density; cbn [density_eqb]; try (cbn; lia).
  unfold bind, random, ret.
  destruct (d_unit (s 0%nat) <? 0.5)%float; cbn; lia.
Qed.

(** The weather step escalates LOW to MODERATE and, at most, MODERATE to
    HIGH: it never produces CRITICAL from another density. *)
Lemma weather_impact_not_critical (weather : string) (density : TrafficDensity)
    (s : Source) :
  density <> CRITICAL -> fst (weather_impact weather density s) <> CRITICAL.
Proof.
  intros H. unfold weather_impact.
  destruct (str_in weather ["RAIN"; "FOG"]%string); [ | exact H].
  destruct density; cbn [density_eqb]; try (cbn; congruence).
  unfold bind, random, ret.
  destruct (d_unit (s 0%nat) <? 0.3)%float; cbn; congruence.
Qed.

(** The run of [generate_traffic_data], step by step: it returns when its
    two calls of [_randbelow] do, in [random.choice] and in
    [random.randint]. *)
Lemma generate_traffic_data_run (fuel : nat) (loc : Location) (ts : Timestamp)
    (s : Source) :
  let r1 := generate_traffic_density_by_hour (ts_hour ts) s in
  let r2 := weekend_adjustment (ts_weekday ts) (fst r1) (snd r1) in
  match choice fuel WEATHER_CONDITIONS "CLEAR"%string (snd r2) with
  | None => generate_traffic_data fuel loc ts s = None
  | Some (weather, s3) =>
      let r4 := weather_impact weather (fst r2) s3 in
      let r5 := uniform (-0.001) 0.001 (snd r4) in
      let r6 := uniform (-0.001) 0.001 (snd r5) in
      match generate_vehicle_count fuel (fst r4) (snd r6) with
      | None => generate_traffic_data fuel loc ts s = None
      | Some (count, s7) =>
          let r8 := generate_average_speed (fst r4) s7 in
          generate_traffic_data fuel loc ts s =
            Some ({| location := name loc;
                     latitude := (loc_lat loc + fst r5)%float;
                     longitude := (loc_lon loc + fst r6)%float;
                     trafficDensity := fst r4;
                     timestamp := ts_strftime ts;
                     vehicleCount := count;
                     averageSpeed := fst r8;
                     weatherCondition := weather |}, snd r8)
      end
  end.
Proof.
  cbv zeta. unfold generate_traffic_data, after, lift, done.
  destruct (generate_traffic_density_by_hour (ts_hour ts) s) as [d1 s1].
  cbn [fst snd].
  destruct (weekend_adjustment (ts_weekday ts) d1 s1) as [d2 s2].
  cbn [fst snd].
  destruct (choice fuel WEATHER_CONDITIONS "CLEAR"%string s2) as [[weather s3] | ];
    [ | reflexivity].
  destruct (weather_impact weather d2 s3) as [d3 s4].
  cbn [fst snd].
  destruct (uniform (-0.001) 0.001 s4) as [dlat s5].
  cbn [fst snd].
  destruct (uniform (-0.001) 0.001 s5) as [dlon s6].
  cbn [fst snd].
  destruct (generate_vehicle_count fuel d3 s6) as [[count s7] | ]; [ | reflexivity].
  destruct (generate_average_speed d3 s7) as [speed s8].
  reflexivity.
Qed.

(** The density of an observation is the drawn density after the weekend
    step and the weather step, each step reading the draws that the step
    before has left. *)
Lemma generate_traffic_data_density (fuel : nat) (loc : Location) (ts : Timestamp)
    (s : Source) (o : Observation) (s' : Source) :
  generate_traffic_data fuel loc ts s = Some (o, s') ->
  let r1 := generate_traffic_density_by_hour (ts_hour ts) s in
  let r2 := weekend_adjustment (ts_weekday ts) (fst r1) (snd r1) in
  exists s3,
    trafficDensity o = fst (weather_impact (weatherCondition o) (fst r2) s3).
Proof.
  intros H. pose proof (generate_traffic_data_run fuel loc ts s) as Hrun.
  cbv zeta in *.
  destruct (choice fuel WEATHER_CONDITIONS "CLEAR"%string _) as [[weather s3] | ];
    [ | congruence].
  destruct (generate_vehicle_count fuel _ _) as [[count s7] | ]; [ | congruence].
  rewrite Hrun in H. inversion H; subst o. cbn [trafficDensity weatherCondition].
  exists s3. reflexivity.
Qed.

(** C10.  For a timestamp at night (hour in [[22, 23]] or [[0, 6]]) and
    every stream of draws, the observation never has the density CRITICAL:
    the night weights give CRITICAL the weight 0, the weekend step only
    lowers the severity, and the weather step escalates at most MODERATE to
    HIGH.  Of the stream, only the first draw matters, which is a value of
    [random.random()], in [[0, 1)]. *)
Theorem C10_night_never_critical (fuel : nat) (loc : Location) (ts : Timestamp)
    (s : Source) (o : Observation) (s' : Source) :
  22 <= ts_hour ts <= 23 \/ 0 <= ts_hour ts <= 6 ->
  unit_draw (d_unit (s 0%nat)) = true ->
  generate_traffic_data fuel loc ts s = Some (o, s') ->
  trafficDensity o <> CRITICAL.
Proof.
  intros Hh Hu Hrun.
  destruct (generate_traffic_data_density fuel loc ts s o s' Hrun) as (s3 & ->).
  apply weather_impact_not_critical.
  pose proof (night_draw_not_critical (ts_hour ts) s Hh Hu) as H1.
  pose proof (weekend_adjustment_lowers (ts_weekday ts)
                (fst (generate_traffic_density_by_hour (ts_hour ts) s))
                (snd (generate_traffic_density_by_hour (ts_hour ts) s))) as H2.
  intros Hc. rewrite Hc in H2.
  destruct (fst (generate_traffic_density_by_hour (ts_hour ts) s));
    cbn in H2; try lia; congruence.
Qed.

(** C10 holds of an actual run: 23 h on a Sunday, every draw being
    0.9999999999999999, the largest value of [random.random()], with the
    raw integer 1. *)
Lemma C10_witness :
  exists o s',
    generate_traffic_data 1
      (mkLocation "Benz Circle" 16.5070 80.6490)
      (mkTimestamp 23 6 "2024-01-14T23:00:00")
      (fun _ => mkDraw 0.9999999999999999 1) = Some (o, s') /\
    trafficDensity o <> CRITICAL.
Proof.
  do 2 eexists. split; [reflexivity | ].
  eapply (C10_night_never_critical 1
            (mkLocation "Benz Circle" 16.5070 80.6490)
            (mkTimestamp 23 6 "2024-01-14T23:00:00")
            (fun _ => mkDraw 0.9999999999999999 1));
    [left; cbn; lia | reflexivity | reflexivity].
Defined.

End Generator.

(* ================================================================== *)
(** * Further properties of the two programs *)
(* ================================================================== *)

Section ClassifierReach.
Import Py Random MockMlService.

(** Before the re-classification the density is never CRITICAL. *)
Lemma pre_jitter_not_critical (hour : Z) (day_of_week weather : string)
    (historical_data_points : Z) :
  fst (pre_jitter hour day_of_week weather historical_data_points) <> CRITICAL.
Proof.
  unfold pre_jitter, adjust_history, adjust_weather, adjust_day_of_week.
  destruct (base_by_hour_cases hour) as [-> | [-> | ->]];
    destruct (str_in day_of_week ["Saturday"; "Sunday"]%string);
    destruct (str_in weather ["RAIN"; "SNOW"; "FOG"]%string);
    cbn [density_eqb];
    destruct (historical_data_points >? 10);
    destruct (historical_data_points <? 3); cbn; discriminate.
Qed.

Lemma reclassify_fst (density : TrafficDensity) (s : Source) :
  fst (reclassify density s) =
  if (d_unit (s 0%nat) <? 0.2)%float
  then shift_prediction (d_unit (s 1%nat)) density
  else density.
Proof.
  unfold reclassify, bind, random, ret, advance.
  destruct (d_unit (s 0%nat) <? 0.2)%float; reflexivity.
Qed.

(** X1.  [predict_traffic] returns CRITICAL exactly when the density before
    the re-classification is HIGH, the re-classification fires (the draw
    after the jitter is below 0.2) and its coin does not choose down (the
    next draw is not below 0.5).  The steps before never produce CRITICAL. *)
Theorem predict_traffic_critical_iff (lat lon : float) (hour : Z)
    (day_of_week weather : string) (historical_data_points : Z) (s : Source) :
  fst (fst (predict_traffic lat lon hour day_of_week weather
              historical_data_points s)) = CRITICAL <->
  fst (pre_jitter hour day_of_week weather historical_data_points) = HIGH /\
  (d_unit (s 1%nat) <? 0.2)%float = true /\
  (d_unit (s 2%nat) <? 0.5)%float = false.
Proof.
  rewrite predict_traffic_density, reclassify_fst. unfold advance.
  pose proof (pre_jitter_not_critical hour day_of_week weather historical_data_points) as Hn.
  destruct (fst (pre_jitter hour day_of_week weather historical_data_points));
    destruct (d_unit (s 1%nat) <? 0.2)%float;
    unfold shift_prediction;
    destruct (d_unit (s 2%nat) <? 0.5)%float; vm_compute;
    intuition (try congruence; try lia).
Qed.

(** X2.  The density that [predict_traffic] returns is the density before
    the re-classification when the re-classification does not fire, and
    exactly one step of severity away from it when it fires: the
    re-classification always moves the densities the steps before can
    produce. *)
Theorem predict_traffic_one_step (lat lon : float) (hour : Z)
    (day_of_week weather : string) (historical_data_points : Z) (s : Source) :
  let before := fst (pre_jitter hour day_of_week weather historical_data_points) in
  let after := fst (fst (predict_traffic lat lon hour day_of_week weather
                           historical_data_points s)) in
  ((d_unit (s 1%nat) <? 0.2)%float = false -> after = before) /\
  ((d_unit (s 1%nat) <? 0.2)%float = true ->
     severity after = severity before - 1 \/ severity after = severity before + 1).
Proof.
  cbv zeta. rewrite predict_traffic_density, reclassify_fst. unfold advance.
  pose proof (pre_jitter_not_critical hour day_of_week weather historical_data_points) as Hn.
  destruct (fst (pre_jitter hour day_of_week weather historical_data_points));
    destruct (d_unit (s 1%nat) <? 0.2)%float;
    unfold shift_prediction;
    destruct (d_unit (s 2%nat) <? 0.5)%float; vm_compute;
    intuition (try congruence; try lia).
Qed.

(** X3.  [predict_traffic] consumes two draws (the jitter and the test of the
    re-classification) when the re-classification does not fire and three
    (the coin too) when it does, whatever the context. *)
Theorem predict_traffic_draws (lat lon : float) (hour : Z)
    (day_of_week weather : string) (historical_data_points : Z) (s : Source) :
  snd (predict_traffic lat lon hour day_of_week weather historical_data_points s) =
  if (d_unit (s 1%nat) <? 0.2)%float
  then advance (advance (advance s))
  else advance (advance s).
Proof.
  unfold predict_traffic.
  destruct (pre_jitter hour day_of_week weather historical_data_points) as [d c].
  unfold bind, uniform, random, ret, reclassify, bind, random, ret. simpl.
  change (d_unit (advance s 0%nat)) with (d_unit (s 1%nat)).
  destruct (d_unit (s 1%nat) <? 0.2)%float; reflexivity.
Qed.

End ClassifierReach.

Section HandlersMore.
Import Py Random MockMlService Json Facade Endpoints.

(** On a [dict], the validation loop of [predict] finds nothing missing
    exactly when the four subscripts of the body succeed. *)
Lemma first_missing_subscriptable (members : list (string * Value)) (w : World) :
  fst (first_missing required_fields (VDict members) w) = inr None <->
  subscriptable (VDict members) = true.
Proof.
  rewrite first_missing_dict. cbv beta zeta. unfold subscriptable. cbn [fst].
  destruct (lookup "lat" members), (lookup "lon" members),
    (lookup "hour" members), (lookup "dayOfWeek" members); cbn;
    split; intros H; try reflexivity; discriminate.
Qed.

(** The field that the validation loop reports is one of the four. *)
Lemma first_missing_required (members : list (string * Value)) (w : World)
    (field : string) :
  fst (first_missing required_fields (VDict members) w) = inr (Some field) ->
  In field required_fields.
Proof.
  rewrite first_missing_dict. cbv beta zeta. cbn [fst].
  destruct (lookup "lat" members), (lookup "lon" members),
    (lookup "hour" members), (lookup "dayOfWeek" members); cbn;
    intros H; inversion H; auto 10.
Qed.

(** On a [dict], [predict] answers 200 exactly when the four keys are
    there and the hour and the count are numbers, and then it is with
    what the call of [predict_traffic] returned. *)
Lemma predict_200 (members : list (string * Value)) (w : World) (body : Prediction)
    (w' : World) :
  predict (VDict members) w = (Ok200 body, w') ->
  let req := VDict members in
  processable req = true /\
  exists s,
    Untyped.predict_traffic (field req "lat" VNone) (field req "lon" VNone)
      (field req "hour" VNone) (field req "dayOfWeek" VNone)
      (field req "weather" (VStr "CLEAR"))
      (field req "historicalDataPoints" (VInt 0)) (rng w) =
      (inr (prediction body, confidence body), s) /\
    rng w' = advance s /\
    core_calls w' = core_calls w ++
      [mkCoreCall (field req "lat" VNone) (field req "lon" VNone)
         (field req "hour" VNone) (field req "dayOfWeek" VNone)
         (field req "weather" (VStr "CLEAR"))
         (field req "historicalDataPoints" (VInt 0))].
Proof.
  intros H. cbv zeta.
  destruct (subscriptable (VDict members)) eqn:Hs.
  - pose proof Hs as Hs'. unfold subscriptable in Hs'.
    destruct (lookup "lat" members) as [lat | ] eqn:Hlat; [ | discriminate].
    destruct (lookup "lon" members) as [lon | ] eqn:Hlon; [ | discriminate].
    destruct (lookup "hour" members) as [hour | ] eqn:Hh; [ | discriminate].
    destruct (lookup "dayOfWeek" members) as [day | ] eqn:Hd; [ | discriminate].
    unfold predict in H.
    rewrite (predict_body_complete members w lat lon hour day Hlat Hlon Hh Hd) in H.
    cbv zeta in H.
    assert (Hf : field (VDict members) "lat" VNone = lat /\
                 field (VDict members) "lon" VNone = lon /\
                 field (VDict members) "hour" VNone = hour /\
                 field (VDict members) "dayOfWeek" VNone = day).
    { unfold field. rewrite Hlat, Hlon, Hh, Hd. auto. }
    destruct Hf as (-> & -> & -> & ->).
    unfold processable. rewrite Hs. cbn [andb].
    set (weather := field (VDict members) "weather" (VStr "CLEAR")) in *.
    set (hist := field (VDict members) "historicalDataPoints" (VInt 0)) in *.
    replace (field (VDict members) "hour" VNone) with hour
      by (unfold field; rewrite Hh; reflexivity).
    destruct (Untyped.is_number hour && Untyped.is_number hist) eqn:Hnum.
    + split; [reflexivity | ].
      destruct (Untyped.predict_traffic lat lon hour day weather hist (rng w))
        as [[e | [d c]] s]; [discriminate | ].
      inversion H; subst body w'. exists s. repeat split.
    + exfalso. apply andb_false_iff in Hnum.
      destruct (predict_traffic_raises lat lon hour day weather hist (rng w) Hnum)
        as (message & Hr).
      rewrite Hr in H. discriminate.
  - exfalso. unfold predict, predict_body in H. unfold and_then at 1 in H.
    pose proof (first_missing_subscriptable members w) as Hiff.
    rewrite first_missing_dict in *. cbv beta zeta in *. cbn [fst] in Hiff.
    destruct (if negb (is_some (lookup "lat" members))
              then Some "lat"%string
              else if negb (is_some (lookup "lon" members))
                   then Some "lon"%string
                   else if negb (is_some (lookup "hour" members))
                        then Some "hour"%string
                        else if negb (is_some (lookup "dayOfWeek" members))
                             then Some "dayOfWeek"%string
                             else None) as [f | ].
    + discriminate.
    + destruct Hiff as [Hiff _]. rewrite Hiff in Hs by reflexivity. discriminate.
Qed.

(** X4.  [predict] never answers 500 on a JSON object whose hour and
    count of historical data points, when it has them, are numbers: the
    four fields that its body subscripts are the four that it validates,
    so the request is answered 400, with the world untouched, or 200. *)
Theorem predict_never_500 (members : list (string * Value)) (w : World) :
  (forall hour, lookup "hour"%string members = Some hour ->
                Untyped.is_number hour = true) ->
  (forall n, lookup "historicalDataPoints"%string members = Some n ->
             Untyped.is_number n = true) ->
  (exists field, In field required_fields /\
     predict (VDict members) w =
       (BadRequest400 ("Missing required field: " ++ field), w)) \/
  (exists body w', predict (VDict members) w = (Ok200 body, w')).
Proof.
  intros Hhour Hhist.
  destruct (fst (first_missing required_fields (VDict members) w))
    as [e | [field | ]] eqn:Hf.
  - rewrite first_missing_dict in Hf. discriminate.
  - left. exists field. split.
    + apply (first_missing_required members w field Hf).
    + apply predict_missing, Hf.
  - right. apply first_missing_subscriptable in Hf.
    pose proof Hf as Hs. unfold subscriptable in Hs.
    destruct (lookup "lat" members) as [lat | ] eqn:Hlat; [ | discriminate].
    destruct (lookup "lon" members) as [lon | ] eqn:Hlon; [ | discriminate].
    destruct (lookup "hour" members) as [hour | ] eqn:Hh; [ | discriminate].
    destruct (lookup "dayOfWeek" members) as [day | ] eqn:Hd; [ | discriminate].
    unfold predict.
    rewrite (predict_body_complete members w lat lon hour day Hlat Hlon Hh Hd).
    cbv zeta.
    assert (Hn : Untyped.is_number
                   (field (VDict members) "historicalDataPoints" (VInt 0)) = true).
    { unfold field.
      destruct (lookup "historicalDataPoints" members) as [n | ] eqn:Hl;
        [apply Hhist; reflexivity | reflexivity]. }
    destruct (predict_traffic_returns lat lon hour day
                (field (VDict members) "weather" (VStr "CLEAR"))
                (field (VDict members) "historicalDataPoints" (VInt 0))
                (rng w) (Hhour hour eq_refl) Hn) as ([d c] & s & Hr).
    rewrite Hr. do 2 eexists. reflexivity.
Qed.

(** What [predict] answers, on any value: 200 exactly on a [dict] that has
    the four keys, with numbers for the hour and for the count; 400 on a
    [dict] that lacks one of the four keys, on a [list] of which one of
    the four names is no element and on a [str] of which one of them is no
    substring; and 500 on anything else: a [dict] that has the four keys
    with an hour or a count that is no number, a [list] or a [str] that
    holds the four names, and [None], a [bool], an [int] or a [float]. *)
Lemma predict_status (data : Value) (w : World) :
  match fst (predict data w) with
  | Ok200 _ => processable data = true
  | BadRequest400 _ =>
      match data with
      | VDict _ => subscriptable data = false
      | VList items =>
          forallb (fun key => existsb (eq_str key) items) required_fields = false
      | VStr s =>
          forallb (fun key => is_some (String.index 0 key s)) required_fields = false
      | _ => False
      end
  | ServerError500 _ _ =>
      match data with
      | VDict _ => subscriptable data = true /\ processable data = false
      | VList items =>
          forallb (fun key => existsb (eq_str key) items) required_fields = true
      | VStr s =>
          forallb (fun key => is_some (String.index 0 key s)) required_fields = true
      | _ => True
      end
  end.
Proof.
  destruct data as [ | b | n | x | s | items | members]; try exact I.
  - unfold predict, predict_body, required_fields, first_missing, and_then, eval,
      contains, pure, subscript. cbn [forallb].
    destruct (is_some (String.index 0 "lat" s)); [ | reflexivity].
    destruct (is_some (String.index 0 "lon" s)); [ | reflexivity].
    destruct (is_some (String.index 0 "hour" s)); [ | reflexivity].
    destruct (is_some (String.index 0 "dayOfWeek" s)); reflexivity.
  - unfold predict, predict_body, required_fields, first_missing, and_then, eval,
      contains, pure, subscript. cbn [forallb].
    destruct (existsb (eq_str "lat") items); [ | reflexivity].
    destruct (existsb (eq_str "lon") items); [ | reflexivity].
    destruct (existsb (eq_str "hour") items); [ | reflexivity].
    destruct (existsb (eq_str "dayOfWeek") items); reflexivity.
  - destruct (predict (VDict members) w) as [[body | error | error message] w'] eqn:Hp;
      cbn [fst].
    + apply (predict_200 members w body w' Hp).
    + destruct (subscriptable (VDict members)) eqn:Hs; [exfalso | reflexivity].
      pose proof Hs as Hs'. unfold subscriptable in Hs'.
      destruct (lookup "lat" members) as [lat | ] eqn:Hlat; [ | discriminate].
      destruct (lookup "lon" members) as [lon | ] eqn:Hlon; [ | discriminate].
      destruct (lookup "hour" members) as [hour | ] eqn:Hh; [ | discriminate].
      destruct (lookup "dayOfWeek" members) as [day | ] eqn:Hd; [ | discriminate].
      unfold predict in Hp.
      rewrite (predict_body_complete members w lat lon hour day Hlat Hlon Hh Hd) in Hp.
      cbv zeta in Hp.
      destruct (Untyped.predict_traffic lat lon hour day
                  (field (VDict members) "weather" (VStr "CLEAR"))
                  (field (VDict members) "historicalDataPoints" (VInt 0)) (rng w))
        as [[e | [d c]] s0]; discriminate.
    + destruct (subscriptable (VDict members)) eqn:Hs.
      * split; [reflexivity | ].
        destruct (processable (VDict members)) eqn:Hpr; [exfalso | reflexivity].
        unfold processable in Hpr. rewrite Hs in Hpr. cbn [andb] in Hpr.
        apply andb_prop in Hpr. destruct Hpr as [Hnh Hnn].
        pose proof Hs as Hs'. unfold subscriptable in Hs'.
        destruct (lookup "lat" members) as [lat | ] eqn:Hlat; [ | discriminate].
        destruct (lookup "lon" members) as [lon | ] eqn:Hlon; [ | discriminate].
        destruct (lookup "hour" members) as [hour | ] eqn:Hh; [ | discriminate].
        destruct (lookup "dayOfWeek" members) as [day | ] eqn:Hd; [ | discriminate].
        unfold predict in Hp.
        rewrite (predict_body_complete members w lat lon hour day Hlat Hlon Hh Hd) in Hp.
        cbv zeta in Hp.
        assert (Hhour : field (VDict members) "hour" VNone = hour)
          by (unfold field; rewrite Hh; reflexivity).
        rewrite Hhour in Hnh.
        destruct (predict_traffic_returns lat lon hour day
                    (field (VDict members) "weather" (VStr "CLEAR"))
                    (field (VDict members) "historicalDataPoints" (VInt 0))
                    (rng w) Hnh Hnn) as ([d c] & s0 & Hr).
        rewrite Hr in Hp. discriminate.
      * exfalso.
        destruct (fst (first_missing required_fields (VDict members) w))
          as [e | [field | ]] eqn:Hf.
        -- rewrite first_missing_dict in Hf. discriminate.
        -- rewrite (predict_missing members w field Hf) in Hp. discriminate.
        -- apply first_missing_subscriptable in Hf. congruence.
Qed.

End HandlersMore.

Section BatchMore.
Import Py Random MockMlService Json Facade Endpoints.

(** A list either has all its items processable or splits at its first
    item that is not. *)
Lemma first_unprocessable (requests : list Value) :
  Forall (fun req => processable req = true) requests \/
  exists ok bad rest,
    requests = ok ++ bad :: rest /\
    Forall (fun req => processable req = true) ok /\
    processable bad = false.
Proof.
  induction requests as [ | req l IH].
  - left. constructor.
  - destruct (processable req) eqn:Hp.
    + destruct IH as [IH | (ok & bad & rest & -> & Hok & Hbad)].
      * left. constructor; assumption.
      * right. exists (req :: ok), bad, rest. repeat split; auto.
    + right. exists [], req, l. repeat split; auto.
Qed.

(** The loop of [batch_predict] returns exactly when it gets through
    every item. *)
Lemma batch_loop_returns (requests : list Value) (acc : list BatchResult)
    (w : World) :
  (exists res w', batch_loop requests acc w = (inr res, w')) <->
  Forall (fun req => processable req = true) requests.
Proof.
  destruct (first_unprocessable requests) as [Hall | (ok & bad & rest & -> & Hok & Hbad)].
  - split; [intros _; exact Hall | intros _].
    destruct (batch_loop_prefix requests Hall acc w) as (acc' & w' & Hrun & _).
    specialize (Hrun []). rewrite app_nil_r in Hrun.
    exists acc', w'. rewrite Hrun. reflexivity.
  - split.
    + intros (res & w' & Hrun). exfalso.
      destruct (batch_loop_prefix ok Hok acc w) as (acc1 & w1 & Hpre & _).
      destruct (batch_loop_bad bad acc1 w1 Hbad) as (e & w2 & Hfail & _).
      rewrite Hpre, Hfail in Hrun. discriminate.
    + intros Hall. exfalso. apply Forall_app in Hall. destruct Hall as [_ Hall].
      inversion Hall; congruence.
Qed.

(** The characters of a string and the keys of a [dict] are strings, on
    which the loop fails. *)
Lemma strings_unprocessable (l : list string) :
  Forall (fun req => processable req = true) (map VStr l) -> l = [].
Proof.
  destruct l as [ | s l]; [reflexivity | ].
  intros H. inversion H; discriminate.
Qed.

(** What the loop of [batch_predict] goes through when [requests] is
    truthy: nothing, [requests] being a number or [True], on which [for]
    raises; strings, [requests] being a string or a [dict], not empty; or
    the items of [requests], a list that is not empty. *)
Lemma iter_truthy (requests : Value) :
  truthy requests = true ->
  (exists e, iter requests = inl e /\ forall items, requests <> VList items) \/
  (exists l, iter requests = inr (map VStr l) /\ l <> [] /\
             forall items, requests <> VList items) \/
  (exists items, requests = VList items /\ items <> []).
Proof.
  intros Ht.
  destruct requests as [ | b | n | x | s | items | ms].
  - discriminate.
  - left. eexists. split; [reflexivity | discriminate].
  - left. eexists. split; [reflexivity | discriminate].
  - left. eexists. split; [reflexivity | discriminate].
  - right. left. exists (map (fun c => String c EmptyString) (list_ascii_of_string s)).
    split; [cbn; rewrite map_map; reflexivity | ].
    split; [ | discriminate].
    destruct s; [discriminate | cbn; discriminate].
  - right. right. exists items. split; [reflexivity | ].
    destruct items; [discriminate | discriminate].
  - right. left. exists (map fst ms).
    split; [cbn; rewrite map_map; reflexivity | ].
    split; [ | discriminate].
    destruct ms; [discriminate | cbn; discriminate].
Qed.

(** A batch answered 200 was a [dict] whose [requests] is a list, and the
    loop has returned the results over its items. *)
Lemma batch_200 (data : Value) (w : World) (body : BatchBody) :
  fst (batch_predict data w) = Ok200 body ->
  exists items w',
    field data "requests" (VList []) = VList items /\
    batch_loop items [] w = (inr (results body), w') /\
    total_predictions body = len (results body).
Proof.
  intros H.
  destruct data as [ | | | | | | members]; try discriminate.
  unfold batch_predict, batch_body, and_then, eval, get in H.
  change (match lookup "requests" members with
          | Some v => v
          | None => VList []
          end) with (field (VDict members) "requests" (VList [])) in H.
  set (requests := field (VDict members) "requests" (VList [])) in *.
  destruct (truthy requests) eqn:Ht; cbn [negb] in H; [ | discriminate].
  destruct (iter_truthy requests Ht)
    as [(e & He & _) | [(l & Hl & Hne & _) | (items & Hi & _)]].
  - rewrite He in H. discriminate.
  - exfalso. rewrite Hl in H.
    destruct (batch_loop (map VStr l) [] w) as [[e | res] w'] eqn:Hrun;
      [discriminate | ].
    apply Hne, strings_unprocessable.
    apply (batch_loop_returns (map VStr l) [] w). eauto.
  - exists items. rewrite Hi in H. cbn [iter] in H.
    destruct (batch_loop items [] w) as [[e | res] w'] eqn:Hrun; [discriminate | ].
    cbn [fst pure] in H. inversion H; subst body. cbn [results total_predictions].
    exists w'. auto.
Qed.

(** X5.  The three answers of [batch_predict], on any value [data] of the
    request, [requests] being what [data.get('requests', [])] returns on
    a [dict].  400: [data] is a [dict] and [requests] is falsy (there is
    none, or it is an empty list, string or [dict], zero, [False] or
    [None]).  200: [data] is a [dict] and [requests] is a list, not
    empty, of items that the loop gets through.  500: anything else, that
    is, [data] is no [dict], or [requests] is truthy and is no list of
    items that the loop all gets through. *)
Theorem batch_predict_outcomes (data : Value) (w : World) :
  let requests := field data "requests" (VList []) in
  let is_dict := match data with VDict _ => true | _ => false end in
  let all_processable := fun items : list Value =>
    Forall (fun req => processable req = true) items in
  ((is_dict = true /\ truthy requests = false) <->
     exists error, fst (batch_predict data w) = BadRequest400 error) /\
  ((is_dict = true /\
    exists items, requests = VList items /\ items <> [] /\ all_processable items) <->
     exists body, fst (batch_predict data w) = Ok200 body) /\
  ((is_dict = false \/
    (truthy requests = true /\
     forall items, requests = VList items -> ~ all_processable items)) <->
     exists error message, fst (batch_predict data w) = ServerError500 error message).
Proof.
  cbv zeta.
  destruct data as [ | b | n | x | s | items | members].
  1-6: (cbn; split; [ | split];
        [ split; [intros [H _]; discriminate | intros [? H]; discriminate]
        | split; [intros [H _]; discriminate | intros [? H]; discriminate]
        | split; [intros _; do 2 eexists; reflexivity | intros _; left; reflexivity] ]).
  unfold batch_predict, batch_body, and_then, eval, get.
  change (match lookup "requests" members with
          | Some v => v
          | None => VList []
          end) with (field (VDict members) "requests" (VList [])).
  set (requests := field (VDict members) "requests" (VList [])).
  destruct (truthy requests) eqn:Ht; cbn [negb].
  - (* truthy *)
    pose proof (iter_truthy requests Ht) as Hcases.
    destruct Hcases as [(e & He & Hnl) | [(l & Hl & Hne & Hnl) | (items & Hi & Hne)]].
    + rewrite He. cbn [fst]. split; [ | split].
      * split; [intros [_ H]; discriminate | intros [? H]; discriminate].
      * split; [ | intros [? H]; discriminate].
        intros (_ & items & Hi & _). exfalso. apply (Hnl items Hi).
      * split; [intros _; do 2 eexists; reflexivity | intros _].
        right. split; [reflexivity | ]. intros items Hi. exfalso. apply (Hnl items Hi).
    + rewrite Hl.
      destruct (batch_loop (map VStr l) [] w) as [[e | res] w'] eqn:Hrun.
      * cbn [fst]. split; [ | split].
        -- split; [intros [_ H]; discriminate | intros [? H]; discriminate].
        -- split; [ | intros [? H]; discriminate].
           intros (_ & items & Hi & _). exfalso. apply (Hnl items Hi).
        -- split; [intros _; do 2 eexists; reflexivity | intros _].
           right. split; [reflexivity | ].
           intros items Hi. exfalso. apply (Hnl items Hi).
      * exfalso. apply Hne, strings_unprocessable.
        apply (batch_loop_returns (map VStr l) [] w). eauto.
    + rewrite Hi. cbn [iter].
      destruct (batch_loop items [] w) as [[e | res] w'] eqn:Hrun; cbn [fst].
      * assert (Hnot : ~ Forall (fun req => processable req = true) items).
        { intros Hall. apply (batch_loop_returns items [] w) in Hall.
          destruct Hall as (res & w1 & Hres). congruence. }
        split; [ | split].
        -- split; [intros [_ H]; discriminate | intros [? H]; discriminate].
        -- split; [ | intros [? H]; discriminate].
           intros (_ & items' & Hi' & _ & Hall). exfalso.
           injection Hi' as <-. exact (Hnot Hall).
        -- split; [intros _; do 2 eexists; reflexivity | intros _].
           right. split; [reflexivity | ].
           intros items' Hi'. injection Hi' as <-. exact Hnot.
      * assert (Hall : Forall (fun req => processable req = true) items)
          by (apply (batch_loop_returns items [] w); eauto).
        split; [ | split].
        -- split; [intros [_ H]; discriminate | intros [? H]; discriminate].
        -- split; [intros _; eexists; reflexivity | intros _].
           split; [reflexivity | ]. exists items. auto.
        -- split; [ | intros (? & ? & H); discriminate].
           intros [H | [_ H]]; [discriminate | ].
           exfalso. exact (H items eq_refl Hall).
  - (* falsy *)
    cbn [fst]. split; [ | split].
    + split; [intros _; eexists; reflexivity | intros _; auto].
    + split; [ | intros [? H]; discriminate].
      intros (_ & items & Hi & Hne & _). exfalso.
      rewrite Hi in Ht. destruct items; [congruence | discriminate].
    + split; [ | intros (? & ? & H); discriminate].
      intros [H | [H _]]; discriminate.
Qed.

(** The batch loop only appends: it returns the results it was given,
    followed by one result per item, whose identifier is the one the item
    supplies or else the number of results before it. *)
Lemma batch_loop_ids (requests : list Value) :
  forall (acc : list BatchResult) (w : World) (res : list BatchResult) (w' : World),
  batch_loop requests acc w = (inr res, w') ->
  exists new,
    res = acc ++ new /\
    List.length new = List.length requests /\
    forall (i : nat) (req : Value),
      nth_error requests i = Some req ->
      exists r, nth_error new i = Some r /\
                b_id r = field req "id" (VInt (len acc + Z.of_nat i)).
Proof.
  induction requests as [ | req rest IH]; intros acc w res w' H.
  - cbn in H. inversion H; subst. exists []. rewrite app_nil_r.
    repeat split. intros [ | i] r Hr; discriminate.
  - destruct (processable req) eqn:Hp.
    + destruct (batch_loop_step req acc w Hp) as (r0 & c & s & Hid & Hstep).
      rewrite Hstep in H.
      destruct (IH _ _ _ _ H) as (new & -> & Hlen & Hnth).
      exists (r0 :: new). rewrite <- app_assoc. repeat split.
      * cbn. rewrite Hlen. reflexivity.
      * intros [ | i] rq Hrq; cbn in Hrq.
        -- inversion Hrq; subst. exists r0. split; [reflexivity | ].
           rewrite Hid. f_equal. f_equal. lia.
        -- destruct (Hnth i rq Hrq) as (r & Hr & Hrid).
           exists r. split; [exact Hr | ]. rewrite Hrid. f_equal. f_equal.
           unfold len. rewrite length_app. cbn. lia.
    + destruct (batch_loop_bad req acc w Hp) as (e & w2 & Hfail & _).
      rewrite Hfail in H. discriminate.
Qed.

(** X6.  A batch answered 200 was a list; it has one result per item, in
    the order of the items, [total_predictions] is the number of items,
    and the identifier of the result at position [i] is the one its item
    supplies, or [i] when it supplies none. *)
Theorem batch_predict_ids (data : Value) (w : World) (body : BatchBody) :
  fst (batch_predict data w) = Ok200 body ->
  exists items,
    field data "requests" (VList []) = VList items /\
    total_predictions body = len items /\
    List.length (results body) = List.length items /\
    forall (i : nat) (req : Value),
      nth_error items i = Some req ->
      exists r, nth_error (results body) i = Some r /\
                b_id r = field req "id" (VInt (Z.of_nat i)).
Proof.
  intros H.
  destruct (batch_200 data w body H) as (items & w' & Hi & Hrun & Htotal).
  exists items. split; [exact Hi | ].
  destruct (batch_loop_ids _ _ _ _ _ Hrun) as (new & Hres & Hlen & Hnth).
  cbn [app] in Hres. rewrite Htotal, Hres. unfold len. rewrite Hlen.
  repeat split.
  intros i rq Hrq. destruct (Hnth i rq Hrq) as (r & Hr & Hid).
  exists r. split; [exact Hr | ]. rewrite Hid. reflexivity.
Qed.

(** X7.  The two endpoints agree: when [predict] answers 200 on a request,
    the batch of that one request answers 200 with the same prediction and
    the same confidence, from the same world; [predict] only consumes one
    draw more, for the simulated processing time. *)
Theorem batch_of_one_agrees_with_predict (req : Value) (w : World)
    (body : Prediction) (w' : World) (members : list (string * Value)) :
  predict req w = (Ok200 body, w') ->
  lookup "requests"%string members = Some (VList [req]) ->
  exists w'',
    batch_predict (VDict members) w =
      (Ok200 {| results := [{| b_id := field req "id" (VInt 0);
                               b_prediction := prediction body;
                               b_confidence := confidence body |}];
                total_predictions := 1 |}, w'') /\
    rng w' = advance (rng w'') /\ core_calls w' = core_calls w''.
Proof.
  intros H Hreq.
  assert (Hdict : exists m, req = VDict m).
  { pose proof (predict_status req w) as Hst. rewrite H in Hst. cbn [fst] in Hst.
    destruct req; try discriminate. eauto. }
  destruct Hdict as [m ->].
  destruct (predict_200 m w body w' H) as (Hp & s & Hr & Hrng & Hcalls).
  unfold batch_predict, batch_body, and_then, eval, get. rewrite Hreq.
  cbn [truthy List.length Z.of_nat negb iter]. cbn [Z.eqb negb].
  assert (Hs : subscriptable (VDict m) = true).
  { unfold processable in Hp. apply andb_prop in Hp. destruct Hp as [Hp _].
    apply andb_prop in Hp. apply Hp. }
  rewrite (batch_loop_item m [] [] w Hs). cbv zeta. rewrite Hr.
  cbn [batch_loop pure app]. eexists. split; [reflexivity | ].
  cbn [rng core_calls]. auto.
Qed.

End BatchMore.

Section RetrainProps.
Import Py Random Round Binary64 Json Facade Endpoints Format Retrain Streams.

Lemma tenths_count_within (x a b : float) (lo hi : Z) (ma mb : positive) (ea eb : Z)
    (m : positive) (e : Z) :
  Prim2SF a = S754_finite false ma ea ->
  Prim2SF b = S754_finite false mb eb ->
  Zpos (digits2_pos ma) = 53 -> Zpos (digits2_pos mb) = 53 ->
  -1074 <= ea -> eb < 0 ->
  lo * 2 ^ (- ea) = 10 * Zpos ma -> hi * 2 ^ (- eb) = 10 * Zpos mb ->
  (a <=? x)%float = true -> (x <=? b)%float = true ->
  Prim2SF x = S754_finite false m e ->
  lo <= nearest_even (10 * Zpos m) e <= hi.
Proof.
  intros Ha Hb Hma Hmb Hea Heb HA HB H0 H1 Hx.
  destruct (between_cases x a b ma mb ea eb Ha Hb H0 H1)
    as (m' & e' & Hx' & Hd & Hnorm & Hlo & Hhi).
  rewrite Hx in Hx'. inversion Hx'; subst m' e'. clear Hx'.
  pose proof (normal_mantissa ma Hma) as Hna.
  pose proof (normal_mantissa mb Hmb) as Hnb.
  pose proof (digits2_pos_bounds m) as Hbm.
  assert (Hm53 : Zpos m < 2 ^ 53).
  { eapply Z.lt_le_trans; [apply Hbm | apply Z.pow_le_mono_r; lia]. }
  assert (He : ea <= e <= eb) by lia.
  assert (H2e : 0 < 2 ^ (- e)) by (apply Z.pow_pos_nonneg; lia).
  apply nearest_even_between; [lia | ]. split.
  - destruct Hlo as [Hlt | [Heq Hle]].
    + rewrite (Hnorm ltac:(lia)) in Hbm.
      assert (H2 : 0 < 2 ^ (e - ea - 1)) by (apply Z.pow_pos_nonneg; lia).
      replace (- ea) with ((- e) + (e - ea - 1) + 1) in HA by lia.
      rewrite !Z.pow_add_r in HA by lia. change (2 ^ 1) with 2 in HA.
      set (T := 2 ^ (- e)) in *. set (U := 2 ^ (e - ea - 1)) in *.
      assert (0 <= lo) by nia.
      assert (lo * T * 1 <= lo * T * U) by (apply Z.mul_le_mono_nonneg_l; nia).
      lia.
    + subst e. lia.
  - destruct Hhi as [Hlt | [Heq Hle]].
    + assert (H2 : 0 < 2 ^ (eb - e - 1)) by (apply Z.pow_pos_nonneg; lia).
      assert (H2b : 0 < 2 ^ (- eb)) by (apply Z.pow_pos_nonneg; lia).
      replace (- e) with ((- eb) + (eb - e - 1) + 1) by lia.
      rewrite !Z.pow_add_r by lia. change (2 ^ 1) with 2.
      set (T := 2 ^ (- eb)) in *. set (U := 2 ^ (eb - e - 1)) in *.
      assert (Zpos mb * 1 <= Zpos mb * U) by (apply Z.mul_le_mono_nonneg_l; lia).
      replace (hi * (T * U * 2)) with (hi * T * U * 2) by ring.
      rewrite HB. nia.
    + subst e. lia.
Qed.

Lemma uniform_half_2 (u : float) :
  unit_draw u = true ->
  (0.5 <=? 0.5 + (2.0 - 0.5) * u)%float = true /\
  (0.5 + (2.0 - 0.5) * u <=? 2.0)%float = true.
Proof.
  intros Hu.
  apply (uniform_within 0.5 2.0 (2 ^ 52) (2 ^ 52) 6755399441055744 (-53) (-51) (-52));
    first [assumption | reflexivity | lia].
Qed.

Lemma format_1f_half_2 (x : float) :
  (0.5 <=? x)%float = true -> (x <=? 2.0)%float = true ->
  exists n, 5 <= n <= 20 /\
    format_1f x = (str_of_Z (n / 10) ++ "." ++ str_of_Z (n mod 10))%string.
Proof.
  intros H0 H1.
  destruct (between_cases x 0.5 2.0 (2 ^ 52) (2 ^ 52) (-53) (-51) eq_refl eq_refl H0 H1)
    as (m & e & Hx & _).
  exists (nearest_even (10 * Zpos m) e). split.
  - apply (tenths_count_within x 0.5 2.0 5 20 (2 ^ 52) (2 ^ 52) (-53) (-51) m e);
      first [assumption | reflexivity | lia].
  - unfold format_1f. rewrite Hx. reflexivity.
Qed.

(** X8.  [retrain_model] returns as soon as [random.randint] accepts a
    draw, and not within the fuel when each of the first [fuel] draws is
    rejected (the bits kept of it make 7).  It then answers 200, has not
    called [predict_traffic], and has consumed the [j] draws rejected and
    two more; the new version is [v1.2.k] with [k] from 4 to 10, which is
    4 more than the three bits kept of the accepted draw, and the accuracy
    improvement is a number of tenths from [+0.5%] to [+2.0%].  The draw
    behind the improvement, the next one, is a value of [random.random()],
    in [[0, 1)]. *)
Theorem retrain_model_response (fuel : nat) (w : World) :
  match rejections fuel 7 (rng w) with
  | Some j =>
      unit_draw (d_unit (rng w (S j))) = true ->
      exists (k n : Z) (s' : Source),
        4 <= k <= 10 /\ 5 <= n <= 20 /\
        k = 4 + d_int (rng w j) mod 8 /\
        retrain_model fuel w =
          Some (Ok200 {| status := "Training completed";
                         new_version := "v1.2." ++ str_of_Z k;
                         training_time := "2.3 seconds (simulated)";
                         accuracy_improvement :=
                           "+" ++ (str_of_Z (n / 10) ++ "." ++
                                   str_of_Z (n mod 10)) ++ "%" |},
                {| rng := s'; core_calls := core_calls w |}) /\
        consumed (j + 2) (rng w) s'
  | None => retrain_model fuel w = None
  end.
Proof.
  pose proof (randbelow_spec fuel 7 (rng w)) as Hspec.
  unfold retrain_model, retrain_body, randint, after, done, lift.
  change (10 - 4 + 1) with 7.
  destruct (rejections fuel 7 (rng w)) as [j | ].
  - destruct Hspec as (s1 & Hrun & Hc & Hb). intros Hu.
    rewrite Hrun. unfold uniform, random, bind, ret.
    assert (H1 : s1 0%nat = rng w (S j)) by (rewrite Hc; f_equal; lia).
    rewrite H1.
    destruct (uniform_half_2 _ Hu) as [H0 H2].
    destruct (format_1f_half_2 _ H0 H2) as (n & Hn & Hfmt).
    change (2 ^ bit_length 7) with 8 in *.
    exists (4 + d_int (rng w j) mod 8), n, (advance s1).
    split; [lia | split; [exact Hn | split; [reflexivity | split]]].
    + rewrite Hfmt. reflexivity.
    + intros i. unfold advance. rewrite Hc. f_equal. lia.
  - rewrite Hspec. reflexivity.
Qed.

End RetrainProps.

Section GeneratorMore.
Import Py Random Round Binary64 SampleDataGenerator Streams.

Lemma density_by_hour_consumes (hour : Z) (s : Source) :
  snd (generate_traffic_density_by_hour hour s) = advance s.
Proof.
  unfold generate_traffic_density_by_hour.
  destruct (((7 <=? hour) && (hour <=? 9)) || ((17 <=? hour) && (hour <=? 19)));
    [ | destruct ((22 <=? hour) || (hour <=? 6))]; reflexivity.
Qed.

(** The weekend step tosses its coin on a weekend day for a HIGH density
    only. *)
Lemma weekend_adjustment_consumes (weekday : Z) (density : TrafficDensity) (s : Source) :
  snd (weekend_adjustment weekday density s) =
  if (weekday >=? 5) && density_eqb density HIGH then advance s else s.
Proof.
  unfold weekend_adjustment.
  destruct (weekday >=? 5); [ | reflexivity].
  destruct density; cbn [density_eqb andb]; try reflexivity.
  unfold bind, random, ret.
  destruct (d_unit (s 0%nat) <? 0.5)%float; reflexivity.
Qed.

(** The weather step tosses its coin in RAIN or FOG for a MODERATE density
    only. *)
Lemma weather_impact_consumes (weather : string) (density : TrafficDensity) (s : Source) :
  snd (weather_impact weather density s) =
  if str_in weather ["RAIN"; "FOG"]%string && density_eqb density MODERATE
  then advance s else s.
Proof.
  unfold weather_impact.
  destruct (str_in weather ["RAIN"; "FOG"]%string); [ | reflexivity].
  destruct density; cbn [density_eqb andb]; try reflexivity.
  unfold bind, random, ret.
  destruct (d_unit (s 0%nat) <? 0.3)%float; reflexivity.
Qed.

Lemma generate_average_speed_consumes (density : TrafficDensity) (s : Source) :
  snd (generate_average_speed density s) = advance s.
Proof. destruct density; reflexivity. Qed.

Lemma consumed_if (c : bool) (s : Source) :
  consumed (if c then 1 else 0) s (if c then advance s else s).
Proof. destruct c; intros n; reflexivity. Qed.

Lemma consumed_drop (k : nat) (s s' : Source) :
  consumed k s s' -> forall i, s' i = drop k s i.
Proof. intros H i. apply H. Qed.

(** The loop of [_randbelow] reads the draws only. *)
Lemma rejections_ext (fuel : nat) (n : Z) :
  forall s s' : Source, (forall i, s i = s' i) ->
  rejections fuel n s = rejections fuel n s'.
Proof.
  induction fuel as [ | fuel IH]; intros s s' H; [reflexivity | ].
  cbn [rejections]. rewrite (H 0%nat).
  rewrite (IH (advance s) (advance s')); [reflexivity | ].
  intros i. apply H.
Qed.

(** What [random.choice(WEATHER_CONDITIONS)] returns. *)
Lemma choice_weather (fuel : nat) (s : Source) (weather : string) (s' : Source) :
  choice fuel WEATHER_CONDITIONS "CLEAR"%string s = Some (weather, s') ->
  In weather WEATHER_CONDITIONS /\
  exists j, rejections fuel (len WEATHER_CONDITIONS) s = Some j /\
            consumed (S j) s s'.
Proof.
  unfold choice, after, done. intros H.
  destruct (randbelow fuel (len WEATHER_CONDITIONS) s) as [[r s1] | ] eqn:Hr;
    [ | discriminate].
  inversion H; subst.
  destruct (randbelow_returns _ _ _ _ _ Hr) as (j & Hj & Hc & Hb).
  split; [ | eauto].
  unfold item. apply nth_In.
  change (len WEATHER_CONDITIONS) with 4 in Hb.
  change (List.length WEATHER_CONDITIONS) with 4%nat. lia.
Qed.

(** The run of [generate_traffic_data] that returns, with the streams
    between its steps. *)
Lemma generate_traffic_data_steps (fuel : nat) (loc : Location) (ts : Timestamp)
    (s : Source) (o : Observation) (s' : Source) :
  generate_traffic_data fuel loc ts s = Some (o, s') ->
  let r1 := generate_traffic_density_by_hour (ts_hour ts) s in
  let r2 := weekend_adjustment (ts_weekday ts) (fst r1) (snd r1) in
  exists s3 s7 : Source,
    choice fuel WEATHER_CONDITIONS "CLEAR"%string (snd r2) =
      Some (weatherCondition o, s3) /\
    let r4 := weather_impact (weatherCondition o) (fst r2) s3 in
    trafficDensity o = fst r4 /\
    generate_vehicle_count fuel (fst r4) (advance (advance (snd r4))) =
      Some (vehicleCount o, s7) /\
    averageSpeed o = fst (generate_average_speed (fst r4) s7) /\
    s' = advance s7 /\
    location o = name loc /\ timestamp o = ts_strftime ts.
Proof.
  intros H. pose proof (generate_traffic_data_run fuel loc ts s) as Hrun.
  cbv zeta in *.
  destruct (choice fuel WEATHER_CONDITIONS "CLEAR"%string _) as [[weather s3] | ];
    [ | congruence].
  destruct (generate_vehicle_count fuel _ _) as [[count s7] | ] eqn:Hc; [ | congruence].
  rewrite Hrun in H. inversion H; subst o s'.
  cbn [trafficDensity weatherCondition vehicleCount averageSpeed location timestamp].
  exists s3, s7. rewrite generate_average_speed_consumes.
  repeat split; try reflexivity. exact Hc.
Qed.

(** Where the draws of a returned observation are in the stream: the
    draws that [random.choice] and [random.randint] reject, [j1] and [j2],
    and the draw behind the speed, which is the last one. *)
Lemma generate_traffic_data_trace (fuel : nat) (loc : Location) (ts : Timestamp)
    (s : Source) (o : Observation) (s' : Source) :
  generate_traffic_data fuel loc ts s = Some (o, s') ->
  let r1 := generate_traffic_density_by_hour (ts_hour ts) s in
  let r2 := weekend_adjustment (ts_weekday ts) (fst r1) (snd r1) in
  let weekend_coin := (ts_weekday ts >=? 5) && density_eqb (fst r1) HIGH in
  let weather_coin :=
    str_in (weatherCondition o) ["RAIN"; "FOG"]%string &&
    density_eqb (fst r2) MODERATE in
  let one (c : bool) := if c then 1%nat else 0%nat in
  let width := snd (density_ranges (trafficDensity o)) -
               fst (density_ranges (trafficDensity o)) + 1 in
  exists (j1 j2 : nat) (s7 : Source),
    rejections fuel (len WEATHER_CONDITIONS) (drop (1 + one weekend_coin) s) =
      Some j1 /\
    rejections fuel width
      (drop (1 + one weekend_coin + S j1 + one weather_coin + 2) s) = Some j2 /\
    consumed (5 + one weekend_coin + one weather_coin + j1 + j2) s s7 /\
    averageSpeed o = fst (generate_average_speed (trafficDensity o) s7) /\
    s' = advance s7.
Proof.
  intros H. cbv zeta.
  destruct (generate_traffic_data_steps fuel loc ts s o s' H)
    as (s3 & s7 & Hchoice & Hd & Hcount & Hspeed & Hs' & _).
  cbv zeta in *.
  set (r1 := generate_traffic_density_by_hour (ts_hour ts) s) in *.
  set (r2 := weekend_adjustment (ts_weekday ts) (fst r1) (snd r1)) in *.
  set (r4 := weather_impact (weatherCondition o) (fst r2) s3) in *.
  set (b1 := (ts_weekday ts >=? 5) && density_eqb (fst r1) HIGH).
  set (b2 := str_in (weatherCondition o) ["RAIN"; "FOG"]%string &&
             density_eqb (fst r2) MODERATE).
  (* the stream before [random.choice] *)
  assert (C2 : consumed (1 + if b1 then 1 else 0) s (snd r2)).
  { unfold r2. rewrite weekend_adjustment_consumes. fold b1.
    apply (consumed_trans 1 _ s (snd r1)); [ | apply consumed_if].
    unfold r1. rewrite density_by_hour_consumes. apply consumed_advance. }
  destruct (choice_weather fuel (snd r2) _ s3 Hchoice) as (_ & j1 & Hj1 & C3).
  (* the stream before [random.randint] *)
  assert (C6 : consumed ((if b2 then 1 else 0) + 2) s3 (advance (advance (snd r4)))).
  { unfold r4. rewrite weather_impact_consumes. fold b2.
    apply (consumed_trans _ 2 s3 (if b2 then advance s3 else s3));
      [apply consumed_if | intros n; reflexivity]. }
  pose proof (generate_vehicle_count_spec fuel (fst r4) (advance (advance (snd r4))))
    as Hspec.
  cbv zeta in Hspec. rewrite Hcount in Hspec. destruct Hspec as (_ & j2 & Hj2 & C7).
  pose proof (consumed_trans _ _ _ _ _ C2 C3) as C23.
  pose proof (consumed_trans _ _ _ _ _ C23 C6) as C26.
  pose proof (consumed_trans _ _ _ _ _ C26 C7) as C27.
  exists j1, j2, s7. split; [ | split; [ | split; [ | split]]].
  - rewrite <- Hj1. apply rejections_ext. intros i. symmetry. apply C2.
  - rewrite Hd, <- Hj2. apply rejections_ext. intros i. symmetry.
    unfold drop. rewrite C26. f_equal. lia.
  - intros n. rewrite C27. f_equal. lia.
  - rewrite Hd. exact Hspeed.
  - exact Hs'.
Qed.

(** X9.  An observation that is returned has consumed six draws, one more
    when the weekend step tosses its coin (a weekend day and a HIGH drawn
    density), one more when the weather step tosses its coin (RAIN or FOG
    and a MODERATE density after the weekend step), and the draws that
    [random.choice] and [random.randint] have rejected, [j1] and [j2]:
    the stream it leaves is the stream it was given without them. *)
Theorem generate_traffic_data_consumes (fuel : nat) (loc : Location) (ts : Timestamp)
    (s : Source) (o : Observation) (s' : Source) :
  generate_traffic_data fuel loc ts s = Some (o, s') ->
  let r1 := generate_traffic_density_by_hour (ts_hour ts) s in
  let r2 := weekend_adjustment (ts_weekday ts) (fst r1) (snd r1) in
  let weekend_coin := (ts_weekday ts >=? 5) && density_eqb (fst r1) HIGH in
  let weather_coin :=
    str_in (weatherCondition o) ["RAIN"; "FOG"]%string &&
    density_eqb (fst r2) MODERATE in
  let one (c : bool) := if c then 1%nat else 0%nat in
  let width := snd (density_ranges (trafficDensity o)) -
               fst (density_ranges (trafficDensity o)) + 1 in
  exists j1 j2 : nat,
    rejections fuel (len WEATHER_CONDITIONS) (drop (1 + one weekend_coin) s) =
      Some j1 /\
    rejections fuel width
      (drop (1 + one weekend_coin + S j1 + one weather_coin + 2) s) = Some j2 /\
    consumed (6 + one weekend_coin + one weather_coin + j1 + j2) s s'.
Proof.
  intros H.
  destruct (generate_traffic_data_trace fuel loc ts s o s' H)
    as (j1 & j2 & s7 & Hj1 & Hj2 & Hc & _ & Hs').
  cbv zeta in *. exists j1, j2. split; [exact Hj1 | split; [exact Hj2 | ]].
  subst s'. intros n. unfold advance. rewrite Hc. f_equal. lia.
Qed.

Lemma well_formed_advance (s : Source) : well_formed s -> well_formed (advance s).
Proof. intros H n. apply H. Qed.

(** X10.  Every observation built on a stream of draws of [[0, 1)] is
    consistent: it carries the name of the location and the formatted
    timestamp as given, its weather is one of WEATHER_CONDITIONS, and its
    vehicle count and its average speed lie in the ranges of the density it
    reports, the speed with one decimal place. *)
Theorem observation_consistent (fuel : nat) (loc : Location) (ts : Timestamp)
    (s : Source) (o : Observation) (s' : Source) :
  well_formed s ->
  generate_traffic_data fuel loc ts s = Some (o, s') ->
  location o = name loc /\ timestamp o = ts_strftime ts /\
  In (weatherCondition o) WEATHER_CONDITIONS /\
  match trafficDensity o with
  | LOW => 5 <= vehicleCount o <= 20 /\ speed_within 40 60 (averageSpeed o)
  | MODERATE => 21 <= vehicleCount o <= 50 /\ speed_within 20 40 (averageSpeed o)
  | HIGH => 51 <= vehicleCount o <= 80 /\ speed_within 10 25 (averageSpeed o)
  | CRITICAL => 81 <= vehicleCount o <= 120 /\ speed_within 2 15 (averageSpeed o)
  end.
Proof.
  intros Hs H.
  destruct (generate_traffic_data_trace fuel loc ts s o s' H)
    as (j1 & j2 & s7 & _ & _ & Hc & Hspeed & _).
  destruct (generate_traffic_data_steps fuel loc ts s o s' H)
    as (s3 & s7' & Hchoice & Hd & Hcount & _ & _ & Hloc & Hts).
  cbv zeta in *.
  destruct (choice_weather fuel _ _ s3 Hchoice) as (Hin & _).
  split; [exact Hloc | split; [exact Hts | split; [exact Hin | ]]].
  rewrite <- Hd in Hcount.
  assert (Hrange : fst (density_ranges (trafficDensity o)) <= vehicleCount o
                   <= snd (density_ranges (trafficDensity o))).
  { match type of Hcount with
    | generate_vehicle_count _ _ ?t = _ =>
        pose proof (generate_vehicle_count_spec fuel (trafficDensity o) t) as Hspec
    end.
    cbv zeta in Hspec. rewrite Hcount in Hspec. apply Hspec. }
  (* the draw behind the speed is a draw of [s] *)
  assert (W7 : unit_draw (d_unit (s7 0%nat)) = true) by (rewrite Hc; apply Hs).
  rewrite Hspeed, generate_average_speed_eq. cbv zeta.
  destruct (trafficDensity o); cbn [density_ranges fst snd] in Hrange;
    (split; [exact Hrange | ]).
  - apply speed_40_60, W7.
  - apply speed_20_40, W7.
  - apply speed_10_25, W7.
  - apply speed_2_15, W7.
Qed.

Lemma weather_impact_not_low (weather : string) (density : TrafficDensity) (s : Source) :
  str_in weather ["RAIN"; "FOG"]%string = true ->
  fst (weather_impact weather density s) <> LOW.
Proof.
  intros H. unfold weather_impact. rewrite H.
  destruct density; cbn [density_eqb]; try (cbn; discriminate).
  unfold bind, random, ret.
  destruct (d_unit (s 0%nat) <? 0.3)%float; cbn; discriminate.
Qed.

(** X11.  An observation in RAIN or FOG never has the density LOW: the weather
    step always lifts LOW to MODERATE. *)
Theorem rain_or_fog_is_never_low (fuel : nat) (loc : Location) (ts : Timestamp)
    (s : Source) (o : Observation) (s' : Source) :
  generate_traffic_data fuel loc ts s = Some (o, s') ->
  weatherCondition o = "RAIN"%string \/ weatherCondition o = "FOG"%string ->
  trafficDensity o <> LOW.
Proof.
  intros Hrun H.
  destruct (generate_traffic_data_density fuel loc ts s o s' Hrun) as (s3 & ->).
  apply weather_impact_not_low.
  destruct H as [-> | ->]; reflexivity.
Qed.

Lemma weekend_adjustment_not_critical (weekday : Z) (density : TrafficDensity)
    (s : Source) :
  5 <= weekday -> fst (weekend_adjustment weekday density s) <> CRITICAL.
Proof.
  intros H. unfold weekend_adjustment.
  replace (weekday >=? 5) with true by (symmetry; apply Z.geb_le; lia).
  destruct density; cbn [density_eqb]; try (cbn; discriminate).
  unfold bind, random, ret.
  destruct (d_unit (s 0%nat) <? 0.5)%float; cbn; discriminate.
Qed.

(** The weather step returns CRITICAL only for CRITICAL. *)
Lemma weather_impact_critical (weather : string) (density : TrafficDensity)
    (s : Source) :
  fst (weather_impact weather density s) = CRITICAL <-> density = CRITICAL.
Proof.
  split.
  - intros H. destruct density; try reflexivity; exfalso;
      apply (weather_impact_not_critical weather _ s) in H;
      try exact H; discriminate.
  - intros ->. unfold weather_impact.
    destruct (str_in weather ["RAIN"; "FOG"]%string); reflexivity.
Qed.

(** X12.  An observation is CRITICAL exactly when the weighted draw of its
    hour is CRITICAL and its day is not a weekend day: neither the weekend
    step nor the weather step ever produces CRITICAL, and the weekend step
    always removes it.  In particular no observation of a Saturday or a
    Sunday is CRITICAL. *)
Theorem observation_critical_iff (fuel : nat) (loc : Location) (ts : Timestamp)
    (s : Source) (o : Observation) (s' : Source) :
  generate_traffic_data fuel loc ts s = Some (o, s') ->
  (trafficDensity o = CRITICAL <->
   fst (generate_traffic_density_by_hour (ts_hour ts) s) = CRITICAL /\
   ts_weekday ts < 5).
Proof.
  intros Hrun.
  destruct (generate_traffic_data_density fuel loc ts s o s' Hrun) as (s3 & ->).
  rewrite weather_impact_critical.
  set (r1 := generate_traffic_density_by_hour (ts_hour ts) s).
  destruct (Z.lt_ge_cases (ts_weekday ts) 5) as [Hw | Hw].
  - unfold weekend_adjustment.
    replace (ts_weekday ts >=? 5) with false
      by (symmetry; rewrite Z.geb_leb; apply Z.leb_gt; lia).
    cbn [ret fst]. tauto.
  - split.
    + intros H. exfalso.
      apply (weekend_adjustment_not_critical _ (fst r1) (snd r1) Hw H).
    + intros [_ H]. lia.
Qed.

(** X13.  The count ranges are disjoint and ordered like the severities:
    whatever the draws, a less severe density gets a strictly smaller
    vehicle count, so the count of an observation tells its density. *)
Theorem vehicle_count_orders_densities (fuel1 fuel2 : nat) (d1 d2 : TrafficDensity)
    (s1 s2 : Source) (count1 count2 : Z) (s1' s2' : Source) :
  generate_vehicle_count fuel1 d1 s1 = Some (count1, s1') ->
  generate_vehicle_count fuel2 d2 s2 = Some (count2, s2') ->
  severity d1 < severity d2 ->
  count1 < count2.
Proof.
  intros H1 H2 H.
  pose proof (generate_vehicle_count_spec fuel1 d1 s1) as Ha.
  pose proof (generate_vehicle_count_spec fuel2 d2 s2) as Hb.
  cbv zeta in Ha, Hb. rewrite H1 in Ha. rewrite H2 in Hb.
  destruct Ha as [Ha _]. destruct Hb as [Hb _].
  destruct d1, d2; vm_compute in H; cbn [density_ranges fst snd] in Ha, Hb;
    try discriminate; lia.
Qed.

(** X15.  The weights of [generate_traffic_density_by_hour] act as thresholds
    on [x = random() * 100.0]: in rush hours LOW below 5, MODERATE below
    20, HIGH below 70, CRITICAL otherwise; at night LOW below 70, MODERATE
    below 95, HIGH below 100; in regular hours LOW below 20, MODERATE below
    70, HIGH below 95, CRITICAL otherwise. *)
Theorem density_by_hour_thresholds (hour : Z) (s : Source) :
  let x := (d_unit (s 0%nat) * 100)%float in
  let pick (t0 t1 t2 : float) :=
    if (x <? t1)%float then (if (x <? t0)%float then LOW else MODERATE)
    else (if (x <? t2)%float then HIGH else CRITICAL) in
  fst (generate_traffic_density_by_hour hour s) =
    if ((7 <=? hour) && (hour <=? 9)) || ((17 <=? hour) && (hour <=? 19))
    then pick 5%float 20%float 70%float
    else if (22 <=? hour) || (hour <=? 6)
    then pick 70%float 95%float 100%float
    else pick 20%float 70%float 95%float.
Proof.
  cbv zeta. unfold generate_traffic_density_by_hour.
  destruct (((7 <=? hour) && (hour <=? 9)) || ((17 <=? hour) && (hour <=? 19)));
    [ | destruct ((22 <=? hour) || (hour <=? 6))];
    cbv -[PrimFloat.ltb PrimFloat.mul d_unit];
    repeat match goal with
           | |- context [PrimFloat.ltb ?a ?b] => destruct (PrimFloat.ltb a b)
           end;
    reflexivity.
Qed.

End GeneratorMore.

Section SpeedOrder.
Import Py Random Round Binary64 SampleDataGenerator.

(** [<=] on doubles is transitive through a positive finite double. *)
Lemma leb_trans_through (x c y : float) (mc : positive) (ec : Z) :
  Prim2SF c = S754_finite false mc ec ->
  (x <=? c)%float = true -> (c <=? y)%float = true -> (x <=? y)%float = true.
Proof.
  intros Hc. rewrite !leb_spec, Hc.
  destruct (Prim2SF x) as [sx | sx | | sx mx ex];
    destruct (Prim2SF y) as [sy | sy | | sy my ey];
    try discriminate; try (destruct sx; discriminate);
    try (destruct sy; discriminate);
    try (destruct sx, sy; (reflexivity || discriminate)).
  destruct sx, sy; try reflexivity; try discriminate.
  intros H1 H2. apply SFleb_finite_inv in H1. apply SFleb_finite_inv in H2.
  apply SFleb_finite. lia.
Qed.

Lemma speed_in_range (density : TrafficDensity) (s : Source) :
  unit_draw (d_unit (s 0%nat)) = true ->
  speed_within (fst (speed_ranges density)) (snd (speed_ranges density))
    (fst (generate_average_speed density s)).
Proof.
  intros Hu. rewrite generate_average_speed_eq. cbv zeta.
  destruct density; cbn [speed_ranges fst snd].
  - apply speed_40_60, Hu.
  - apply speed_20_40, Hu.
  - apply speed_10_25, Hu.
  - apply speed_2_15, Hu.
Qed.

(** X14.  When the speed range of a density lies at or below the speed range
    of another (MODERATE, HIGH and CRITICAL against LOW; CRITICAL against
    MODERATE), every speed generated for the first is at most every speed
    generated for the second.  The draws are values of [random.random()]. *)
Theorem speed_orders_separated_densities (d1 d2 : TrafficDensity) (s1 s2 : Source) :
  unit_draw (d_unit (s1 0%nat)) = true ->
  unit_draw (d_unit (s2 0%nat)) = true ->
  snd (speed_ranges d2) <= fst (speed_ranges d1) ->
  (fst (generate_average_speed d2 s2) <=? fst (generate_average_speed d1 s1))%float
    = true.
Proof.
  intros H1 H2 H.
  destruct (speed_in_range d1 s1 H1) as (Hlo1 & _ & _).
  destruct (speed_in_range d2 s2 H2) as (_ & Hhi2 & _).
  destruct d1, d2; cbn [speed_ranges fst snd] in H, Hlo1, Hhi2; try lia.
  - apply (leb_trans_through _ 40 _ 5629499534213120 (-47) eq_refl); assumption.
  - eapply (leb_trans_through _ 25 _ _ _ eq_refl); [exact Hhi2 | ].
    eapply (leb_trans_through _ 40 _ _ _ eq_refl); [reflexivity | exact Hlo1].
  - eapply (leb_trans_through _ 15 _ _ _ eq_refl); [exact Hhi2 | ].
    eapply (leb_trans_through _ 40 _ _ _ eq_refl); [reflexivity | exact Hlo1].
  - eapply (leb_trans_through _ 15 _ _ _ eq_refl); [exact Hhi2 | ].
    eapply (leb_trans_through _ 20 _ _ _ eq_refl); [reflexivity | exact Hlo1].
Qed.

End SpeedOrder.

Section HistoricalProps.
Import Py Random SampleDataGenerator Streams Datetime HistoricalData.
Variable strftime : datetime -> string.
Variable token : string.

Lemma created_bounds (n : nat) : forall net, 0 <= created net n <= Z.of_nat n.
Proof.
  induction n as [ | k IH]; intros net; [cbn; lia | ].
  cbn [created]. specialize (IH (fun i => net (S i))).
  destruct (net 0%nat) as [code | msg]; [ | lia].
  destruct (Z.eq_dec code 201) as [-> | Hne]; [lia | ].
  assert (match code with 201 => 1 | _ => 0 end = 0); [ | lia].
  destruct code as [ | p | p]; try reflexivity.
  do 8 (destruct p as [p | p | ]; try reflexivity); congruence.
Qed.

Lemma created_ext (n : nat) :
  forall net net', (forall i, net i = net' i) -> created net n = created net' n.
Proof.
  induction n as [ | k IH]; intros net net' H; [reflexivity | ].
  cbn [created]. rewrite (H 0%nat). f_equal. apply IH. intros i. apply H.
Qed.

Lemma created_add (a : nat) :
  forall (b : nat) net,
  created net (a + b) = created net a + created (fun i => net (a + i)%nat) b.
Proof.
  induction a as [ | k IH]; intros b net; [cbn; reflexivity | ].
  cbn [Nat.add created]. rewrite IH. cbn [Nat.add]. lia.
Qed.

Lemma created_201 (code : Z) :
  (if code =? 201 then 1 else 0) = match code with 201 => 1 | _ => 0 end.
Proof.
  destruct (Z.eqb_spec code 201) as [-> | Hne]; [reflexivity | ].
  destruct code as [ | p | p]; try reflexivity.
  do 8 (destruct p as [p | p | ]; try reflexivity); congruence.
Qed.

(** Nothing to do. *)
Lemma backfill_nil_locations (t : datetime) (c : Counters) (st : Script) :
  backfill strftime [] [t] c st c st.
Proof.
  unfold backfill, expected_posts. cbn.
  split; [lia | split; [lia | split; [reflexivity | split]]].
  - exists []. rewrite app_nil_r. split; reflexivity.
  - exists []. rewrite app_nil_r. reflexivity.
Qed.

(** One location after another, at one instant. *)
Lemma backfill_app_locations (t : datetime) (l1 l2 : list Location)
    (c c1 c2 : Counters) (st st1 st2 : Script) :
  backfill strftime l1 [t] c st c1 st1 ->
  backfill strftime l2 [t] c1 st1 c2 st2 ->
  backfill strftime (l1 ++ l2) [t] c st c2 st2.
Proof.
  unfold backfill, expected_posts. cbn [List.length flat_map].
  rewrite !app_nil_r, !Nat.mul_1_r, length_app.
  intros (A1 & A2 & A3 & (n1 & A4 & A5) & (o1 & A6))
         (B1 & B2 & B3 & (n2 & B4 & B5) & (o2 & B6)).
  split; [ | split; [ | split; [ | split]]].
  - rewrite B1, A1. lia.
  - rewrite B2, A2, created_add.
    rewrite (created_ext _ (s_net st1) (fun i => s_net st (List.length l1 + i)%nat) A3).
    lia.
  - intros n. rewrite B3, A3. f_equal; lia.
  - exists (n1 ++ n2). split.
    + rewrite B4, A4, <- app_assoc. reflexivity.
    + rewrite !map_app, A5, B5. reflexivity.
  - exists (o1 ++ o2). rewrite B6, A6, <- app_assoc. reflexivity.
Qed.

(** One instant after another. *)
Lemma backfill_cons_time (t : datetime) (times : list datetime)
    (locations : list Location) (c c1 c2 : Counters) (st st1 st2 : Script) :
  backfill strftime locations [t] c st c1 st1 ->
  backfill strftime locations times c1 st1 c2 st2 ->
  backfill strftime locations (t :: times) c st c2 st2.
Proof.
  unfold backfill, expected_posts. cbn [List.length flat_map].
  rewrite !app_nil_r, !Nat.mul_1_r, Nat.mul_succ_r.
  set (a := List.length locations). set (b := (a * List.length times)%nat).
  intros (A1 & A2 & A3 & (n1 & A4 & A5) & (o1 & A6))
         (B1 & B2 & B3 & (n2 & B4 & B5) & (o2 & B6)).
  replace (b + a)%nat with (a + b)%nat by lia.
  split; [ | split; [ | split; [ | split]]].
  - rewrite B1, A1. lia.
  - rewrite B2, A2, created_add.
    rewrite (created_ext _ (s_net st1) (fun i => s_net st (a + i)%nat) A3). lia.
  - intros n. rewrite B3, A3. f_equal; lia.
  - exists (n1 ++ n2). split.
    + rewrite B4, A4, <- app_assoc. reflexivity.
    + rewrite !map_app, A5, B5. reflexivity.
  - exists (o1 ++ o2). rewrite B6, A6, <- app_assoc. reflexivity.
Qed.

Lemma fair_advance (bounds : list Z) (fuel : nat) (s : Source) :
  fair bounds fuel s -> fair bounds fuel (advance s).
Proof. apply (consumed_fair bounds fuel 1 s (advance s)), consumed_advance. Qed.

Lemma width_in_arguments (density : TrafficDensity) :
  In (snd (density_ranges density) - fst (density_ranges density) + 1)
    randbelow_arguments.
Proof. destruct density; cbn; auto 10. Qed.

(** On a stream on which the loops of [_randbelow] end within the fuel,
    [generate_traffic_data] returns an observation of the location and of
    the instant, and it leaves such a stream. *)
Lemma generate_traffic_data_fair (fuel : nat) (loc : Location) (ts : Timestamp)
    (s : Source) :
  fair randbelow_arguments fuel s ->
  exists o s',
    generate_traffic_data fuel loc ts s = Some (o, s') /\
    fair randbelow_arguments fuel s' /\
    location o = name loc /\ timestamp o = ts_strftime ts.
Proof.
  intros Hs.
  pose proof (generate_traffic_data_run fuel loc ts s) as Hrun. cbv zeta in Hrun.
  set (r1 := generate_traffic_density_by_hour (ts_hour ts) s) in *.
  set (r2 := weekend_adjustment (ts_weekday ts) (fst r1) (snd r1)) in *.
  assert (F2 : fair randbelow_arguments fuel (snd r2)).
  { unfold r2. rewrite weekend_adjustment_consumes.
    assert (F1 : fair randbelow_arguments fuel (snd r1))
      by (unfold r1; rewrite density_by_hour_consumes; apply fair_advance, Hs).
    destruct (_ && _); [apply fair_advance | ]; exact F1. }
  destruct (choice fuel WEATHER_CONDITIONS "CLEAR"%string (snd r2))
    as [[weather s3] | ] eqn:Hc.
  - destruct (choice_weather fuel _ _ _ Hc) as (_ & j1 & _ & C3).
    pose proof (consumed_fair _ _ _ _ _ C3 F2) as F3.
    set (r4 := weather_impact weather (fst r2) s3) in *.
    assert (F6 : fair randbelow_arguments fuel (advance (advance (snd r4)))).
    { do 2 apply fair_advance. unfold r4. rewrite weather_impact_consumes.
      destruct (_ && _); [apply fair_advance | ]; exact F3. }
    change (snd (uniform (-0.001) 0.001 (snd (uniform (-0.001) 0.001 (snd r4)))))
      with (advance (advance (snd r4))) in Hrun.
    pose proof (generate_vehicle_count_spec fuel (fst r4) (advance (advance (snd r4))))
      as Hspec.
    cbv zeta in Hspec.
    destruct (generate_vehicle_count fuel (fst r4) (advance (advance (snd r4))))
      as [[count s7] | ].
    + destruct Hspec as (_ & j2 & _ & C7).
      do 2 eexists. split; [exact Hrun | ].
      split; [ | split; reflexivity].
      cbn [snd]. rewrite generate_average_speed_consumes.
      apply fair_advance. apply (consumed_fair _ _ _ _ _ C7 F6).
    + exfalso.
      destruct (fair_rejections _ _ _ _ F6 (width_in_arguments (fst r4))) as (j & Hj).
      congruence.
  - exfalso. unfold choice, after in Hc.
    pose proof (randbelow_spec fuel (len WEATHER_CONDITIONS) (snd r2)) as Hspec.
    destruct (fair_rejections _ _ (len WEATHER_CONDITIONS) _ F2 ltac:(left; reflexivity))
      as (j & Hj).
    rewrite Hj in Hspec. destruct Hspec as (s' & Hr & _).
    rewrite Hr in Hc. discriminate.
Qed.

(** One turn of the loop over the locations: one observation is built
    and posted, and counted. *)
Lemma for_locations_backfill (fuel : nat) (t : datetime) (locations : list Location) :
  forall (c : Counters) (st : Script),
  fair randbelow_arguments fuel (s_rng st) ->
  exists c' st',
    for_locations strftime fuel token t locations c st = Some (c', st') /\
    backfill strftime locations [t] c st c' st' /\
    fair randbelow_arguments fuel (s_rng st').
Proof.
  induction locations as [ | loc rest IH]; intros c st Hfair.
  - exists c, st. split; [reflexivity | split; [apply backfill_nil_locations | exact Hfair]].
  - cbn [for_locations].
    destruct (generate_traffic_data_fair fuel loc (timestamp_of strftime t) (s_rng st) Hfair)
      as (o & rng' & Hg & Hfair' & Ho1 & Ho2).
    rewrite Hg. cbn [ts_strftime timestamp_of] in Ho2.
    assert (Hstep : forall (st1 : Script) (c1 : Counters),
               s_rng st1 = rng' ->
               (forall n, s_net st1 n = s_net st (S n)) ->
               s_posted st1 = s_posted st ++ [o] ->
               (exists lines, s_out st1 = s_out st ++ lines) ->
               total_records c1 = total_records c + 1 ->
               successful_records c1 =
                 successful_records c +
                 match s_net st 0%nat with Status 201 => 1 | _ => 0 end ->
               exists c' st',
                 for_locations strftime fuel token t rest c1 st1 = Some (c', st') /\
                 backfill strftime (loc :: rest) [t] c st c' st' /\
                 fair randbelow_arguments fuel (s_rng st')).
    { intros st1 c1 Hrng Hnet Hposted Hout Htot Hsucc.
      destruct (IH c1 st1) as (c' & st' & Hrun & Hb & Hf).
      { rewrite Hrng. exact Hfair'. }
      exists c', st'. split; [exact Hrun | split; [ | exact Hf]].
      apply (backfill_app_locations t [loc] rest c c1 c' st st1 st'); [ | exact Hb].
      unfold backfill, expected_posts.
      cbn [List.length Nat.mul Nat.add flat_map map app created].
      split; [lia | split; [lia | split; [exact Hnet | split]]].
      - exists [o]. split; [exact Hposted | ].
        cbn [map]. rewrite Ho1, Ho2. reflexivity.
      - exact Hout. }
    unfold ingest_traffic_data. cbn [s_rng s_net s_posted s_out].
    destruct (s_net st 0%nat) as [code | msg] eqn:Hnet0.
    + rewrite <- created_201 in Hstep.
      destruct (code =? 201).
      * destruct ((successful_records c + 1) mod 50 =? 0);
          apply Hstep; cbn; auto;
          try (eexists; rewrite app_nil_r; reflexivity);
          try (eexists; reflexivity).
      * apply Hstep; cbn; auto; try lia.
        exists []. rewrite app_nil_r. reflexivity.
    + apply Hstep; cbn; auto; try lia.
      eexists. reflexivity.
Qed.

(** The loop over the cities visits their locations in order. *)
Lemma for_cities_backfill (fuel : nat) (t : datetime)
    (cities : list (string * list Location)) :
  forall (c : Counters) (st : Script),
  fair randbelow_arguments fuel (s_rng st) ->
  exists c' st',
    for_cities strftime fuel token t cities c st = Some (c', st') /\
    backfill strftime (flat_map snd cities) [t] c st c' st' /\
    fair randbelow_arguments fuel (s_rng st').
Proof.
  induction cities as [ | [city locations] rest IH]; intros c st Hfair.
  - exists c, st. split; [reflexivity | split; [apply backfill_nil_locations | exact Hfair]].
  - cbn [for_cities flat_map snd].
    destruct (for_locations_backfill fuel t locations c st Hfair)
      as (c1 & st1 & H1 & B1 & F1).
    rewrite H1.
    destruct (IH c1 st1 F1) as (c2 & st2 & H2 & B2 & F2).
    exists c2, st2. split; [exact H2 | split; [ | exact F2]].
    eapply backfill_app_locations; [exact B1 | exact B2].
Qed.

(** The [while] loop from [current] to an [end_time] that is [k] whole
    hours later makes [k + 1] passes and returns. *)
Lemma while_loop_run (fuel : nat) (k : nat) :
  forall (turns : nat) (current end_time : datetime) (c : Counters) (st : Script),
  (k + 2 <= turns)%nat ->
  end_time = current + Z.of_nat k * US_PER_HOUR ->
  end_time + US_PER_HOUR <= MAX ->
  fair randbelow_arguments fuel (s_rng st) ->
  exists c' st',
    while_loop strftime turns fuel token current end_time c st = Returned c' st' /\
    backfill strftime (flat_map snd CITIES) (hours current (S k)) c st c' st'.
Proof.
  induction k as [ | k IH]; intros turns current end_time c st Hturns Hend Hmax Hfair.
  - destruct turns as [ | [ | turns]]; try lia.
    cbn [while_loop].
    replace (current <=? end_time) with true by (symmetry; apply Z.leb_le; lia).
    destruct (for_cities_backfill fuel current CITIES c st Hfair)
      as (c1 & st1 & Hrun & Hp & _).
    rewrite Hrun.
    unfold add_hour. replace (current + US_PER_HOUR <=? MAX) with true
      by (symmetry; apply Z.leb_le; lia).
    replace (current + US_PER_HOUR <=? end_time) with false
      by (symmetry; apply Z.leb_gt; unfold US_PER_HOUR; lia).
    exists c1, st1. split; [reflexivity | exact Hp].
  - destruct turns as [ | turns]; try lia.
    cbn [while_loop].
    replace (current <=? end_time) with true
      by (symmetry; apply Z.leb_le; unfold US_PER_HOUR in *; lia).
    destruct (for_cities_backfill fuel current CITIES c st Hfair)
      as (c1 & st1 & Hrun1 & Hp & Hfair1).
    rewrite Hrun1.
    unfold add_hour. replace (current + US_PER_HOUR <=? MAX) with true
      by (symmetry; apply Z.leb_le; unfold US_PER_HOUR in *; lia).
    destruct (IH turns (current + US_PER_HOUR) end_time c1 st1 ltac:(lia)
                ltac:(lia) Hmax Hfair1) as (c' & st' & Hrun & Hb).
    exists c', st'. split; [exact Hrun | ].
    cbn [hours]. eapply backfill_cons_time; [exact Hp | exact Hb].
Qed.

Lemma hours_length (n : nat) : forall t, List.length (hours t n) = n.
Proof. induction n as [ | k IH]; intros t; cbn; [ | rewrite IH]; reflexivity. Qed.

(** The subtraction of a number of days that stays in range. *)
Lemma sub_days_in_range (now days : Z) :
  Z.abs days <= 999999999 -> 0 <= now - days * US_PER_DAY <= MAX ->
  sub_days now days = Some (now - days * US_PER_DAY).
Proof.
  intros Hd Hr. unfold sub_days.
  replace (Z.abs days >? 999999999) with false
    by (symmetry; rewrite Z.gtb_ltb; apply Z.ltb_ge; lia).
  replace ((0 <=? now - days * US_PER_DAY) && (now - days * US_PER_DAY <=? MAX))
    with true
    by (symmetry; apply andb_true_intro; split; apply Z.leb_le; lia).
  reflexivity.
Qed.

(** X16.  A backfill of [days >= 0] days returns after [24 * days + 1]
    passes, both ends of the period included: it counts 15 records per
    pass, and it posts one observation per location and per hour, the hours
    from the oldest on and, within an hour, the locations in the order of
    CITIES.  The period must lie in the range of [datetime], the turns
    must cover the passes, and the loops of [random.choice] and
    [random.randint] must end within the fuel wherever they start in the
    stream of the generator. *)
Theorem historical_backfill_complete (turns fuel : nat) (now days : Z) (st : Script) :
  0 <= days <= 999999999 ->
  days * US_PER_DAY <= now -> now + US_PER_HOUR <= MAX ->
  (Z.to_nat (24 * days) + 2 <= turns)%nat ->
  fair randbelow_arguments fuel (s_rng st) ->
  exists c st',
    generate_historical_data strftime turns fuel now token days st = Returned c st' /\
    total_records c = 15 * (24 * days + 1) /\
    exists new,
      s_posted st' = s_posted st ++ new /\
      map (fun o => (location o, timestamp o)) new =
      expected_posts strftime (flat_map snd CITIES)
        (hours (now - days * US_PER_DAY) (S (Z.to_nat (24 * days)))).
Proof.
  intros Hd Hstart Hmax Hturns Hfair.
  unfold generate_historical_data.
  rewrite sub_days_in_range by (unfold US_PER_HOUR, US_PER_DAY in *; lia).
  set (st0 := print _ st).
  destruct (while_loop_run fuel (Z.to_nat (24 * days)) turns
              (now - days * US_PER_DAY) now
              {| successful_records := 0; total_records := 0 |} st0 Hturns)
    as (c & st' & Hrun & Hb).
  { rewrite Z2Nat.id by lia. unfold US_PER_HOUR, US_PER_DAY. lia. }
  { exact Hmax. }
  { exact Hfair. }
  rewrite Hrun. do 2 eexists. split; [reflexivity | ].
  destruct Hb as (B1 & _ & _ & (new & B4 & B5) & _).
  rewrite hours_length in B1.
  change (List.length (flat_map snd CITIES)) with 15%nat in B1.
  split.
  - rewrite B1. cbn [total_records]. lia.
  - exists new. split; [exact B4 | exact B5].
Qed.

(** X17.  A backfill counts as successful exactly the posts answered 201, so
    at most as many as the records; the first line it prints announces the
    days and the last one reports the two counts.  The period, the turns
    and the stream of the generator are as for the complete backfill. *)
Theorem historical_success_count (turns fuel : nat) (now days : Z) (st : Script) :
  0 <= days <= 999999999 ->
  days * US_PER_DAY <= now -> now + US_PER_HOUR <= MAX ->
  (Z.to_nat (24 * days) + 2 <= turns)%nat ->
  fair randbelow_arguments fuel (s_rng st) ->
  exists c st' lines,
    generate_historical_data strftime turns fuel now token days st = Returned c st' /\
    successful_records c =
      created (s_net st) (Z.to_nat (15 * (24 * days + 1))) /\
    0 <= successful_records c <= total_records c /\
    s_out st' =
      s_out st ++
      [("Generating historical data for " ++ Format.str_of_Z days ++ " days...")%string] ++
      lines ++
      [("Historical data generation complete: " ++
        Format.str_of_Z (successful_records c) ++ "/" ++
        Format.str_of_Z (total_records c) ++ " records ingested")%string].
Proof.
  intros Hd Hstart Hmax Hturns Hfair.
  unfold generate_historical_data.
  rewrite sub_days_in_range by (unfold US_PER_HOUR, US_PER_DAY in *; lia).
  set (st0 := print _ st).
  destruct (while_loop_run fuel (Z.to_nat (24 * days)) turns
              (now - days * US_PER_DAY) now
              {| successful_records := 0; total_records := 0 |} st0 Hturns)
    as (c & st' & Hrun & Hb).
  { rewrite Z2Nat.id by lia. unfold US_PER_HOUR, US_PER_DAY. lia. }
  { exact Hmax. }
  { exact Hfair. }
  rewrite Hrun.
  destruct Hb as (B1 & B2 & _ & _ & (lines & B6)).
  rewrite hours_length in B1, B2.
  change (List.length (flat_map snd CITIES)) with 15%nat in B1, B2.
  exists c. eexists. exists lines. split; [reflexivity | ].
  cbn [successful_records total_records] in B1, B2.
  assert (Hn : (15 * S (Z.to_nat (24 * days)))%nat = Z.to_nat (15 * (24 * days + 1)))
    by lia.
  rewrite Hn in B1, B2.
  pose proof (created_bounds (Z.to_nat (15 * (24 * days + 1))) (s_net st0)) as Hc.
  split; [exact B2 | split; [lia | ]].
  unfold print at 1. cbn [s_out]. rewrite B6. unfold st0, print. cbn [s_out].
  rewrite <- !app_assoc. reflexivity.
Qed.

(** X18.  A backfill of a negative number of days does nothing: the period
    starts after it ends, no observation is built or posted, no draw is
    consumed, and the two lines printed report 0/0. *)
Theorem historical_negative_days (turns fuel : nat) (now days : Z) (st : Script) :
  -999999999 <= days < 0 ->
  0 <= now -> now - days * US_PER_DAY <= MAX ->
  (1 <= turns)%nat ->
  generate_historical_data strftime turns fuel now token days st =
    Returned {| successful_records := 0; total_records := 0 |}
      {| s_rng := s_rng st; s_net := s_net st; s_posted := s_posted st;
         s_out := (s_out st ++
           [("Generating historical data for " ++ Format.str_of_Z days ++ " days...")%string])
           ++ ["Historical data generation complete: 0/0 records ingested"%string] |}.
Proof.
  intros Hd Hnow Hmax Hturns.
  unfold generate_historical_data.
  rewrite sub_days_in_range by (unfold US_PER_DAY in *; lia).
  destruct turns as [ | turns]; [lia | ].
  cbn [while_loop].
  replace (now - days * US_PER_DAY <=? now) with false
    by (symmetry; apply Z.leb_gt; unfold US_PER_DAY; lia).
  reflexivity.
Qed.

(** X19.  A backfill that reaches before the first instant of [datetime], or
    over more than 999999999 days, raises [OverflowError] right after the
    first line is printed: nothing is built or posted. *)
Theorem historical_overflow (turns fuel : nat) (now days : Z) (st : Script) :
  now < days * US_PER_DAY \/ 999999999 < Z.abs days ->
  generate_historical_data strftime turns fuel now token days st =
    OverflowError
      (print ("Generating historical data for " ++ Format.str_of_Z days ++ " days...")%string st).
Proof.
  intros H. unfold generate_historical_data, sub_days.
  destruct (Z.abs days >? 999999999) eqn:Ha; [reflexivity | ].
  rewrite Z.gtb_ltb in Ha. apply Z.ltb_ge in Ha.
  replace (0 <=? now - days * US_PER_DAY) with false
    by (symmetry; apply Z.leb_gt; lia).
  reflexivity.
Qed.

End HistoricalProps.

(* ================================================================== *)
(** * The further properties, on actual runs *)
(* ================================================================== *)

Section Runs.
Import Py Random MockMlService Json Facade Endpoints Retrain SampleDataGenerator
  Binary64 Streams.

(** X4 holds of actual requests: one without its hour, one complete. *)
Lemma predict_never_500_witness :
  let w := {| rng := fun _ => mkDraw 0.5 0; core_calls := [] |} in
  let incomplete := [("lat"%string, VFloat 16.5062); ("lon"%string, VFloat 80.6480);
                     ("dayOfWeek"%string, VStr "Monday")] in
  let complete := [("lat"%string, VFloat 16.5062); ("lon"%string, VFloat 80.6480);
                   ("hour"%string, VInt 8); ("dayOfWeek"%string, VStr "Monday");
                   ("historicalDataPoints"%string, VFloat 12.5)] in
  (forall error message,
     fst (predict (VDict incomplete) w) <> ServerError500 error message) /\
  (forall error message,
     fst (predict (VDict complete) w) <> ServerError500 error message).
Proof.
  cbv zeta. split; intros error message.
  - destruct (predict_never_500
                [("lat"%string, VFloat 16.5062); ("lon"%string, VFloat 80.6480);
                 ("dayOfWeek"%string, VStr "Monday")]
                {| rng := fun _ => mkDraw 0.5 0; core_calls := [] |})
      as [(field & _ & H) | (body & w' & H)];
      try (intros v Hv; discriminate); rewrite H; discriminate.
  - destruct (predict_never_500
                [("lat"%string, VFloat 16.5062); ("lon"%string, VFloat 80.6480);
                 ("hour"%string, VInt 8); ("dayOfWeek"%string, VStr "Monday");
                 ("historicalDataPoints"%string, VFloat 12.5)]
                {| rng := fun _ => mkDraw 0.5 0; core_calls := [] |})
      as [(field & _ & H) | (body & w' & H)];
      try (intros v Hv; injection Hv as <-; reflexivity); rewrite H; discriminate.
Defined.

(** X6 holds of an actual batch: two complete items, the first with an
    identifier of its own, the second without. *)
Lemma batch_predict_ids_witness :
  let first := VDict [("lat"%string, VFloat 16.5062); ("lon"%string, VFloat 80.6480);
                      ("hour"%string, VInt 8); ("dayOfWeek"%string, VStr "Monday");
                      ("id"%string, VStr "a")] in
  let second := VDict [("lat"%string, VFloat 12.9176); ("lon"%string, VFloat 77.6227);
                       ("hour"%string, VInt 23); ("dayOfWeek"%string, VStr "Sunday");
                       ("weather"%string, VStr "RAIN");
                       ("historicalDataPoints"%string, VInt 12)] in
  let data := VDict [("requests"%string, VList [first; second])] in
  let w := {| rng := fun _ => mkDraw 0.5 0; core_calls := [] |} in
  exists body r0 r1,
    fst (batch_predict data w) = Ok200 body /\
    nth_error (results body) 0 = Some r0 /\ b_id r0 = VStr "a" /\
    nth_error (results body) 1 = Some r1 /\ b_id r1 = VInt 1.
Proof.
  cbv zeta.
  destruct (batch_predict_ids
              (VDict [("requests"%string,
                       VList [VDict [("lat"%string, VFloat 16.5062);
                                     ("lon"%string, VFloat 80.6480);
                                     ("hour"%string, VInt 8);
                                     ("dayOfWeek"%string, VStr "Monday");
                                     ("id"%string, VStr "a")];
                              VDict [("lat"%string, VFloat 12.9176);
                                     ("lon"%string, VFloat 77.6227);
                                     ("hour"%string, VInt 23);
                                     ("dayOfWeek"%string, VStr "Sunday");
                                     ("weather"%string, VStr "RAIN");
                                     ("historicalDataPoints"%string, VInt 12)]])])
              {| rng := fun _ => mkDraw 0.5 0; core_calls := [] |} _ eq_refl)
    as (items & Hi & _ & _ & H).
  injection Hi as <-.
  destruct (H 0%nat _ eq_refl) as (r0 & H0 & I0).
  destruct (H 1%nat _ eq_refl) as (r1 & H1 & I1).
  eexists. exists r0, r1. split; [reflexivity | ].
  split; [exact H0 | split; [exact I0 | split; [exact H1 | exact I1]]].
Defined.

(** X7 holds of an actual request. *)
Lemma batch_of_one_witness :
  let req := VDict [("lat"%string, VFloat 16.5062); ("lon"%string, VFloat 80.6480);
                    ("hour"%string, VInt 8); ("dayOfWeek"%string, VStr "Monday")] in
  let w := {| rng := fun _ => mkDraw 0.5 0; core_calls := [] |} in
  exists w'',
    batch_predict (VDict [("requests"%string, VList [req])]) w =
      (Ok200 {| results := [{| b_id := VInt 0;
                               b_prediction := HIGH;
                               b_confidence := 0.75%float |}];
                total_predictions := 1 |}, w'').
Proof.
  cbv zeta.
  destruct (batch_of_one_agrees_with_predict
              (VDict [("lat"%string, VFloat 16.5062); ("lon"%string, VFloat 80.6480);
                      ("hour"%string, VInt 8); ("dayOfWeek"%string, VStr "Monday")])
              {| rng := fun _ => mkDraw 0.5 0; core_calls := [] |} _ _
              [("requests"%string,
                VList [VDict [("lat"%string, VFloat 16.5062);
                              ("lon"%string, VFloat 80.6480);
                              ("hour"%string, VInt 8);
                              ("dayOfWeek"%string, VStr "Monday")]])]
              eq_refl eq_refl)
    as (w'' & H & _).
  exists w''. exact H.
Defined.

(** X8 holds of an actual run: the first draw, whose three bits make 7, is
    rejected, the second gives the version v1.2.6, and the third, 0.93,
    the improvement +1.9%. *)
Lemma retrain_model_witness :
  let s : Source := fun n => match n with
                             | 0%nat => mkDraw 0.5 7
                             | 1%nat => mkDraw 0.5 2
                             | _ => mkDraw 0.93 0
                             end in
  rejections 5 7 s = Some 1%nat /\
  option_map fst (retrain_model 5 {| rng := s; core_calls := [] |}) =
    Some (Ok200 {| status := "Training completed";
                   new_version := "v1.2.6";
                   training_time := "2.3 seconds (simulated)";
                   accuracy_improvement := "+1.9%" |}) /\
  exists (k n : Z) (s' : Source),
    4 <= k <= 10 /\ 5 <= n <= 20 /\
    retrain_model 5 {| rng := s; core_calls := [] |} =
      Some (Ok200 {| status := "Training completed";
                     new_version := "v1.2." ++ Format.str_of_Z k;
                     training_time := "2.3 seconds (simulated)";
                     accuracy_improvement :=
                       "+" ++ (Format.str_of_Z (n / 10) ++ "." ++
                               Format.str_of_Z (n mod 10)) ++ "%" |},
            {| rng := s'; core_calls := [] |}) /\
    consumed 3 s s'.
Proof.
  cbv zeta. split; [reflexivity | split; [reflexivity | ]].
  pose proof (retrain_model_response 5
                {| rng := fun n => match n with
                                   | 0%nat => mkDraw 0.5 7
                                   | 1%nat => mkDraw 0.5 2
                                   | _ => mkDraw 0.93 0
                                   end;
                   core_calls := [] |}) as H.
  cbn [rng] in H.
  change (rejections 5 7 _) with (Some 1%nat) in H. cbv iota beta in H.
  destruct (H eq_refl) as (k & n & s' & Hk & Hn & _ & Hrun & Hc).
  exists k, n, s'. split; [exact Hk | split; [exact Hn | split; [exact Hrun | exact Hc]]].
Defined.

(** The stream whose every draw is 0.25, the raw integers being, in turn,
    63, of which every call of [_randbelow] of the script rejects the bits
    it keeps, and 1, which it accepts. *)
Lemma alternating_fair :
  fair randbelow_arguments 2
    (fun n => if Nat.even n then mkDraw 0.25 63 else mkDraw 0.25 1).
Proof.
  intros n Hn i.
  assert (Ha : accepted n (mkDraw 0.25 1) = true).
  { cbn in Hn. destruct Hn as [<- | [<- | [<- | [<- | [<- | []]]]]]; reflexivity. }
  destruct (Nat.even i) eqn:Hi.
  - exists 1%nat. split; [lia | ].
    replace (i + 1)%nat with (S i) by lia. rewrite Nat.even_succ, <- Nat.negb_even, Hi.
    exact Ha.
  - exists 0%nat. split; [lia | ]. rewrite Nat.add_0_r, Hi. exact Ha.
Qed.

(** X9 holds of an actual run: noon on a Wednesday, on the alternating
    stream from its second draw on.  The density drawn is MODERATE;
    [random.choice] rejects one draw and returns RAIN; the weather step
    tosses its coin; [random.randint] accepts its first draw: the eight
    draws are the six, the coin and the rejected one. *)
Lemma generate_traffic_data_consumes_witness :
  let s : Source := fun n => if Nat.even (S n) then mkDraw 0.25 63
                             else mkDraw 0.25 1 in
  exists o s',
    generate_traffic_data 2
      (mkLocation "Benz Circle" 16.5070 80.6490)
      (mkTimestamp 12 2 "2024-01-17T12:00:00") s = Some (o, s') /\
    weatherCondition o = "RAIN"%string /\
    consumed 8 s s'.
Proof.
  cbv zeta. do 2 eexists. split; [reflexivity | split; [reflexivity | ]].
  edestruct (generate_traffic_data_consumes 2
               (mkLocation "Benz Circle" 16.5070 80.6490)
               (mkTimestamp 12 2 "2024-01-17T12:00:00")
               (fun n => if Nat.even (S n) then mkDraw 0.25 63 else mkDraw 0.25 1))
    as (j1 & j2 & H1 & H2 & Hc); [reflexivity | ].
  cbv zeta in *.
  vm_compute in H1. injection H1 as <-.
  vm_compute in H2. injection H2 as <-.
  exact Hc.
Defined.

(** X10 holds of an actual run: noon on a Wednesday, every draw being 0.25
    and the raw integer 1. *)
Lemma observation_consistent_witness :
  exists o s',
    generate_traffic_data 1
      (mkLocation "Benz Circle" 16.5070 80.6490)
      (mkTimestamp 12 2 "2024-01-17T12:00:00")
      (fun _ => mkDraw 0.25 1) = Some (o, s') /\
    location o = "Benz Circle"%string /\
    In (weatherCondition o) WEATHER_CONDITIONS.
Proof.
  do 2 eexists. split; [reflexivity | ].
  edestruct (observation_consistent 1
               (mkLocation "Benz Circle" 16.5070 80.6490)
               (mkTimestamp 12 2 "2024-01-17T12:00:00")
               (fun _ => mkDraw 0.25 1))
    as (H1 & _ & H3 & _);
    [intros n; reflexivity | reflexivity | ].
  split; [exact H1 | exact H3].
Defined.

(** X11 holds of an actual run: the same one, whose weather is RAIN. *)
Lemma rain_or_fog_witness :
  exists o s',
    generate_traffic_data 1
      (mkLocation "Benz Circle" 16.5070 80.6490)
      (mkTimestamp 12 2 "2024-01-17T12:00:00")
      (fun _ => mkDraw 0.25 1) = Some (o, s') /\
    weatherCondition o = "RAIN"%string /\
    trafficDensity o <> LOW.
Proof.
  do 2 eexists. split; [reflexivity | ]. split; [reflexivity | ].
  eapply (rain_or_fog_is_never_low 1
            (mkLocation "Benz Circle" 16.5070 80.6490)
            (mkTimestamp 12 2 "2024-01-17T12:00:00")
            (fun _ => mkDraw 0.25 1));
    [reflexivity | left; reflexivity].
Defined.

(** X12 holds of an actual run: 8 h on a Monday, every draw being 0.75,
    which draws CRITICAL in a rush hour. *)
Lemma observation_critical_witness :
  exists o s',
    generate_traffic_data 1
      (mkLocation "Benz Circle" 16.5070 80.6490)
      (mkTimestamp 8 0 "2024-01-15T08:00:00")
      (fun _ => mkDraw 0.75 1) = Some (o, s') /\
    trafficDensity o = CRITICAL.
Proof.
  do 2 eexists. split; [reflexivity | ].
  eapply (observation_critical_iff 1
            (mkLocation "Benz Circle" 16.5070 80.6490)
            (mkTimestamp 8 0 "2024-01-15T08:00:00")
            (fun _ => mkDraw 0.75 1));
    [reflexivity | split; [reflexivity | cbn; lia]].
Defined.

(** X13 holds of actual draws. *)
Lemma vehicle_count_orders_witness :
  exists count1 count2 s1 s2,
    generate_vehicle_count 1 LOW (fun _ => mkDraw 0.25 15) = Some (count1, s1) /\
    generate_vehicle_count 1 MODERATE (fun _ => mkDraw 0.25 0) = Some (count2, s2) /\
    count1 < count2.
Proof.
  do 4 eexists. split; [reflexivity | split; [reflexivity | ]].
  eapply (vehicle_count_orders_densities 1 1 LOW MODERATE
            (fun _ => mkDraw 0.25 15) (fun _ => mkDraw 0.25 0));
    reflexivity.
Defined.

(** X14 holds of actual draws: the fastest CRITICAL against the slowest
    MODERATE. *)
Lemma speed_orders_witness :
  (fst (generate_average_speed CRITICAL (fun _ => mkDraw 0.9999999999999999 0)) <=?
   fst (generate_average_speed MODERATE (fun _ => mkDraw 0 0)))%float = true.
Proof.
  apply speed_orders_separated_densities; [reflexivity | reflexivity | ].
  cbn. lia.
Defined.

End Runs.

Section BackfillRuns.
Import Py Random SampleDataGenerator Datetime HistoricalData.

(** X16 holds of an actual run: one day back from an instant of 2024, on
    the alternating stream and a server that answers 201. *)
Lemma historical_backfill_witness :
  exists c st',
    generate_historical_data (fun _ => "2024-01-17T12:00:00"%string) 26 2
      63840571200000000 "token" 1
      {| s_rng := fun n => if Nat.even n then mkDraw 0.25 63 else mkDraw 0.25 1;
         s_net := fun _ => Status 201;
         s_posted := []; s_out := [] |} = Returned c st' /\
    total_records c = 375.
Proof.
  destruct (historical_backfill_complete
              (fun _ => "2024-01-17T12:00:00"%string) "token" 26 2
              63840571200000000 1
              {| s_rng := fun n => if Nat.even n then mkDraw 0.25 63
                                   else mkDraw 0.25 1;
                 s_net := fun _ => Status 201;
                 s_posted := []; s_out := [] |})
    as (c & st' & H & Ht & _).
  - lia.
  - unfold US_PER_DAY. lia.
  - unfold MAX, US_PER_DAY, US_PER_HOUR. lia.
  - cbn. lia.
  - exact alternating_fair.
  - exists c, st'. split; [exact H | exact Ht].
Defined.

(** X17 holds of a run of one pass: the fifteen posts are answered 201. *)
Lemma historical_success_witness :
  exists c st',
    generate_historical_data (fun _ => "2024-01-17T12:00:00"%string) 2 2
      63840571200000000 "token" 0
      {| s_rng := fun n => if Nat.even n then mkDraw 0.25 63 else mkDraw 0.25 1;
         s_net := fun _ => Status 201;
         s_posted := []; s_out := [] |} = Returned c st' /\
    successful_records c = 15.
Proof.
  destruct (historical_success_count
              (fun _ => "2024-01-17T12:00:00"%string) "token" 2 2
              63840571200000000 0
              {| s_rng := fun n => if Nat.even n then mkDraw 0.25 63
                                   else mkDraw 0.25 1;
                 s_net := fun _ => Status 201;
                 s_posted := []; s_out := [] |})
    as (c & st' & lines & H & Hs & _).
  - lia.
  - unfold US_PER_DAY. lia.
  - unfold MAX, US_PER_DAY, US_PER_HOUR. lia.
  - cbn. lia.
  - exact alternating_fair.
  - exists c, st'. split; [exact H | ]. rewrite Hs. reflexivity.
Defined.

(** X18 holds of an actual run: one day forward. *)
Lemma historical_negative_witness :
  generate_historical_data (fun _ => ""%string) 1 0 63840571200000000 "token" (-1)
    {| s_rng := fun _ => mkDraw 0.25 1; s_net := fun _ => Status 201;
       s_posted := []; s_out := [] |} =
  Returned {| successful_records := 0; total_records := 0 |}
    {| s_rng := fun _ => mkDraw 0.25 1; s_net := fun _ => Status 201;
       s_posted := [];
       s_out := ["Generating historical data for -1 days..."%string;
                 "Historical data generation complete: 0/0 records ingested"%string] |}.
Proof.
  apply (historical_negative_days (fun _ => ""%string) "token" 1 0
           63840571200000000 (-1)).
  - lia.
  - lia.
  - unfold MAX, US_PER_DAY. lia.
  - lia.
Defined.

(** X19 holds of an actual run: a million days back from 2024. *)
Lemma historical_overflow_witness :
  generate_historical_data (fun _ => ""%string) 5 5 63840571200000000 "token" 1000000
    {| s_rng := fun _ => mkDraw 0.25 1; s_net := fun _ => Status 201;
       s_posted := []; s_out := [] |} =
  OverflowError
    {| s_rng := fun _ => mkDraw 0.25 1; s_net := fun _ => Status 201;
       s_posted := [];
       s_out := ["Generating historical data for 1000000 days..."%string] |}.
Proof.
  apply (historical_overflow (fun _ => ""%string) "token" 5 5
           63840571200000000 1000000).
  left. unfold US_PER_DAY. lia.
Defined.

End BackfillRuns.
